(** * Adaptive traffic-signal controller: a shallow embedding

    The development follows the two Python controllers of the repository:
    - [EdgeController]: [ProportionalController] of [src/edge_controller.py]
      (message ingestion, loss and latency accounting, moving window,
      proportional allocation, schedule publication, control loop);
    - [TrafficApi]: [AdaptiveController] of [src/traffic-api/app.py]
      (proportional allocation and schedule publication);
    - [VirtualSensor]: the sensor of [src/virtual_sensor.py], and
      [ApiSensor]: the sensor simulator of [src/traffic-api/app.py];
    - [ApiBackend]: the message handler and the history endpoint of
      [src/traffic-api/app.py];
    - [Dashboard]: the message handler and the export of
      [src/dashboard.py].

    Modelling conventions.
    - Python [int] is [Z].  Python [float] is modelled by exact rationals [Q]:
      rounding error of binary floating point is not represented.
    - A JSON / Python value that the code stores or computes with without
      checking its type is a [value]: a number, a string or [None] (JSON
      booleans, arrays and objects are not represented).
    - A Python [dict] keyed by lane names is an association list in insertion
      order ([dict]); assigning to an existing key keeps its position.
    - A raised exception is the [Raise] branch of [result]; the handler of
      [on_message] catches it and keeps the updates made before it.
    - What a function reads from outside (the clock, the hour, a random
      draw) is an argument of its model. *)

From Stdlib Require Import ZArith QArith Qround List String Bool Lia Lqa.
From Stdlib Require Import Permutation Sorted.
Import ListNotations.

Local Open Scope string_scope.
Local Open Scope list_scope.
Local Open Scope Z_scope.

(** ** Python numbers and values *)

Inductive num : Type :=
| Int (z : Z)
| Float (q : Q).

Inductive value : Type :=
| Num (n : num)
| Str (s : string)
| Null.

Definition num_to_Q (n : num) : Q :=
  match n with
  | Int z => inject_Z z
  | Float q => q
  end.

Definition num_add (a b : num) : num :=
  match a, b with
  | Int x, Int y => Int (x + y)
  | _, _ => Float (num_to_Q a + num_to_Q b)
  end.

Definition num_sub (a b : num) : num :=
  match a, b with
  | Int x, Int y => Int (x - y)
  | _, _ => Float (num_to_Q a - num_to_Q b)
  end.

Definition Qltb (a b : Q) : bool := negb (Qle_bool b a).

Definition num_ltb (a b : num) : bool := Qltb (num_to_Q a) (num_to_Q b).
Definition num_leb (a b : num) : bool := Qle_bool (num_to_Q a) (num_to_Q b).
Definition num_eqb (a b : num) : bool := Qeq_bool (num_to_Q a) (num_to_Q b).

(** [max(a, b)] and [min(a, b)] return their first argument unless the second
    is strictly larger (resp. smaller). *)
Definition py_max (a b : num) : num := if num_ltb a b then b else a.
Definition py_min (a b : num) : num := if num_ltb b a then b else a.

(** [int(x)] truncates toward zero. *)
Definition Qtrunc (q : Q) : Z := Z.quot (Qnum q) (Zpos (Qden q)).

Definition py_int (n : num) : Z :=
  match n with
  | Int z => z
  | Float q => Qtrunc q
  end.

(** [round(x, ndigits)] on a float rounds to the nearest multiple of
    [10 ** -ndigits], ties to the even one; on an [int] with [ndigits >= 0]
    it returns the integer. *)
Definition round_half_even (q : Q) : Z :=
  let f := Qfloor q in
  match Qcompare (q - inject_Z f) (1 # 2) with
  | Lt => f
  | Gt => f + 1
  | Eq => if Z.even f then f else f + 1
  end.

Definition py_round (q : Q) (ndigits : nat) : Q :=
  (inject_Z (round_half_even (q * inject_Z (10 ^ Z.of_nat ndigits)))
   / inject_Z (10 ^ Z.of_nat ndigits))%Q.

Definition num_round (n : num) (ndigits : nat) : num :=
  match n with
  | Int z => Int z
  | Float q => Float (py_round q ndigits)
  end.

(** [a != b] never raises: values of different kinds are simply different. *)
Definition value_ne (a b : value) : bool :=
  match a, b with
  | Num x, Num y => negb (num_eqb x y)
  | Str s, Str t => negb (String.eqb s t)
  | Null, Null => false
  | _, _ => true
  end.

(** ** Exceptions *)

Inductive exn : Type :=
| KeyError
| TypeError
| ValueError
| ZeroDivisionError.

Inductive result (A : Type) : Type :=
| Ok (a : A)
| Raise (e : exn).

Arguments Ok {A} a.
Arguments Raise {A} e.

Definition rbind {A B : Type} (r : result A) (k : A -> result B) : result B :=
  match r with
  | Ok a => k a
  | Raise e => Raise e
  end.

Declare Scope result_scope.
Delimit Scope result_scope with result.
Notation "'let*' x ':=' r 'in' k" := (rbind r (fun x => k))
  (at level 10, x pattern, r at level 100, k at level 200) : result_scope.
Local Open Scope result_scope.

(** Arithmetic on unchecked values raises [TypeError] off numbers. *)
Definition as_num (v : value) : result num :=
  match v with
  | Num n => Ok n
  | _ => Raise TypeError
  end.

Definition py_add (a b : value) : result num :=
  let* x := as_num a in
  let* y := as_num b in
  Ok (num_add x y).

Definition py_sub (a b : value) : result num :=
  let* x := as_num a in
  let* y := as_num b in
  Ok (num_sub x y).

(** [sum(xs)]: a left fold of [+] from the integer [0]. *)
Fixpoint py_sum_from (acc : num) (xs : list value) : result num :=
  match xs with
  | [] => Ok acc
  | x :: rest =>
      let* n := as_num x in
      py_sum_from (num_add acc n) rest
  end.

Definition py_sum (xs : list value) : result num := py_sum_from (Int 0) xs.

Definition Qsum (xs : list Q) : Q := fold_left Qplus xs (inject_Z 0).
Definition Zsum (xs : list Z) : Z := fold_left Z.add xs 0.

(** ** Dictionaries in insertion order *)

Section Dict.
Context {V : Type}.

Definition dict : Type := list (string * V).

Definition dict_keys (d : dict) : list string := map fst d.
Definition dict_values (d : dict) : list V := map snd d.

Fixpoint dict_get (d : dict) (k : string) : option V :=
  match d with
  | [] => None
  | (k', v) :: rest => if String.eqb k' k then Some v else dict_get rest k
  end.

(** [d[k] = v] *)
Fixpoint dict_set (d : dict) (k : string) (v : V) : dict :=
  match d with
  | [] => [(k, v)]
  | (k', v') :: rest =>
      if String.eqb k' k then (k', v) :: rest
      else (k', v') :: dict_set rest k v
  end.

(** [d[k]] as an expression *)
Definition getitem (d : dict) (k : string) : result V :=
  match dict_get d k with
  | Some v => Ok v
  | None => Raise KeyError
  end.

(** [d.get(k, default)] *)
Definition dict_get_default (d : dict) (k : string) (default : V) : V :=
  match dict_get d k with
  | Some v => v
  | None => default
  end.

(** [{k: f(k) for k in ks}] *)
Definition dict_comp (ks : list string) (f : string -> V) : dict :=
  fold_left (fun d k => dict_set d k (f k)) ks [].
End Dict.

Arguments dict V : clear implicits.

(** The key list of a dictionary after one more key has been assigned. *)
Definition add_key (ks : list string) (k : string) : list string :=
  if in_dec string_dec k ks then ks else ks ++ [k].

(** The keys of every dictionary the controllers build by iterating over the
    configured lane list. *)
Definition lane_keys (lanes : list string) : list string :=
  fold_left add_key lanes [].

(** ** The redistribution loop

    Both controllers end [compute_green_times] with the same loop:
<<
    for lane in sorted_lanes:
        if diff == 0:
            break
        adjustment = 1 if diff > 0 else -1
        green_times[lane] += adjustment
        diff -= adjustment
>>
*)
Fixpoint redistribute (sorted_lanes : list string) (green_times : dict Z)
    (diff : Z) : result (dict Z) :=
  match sorted_lanes with
  | [] => Ok green_times
  | lane :: rest =>
      if diff =? 0 then Ok green_times
      else
        let adjustment := if 0 <? diff then 1 else -1 in
        let* g := getitem green_times lane in
        redistribute rest (dict_set green_times lane (g + adjustment))
          (diff - adjustment)
  end.

(** [sorted(items, key=..., reverse=True)]: a stable sort into descending key
    order; equal keys keep their original relative order. *)
Section Sorted.
Context {A : Type} (key : A -> Q).

Fixpoint insert_desc (x : A) (l : list A) : list A :=
  match l with
  | [] => [x]
  | y :: rest =>
      if Qltb (key x) (key y) then y :: insert_desc x rest
      else x :: y :: rest
  end.

Definition sorted_desc (l : list A) : list A :=
  fold_right insert_desc [] l.
End Sorted.

(** [{k: f(k) for k in ks}] and the loops [for k in ks: d[k] = f(k)] whose
    body can raise. *)
Fixpoint dict_for {V : Type} (ks : list string) (f : string -> result V)
    (acc : dict V) : result (dict V) :=
  match ks with
  | [] => Ok acc
  | k :: rest =>
      let* v := f k in
      dict_for rest f (dict_set acc k v)
  end.

(** [[f(x) for x in xs]] with a body that can raise. *)
Fixpoint list_for {A B : Type} (xs : list A) (f : A -> result B)
    : result (list B) :=
  match xs with
  | [] => Ok []
  | x :: rest =>
      let* y := f x in
      let* ys := list_for rest f in
      Ok (y :: ys)
  end.

(** [a // b] on integers. *)
Definition floordiv (a b : Z) : result Z :=
  if b =? 0 then Raise ZeroDivisionError else Ok (a / b).

(** * [ProportionalController] ([src/edge_controller.py]) *)

Module EdgeController.

(** [config['timing_parameters']] *)
Record Timing : Type := {
  cycle_length : Z;
  yellow_time : Z;
  all_red_time : Z;
  min_green : Z;
  max_green : Z;
  control_interval : Z
}.

(** The keys of [config/controller.yml] that the controller reads. *)
Record Config : Type := {
  intersection_id : string;
  qos_level : Z;
  timing : Timing;
  lanes : list string;
  moving_average_window : Q;
  algorithm_type : string
}.

(** One entry of [sensor_data[lane]]. *)
Record Reading : Type := {
  density : value;
  queue : value;
  timestamp : num
}.

Record Metrics : Type := {
  latencies : list Q;
  lost_messages : num;
  total_messages : Z;
  cycle_count : Z
}.

Record Controller : Type := {
  config : Config;
  sensor_data : dict (list Reading);
  last_seq : dict value;
  metrics : Metrics
}.

(** [__init__]: the configuration is stored as loaded; nothing in it is
    inspected beyond the keys read here. *)
Definition init (cfg : Config) : Controller :=
  {| config := cfg;
     sensor_data := dict_comp (lanes cfg) (fun _ => []);
     last_seq := dict_comp (lanes cfg) (fun _ => Num (Int (-1)));
     metrics := {| latencies := [];
                   lost_messages := Int 0;
                   total_messages := 0;
                   cycle_count := 0 |} |}.

(** *** Field updates *)

Definition set_sensor_data (sd : dict (list Reading)) (st : Controller)
    : Controller :=
  {| config := config st; sensor_data := sd;
     last_seq := last_seq st; metrics := metrics st |}.

Definition set_last_seq (ls : dict value) (st : Controller) : Controller :=
  {| config := config st; sensor_data := sensor_data st;
     last_seq := ls; metrics := metrics st |}.

Definition set_metrics (m : Metrics) (st : Controller) : Controller :=
  {| config := config st; sensor_data := sensor_data st;
     last_seq := last_seq st; metrics := m |}.

Definition add_lost (lost : num) (m : Metrics) : Metrics :=
  {| latencies := latencies m;
     lost_messages := num_add (lost_messages m) lost;
     total_messages := total_messages m;
     cycle_count := cycle_count m |}.

Definition incr_total (m : Metrics) : Metrics :=
  {| latencies := latencies m;
     lost_messages := lost_messages m;
     total_messages := total_messages m + 1;
     cycle_count := cycle_count m |}.

Definition append_latency (l : Q) (m : Metrics) : Metrics :=
  {| latencies := latencies m ++ [l];
     lost_messages := lost_messages m;
     total_messages := total_messages m;
     cycle_count := cycle_count m |}.

Definition incr_cycle (m : Metrics) : Metrics :=
  {| latencies := latencies m;
     lost_messages := lost_messages m;
     total_messages := total_messages m;
     cycle_count := cycle_count m + 1 |}.

(** *** The handler monad: controller state plus exceptions.  An exception
    leaves the state as the statements before it made it. *)

Definition M (A : Type) : Type := Controller -> result A * Controller.

Definition ret {A : Type} (a : A) : M A := fun st => (Ok a, st).

Definition bind {A B : Type} (m : M A) (k : A -> M B) : M B :=
  fun st =>
    match m st with
    | (Ok a, st') => k a st'
    | (Raise e, st') => (Raise e, st')
    end.

Definition lift {A : Type} (r : result A) : M A := fun st => (r, st).

Definition reads {A : Type} (f : Controller -> result A) : M A :=
  fun st => (f st, st).

Definition modify (f : Controller -> Controller) : M unit :=
  fun st => (Ok tt, f st).

Declare Scope handler_scope.
Delimit Scope handler_scope with handler.
Notation "x <- m ;; k" := (bind m (fun x => k))
  (at level 100, m at next level, right associativity) : handler_scope.
Notation "m ;; k" := (bind m (fun _ => k))
  (at level 100, right associativity) : handler_scope.

(** [self.last_seq[lane]] with the lane taken from the payload: only a
    string can equal a configured lane name. *)
Definition lookup_lane {V : Type} (d : dict V) (lane : value)
    : result (string * V) :=
  match lane with
  | Str s => let* v := getitem d s in Ok (s, v)
  | _ => Raise KeyError
  end.

(** [v >= 0] *)
Definition py_ge0 (v : value) : result bool :=
  let* n := as_num v in Ok (num_leb (Int 0) n).

(** The format specs of the final [print]: [:5.1f] on the density and [:2]
    on the queue length. *)
Definition format_density (v : value) : result unit :=
  match v with
  | Num _ => Ok tt
  | Str _ => Raise ValueError
  | Null => Raise TypeError
  end.

Definition format_queue (v : value) : result unit :=
  match v with
  | Null => Raise TypeError
  | _ => Ok tt
  end.

(** The body of the [try] block of [on_message]; [t_receive] is the value
    of [time.time()] and [data] the decoded JSON object. *)
Definition on_message_body (t_receive : Q) (data : dict value) : M unit :=
  (lane_v <- lift (getitem data "lane") ;;
   t_publish_v <- lift (getitem data "ts") ;;
   t_publish <- lift (as_num t_publish_v) ;;
   let latency_ms := ((t_receive - num_to_Q t_publish) * inject_Z 1000)%Q in
   current_seq <- lift (getitem data "seq") ;;
   (* with self.lock: *)
   lane_last <- reads (fun st => lookup_lane (last_seq st) lane_v) ;;
   let lane := fst lane_last in
   let last := snd lane_last in
   expected_seq <- lift (py_add last (Num (Int 1))) ;;
   seen <- lift (py_ge0 last) ;;
   (if seen && value_ne current_seq (Num expected_seq) then
      lost <- lift (py_sub current_seq (Num expected_seq)) ;;
      modify (fun st => set_metrics (add_lost lost (metrics st)) st)
    else ret tt) ;;
   modify (fun st => set_last_seq (dict_set (last_seq st) lane current_seq) st) ;;
   modify (fun st => set_metrics (incr_total (metrics st)) st) ;;
   modify (fun st => set_metrics (append_latency latency_ms (metrics st)) st) ;;
   readings <- reads (fun st => getitem (sensor_data st) lane) ;;
   density_pct <- lift (getitem data "density_pct") ;;
   let entry := {| density := density_pct;
                   queue := dict_get_default data "queue_len" (Num (Int 0));
                   timestamp := t_publish |} in
   modify (fun st =>
     set_sensor_data (dict_set (sensor_data st) lane (readings ++ [entry])) st) ;;
   window <- reads (fun st => Ok (moving_average_window (config st))) ;;
   let cutoff := (t_receive - window)%Q in
   appended <- reads (fun st => getitem (sensor_data st) lane) ;;
   modify (fun st =>
     set_sensor_data
       (dict_set (sensor_data st) lane
          (filter (fun d => Qltb cutoff (num_to_Q (timestamp d))) appended))
       st) ;;
   (* print(...) after the lock is released *)
   lift (format_density density_pct) ;;
   lift (format_queue (dict_get_default data "queue_len" (Num (Int 0)))))%handler.

(** [on_message]: [except Exception] reports the error and returns. *)
Definition on_message (t_receive : Q) (data : dict value) (st : Controller)
    : Controller :=
  snd (on_message_body t_receive data st).

(** The exception the handler caught, if any. *)
Definition on_message_error (t_receive : Q) (data : dict value)
    (st : Controller) : option exn :=
  match fst (on_message_body t_receive data st) with
  | Ok _ => None
  | Raise e => Some e
  end.

(** A run of the handler over messages with their receipt times. *)
Definition ingest_all (msgs : list (Q * dict value)) (st : Controller)
    : Controller :=
  fold_left (fun s m => on_message (fst m) (snd m) s) msgs st.

(** *** [compute_green_times] *)

(** [sum(densities) / len(densities)], or [0.0] for an empty window. *)
Definition average (readings : list Reading) : result Q :=
  match readings with
  | [] => Ok (inject_Z 0)
  | _ =>
      let* s := py_sum (map density readings) in
      Ok (num_to_Q s / inject_Z (Z.of_nat (List.length readings)))%Q
  end.

Definition avg_densities (st : Controller) : result (dict Q) :=
  dict_for (lanes (config st))
    (fun lane => let* readings := getitem (sensor_data st) lane in
                 average readings)
    [].

(** [available = cycle - n_phases * (yellow + all_red)] *)
Definition available (cfg : Config) : Z :=
  cycle_length (timing cfg)
  - Z.of_nat (List.length (lanes cfg))
    * (yellow_time (timing cfg) + all_red_time (timing cfg)).

(** The clamped share of one lane:
    [max(min_green, min(max_green, proportion * available))]. *)
Definition raw_green (cfg : Config) (total_density avg : Q) : num :=
  let proportion := (avg / total_density)%Q in
  let raw := (proportion * inject_Z (available cfg))%Q in
  py_max (Int (min_green (timing cfg)))
    (py_min (Int (max_green (timing cfg))) (Float raw)).

Definition raw_greens (cfg : Config) (avg : dict Q) : result (dict num) :=
  let total_density := Qsum (dict_values avg) in
  dict_for (lanes cfg)
    (fun lane => let* a := getitem avg lane in
                 Ok (raw_green cfg total_density a))
    [].

(** [green_times = {lane: int(g) for lane, g in raw_greens.items()}]:
    the schedule before redistribution. *)
Definition rounded_greens (cfg : Config) (avg : dict Q) : result (dict Z) :=
  let* raw := raw_greens cfg avg in
  Ok (map (fun lg => (fst lg, py_int (snd lg))) raw).

(** [sorted(avg_densities.items(), key=lambda x: x[1], reverse=True)] *)
Definition sorted_lanes (avg : dict Q) : list (string * Q) :=
  sorted_desc snd avg.

Definition compute_green_times (st : Controller)
    : result (dict Z * dict Q) :=
  let cfg := config st in
  let* avg := avg_densities st in
  let total_density := Qsum (dict_values avg) in
  if Qle_bool total_density (inject_Z 0) then
    let* equal :=
      floordiv (cycle_length (timing cfg))
        (Z.of_nat (List.length (lanes cfg)) * 2) in
    Ok (dict_comp (lanes cfg) (fun _ => equal), avg)
  else
    let* green_times := rounded_greens cfg avg in
    let current_sum := Zsum (dict_values green_times) in
    let diff := available cfg - current_sum in
    if negb (diff =? 0) then
      let* adjusted :=
        redistribute (map fst (sorted_lanes avg)) green_times diff in
      Ok (adjusted, avg)
    else Ok (green_times, avg).

(** *** [publish_schedule] and the control loop *)

Record Phase : Type := {
  phase_lane : string;
  phase_green : Z;
  phase_yellow : Z
}.

(** The JSON object handed to [client.publish]. *)
Record Message : Type := {
  msg_intersection_id : string;
  msg_cycle_start_ts : Q;
  msg_cycle_length : Z;
  msg_cycle_count : Z;
  msg_phase_schedule : list Phase;
  msg_algorithm : string
}.

(** [now] is the value of [time.time()]. *)
Definition publish_schedule (now : Q) (st : Controller)
    (green_times : dict Z) : result Message :=
  let cfg := config st in
  let* phase_schedule :=
    list_for (lanes cfg)
      (fun lane =>
         let* g := getitem green_times lane in
         Ok {| phase_lane := lane;
               phase_green := g;
               phase_yellow := yellow_time (timing cfg) |}) in
  Ok {| msg_intersection_id := intersection_id cfg;
        msg_cycle_start_ts := now;
        msg_cycle_length := cycle_length (timing cfg);
        msg_cycle_count := cycle_count (metrics st);
        msg_phase_schedule := phase_schedule;
        msg_algorithm := algorithm_type cfg |}.

(** One iteration of the [while True] loop of [control_loop], after its
    [time.sleep]: compute, publish, log, count.  [log_to_csv] writes rows to
    the CSV file and changes no field of the controller.  An exception
    leaves the loop. *)
Definition control_loop_iteration (now : Q) (st : Controller)
    : result (Controller * Message) :=
  let* computed := compute_green_times st in
  let green_times := fst computed in
  let* message := publish_schedule now st green_times in
  Ok (set_metrics (incr_cycle (metrics st)) st, message).

(** *** [on_connect]: one subscription per entry of the lane list, to
    [f"traffic/{intersection_id}/{lane}/density"] at the configured QoS. *)
Definition density_topic (intersection lane : string) : string :=
  "traffic/" ++ intersection ++ "/" ++ lane ++ "/density".

Definition on_connect (cfg : Config) : list (string * Z) :=
  map (fun lane => (density_topic (intersection_id cfg) lane, qos_level cfg))
    (lanes cfg).

(** *** [log_to_csv] *)




(** *** The running controller

    [run] starts the MQTT network loop, which calls [on_message] for every
    delivery, and then the [while True] loop of [control_loop].  The lock
    makes the locked block of the handler and the averaging of
    [compute_green_times] exclude each other, and only the loop writes
    [cycle_count], so a run is a sequence of deliveries and ticks.  A tick
    that raises ends the loop. *)
Inductive Event : Type :=
| Deliver (t_receive : Q) (data : dict value)
| Tick (now : Q).

Fixpoint run_events (events : list Event) (st : Controller)
    : result (Controller * list Message) :=
  match events with
  | [] => Ok (st, [])
  | Deliver t_receive data :: rest =>
      run_events rest (on_message t_receive data st)
  | Tick now :: rest =>
      let* ticked := control_loop_iteration now st in
      let* later := run_events rest (fst ticked) in
      Ok (fst later, snd ticked :: snd later)
  end.

End EdgeController.

(** * [AdaptiveController] ([src/traffic-api/app.py]) *)

Module TrafficApi.

(** One entry of the global [sensor_data[lane]]. *)
Record Sample : Type := {
  density : value;
  ts : Q
}.

Record AdaptiveController : Type := {
  cycle_count : Z;
  cycle_length : Z;
  min_green : Z;
  max_green : Z;
  yellow_time : Z;
  all_red_time : Z;
  lanes : list string
}.

(** [__init__] *)
Definition init : AdaptiveController :=
  {| cycle_count := 0;
     cycle_length := 60;
     min_green := 10;
     max_green := 60;
     yellow_time := 3;
     all_red_time := 2;
     lanes := ["north"; "south"; "east"; "west"] |}.

(** [sum(d['density'] for d in samples) / len(samples)], or the integer [0]
    for an empty window. *)
Definition average (samples : list Sample) : result num :=
  match samples with
  | [] => Ok (Int 0)
  | _ =>
      let* s := py_sum (map density samples) in
      Ok (Float (num_to_Q s / inject_Z (Z.of_nat (List.length samples))))
  end.

Definition avg_density (self : AdaptiveController)
    (sensor_data : dict (list Sample)) : result (dict num) :=
  dict_for (lanes self)
    (fun lane => let* samples := getitem sensor_data lane in
                 average samples)
    [].

(** [sum(avg_density.values())] *)
Definition total_density (avg : dict num) : num :=
  fold_left num_add (dict_values avg) (Int 0).

Definition available_time (self : AdaptiveController) : Z :=
  cycle_length self
  - Z.of_nat (List.length (lanes self))
    * (yellow_time self + all_red_time self).

(** [raw_green[lane] = proportion * available_time] *)
Definition raw_green (self : AdaptiveController) (avg : dict num)
    : result (dict Q) :=
  dict_for (lanes self)
    (fun lane =>
       let* a := getitem avg lane in
       let proportion := (num_to_Q a / num_to_Q (total_density avg))%Q in
       Ok (proportion * inject_Z (available_time self))%Q)
    [].

(** [green_times[lane] = max(min_green, min(max_green, int(green)))]:
    the schedule before redistribution. *)
Definition clamped_greens (self : AdaptiveController) (avg : dict num)
    : result (dict Z) :=
  let* raw := raw_green self avg in
  dict_for (lanes self)
    (fun lane =>
       let* green := getitem raw lane in
       Ok (Z.max (min_green self) (Z.min (max_green self) (Qtrunc green))))
    [].

(** [sorted(self.lanes, key=lambda l: avg_density[l], reverse=True)] *)
Definition sorted_lanes (self : AdaptiveController) (avg : dict num)
    : result (list string) :=
  let* keyed :=
    list_for (lanes self)
      (fun l => let* a := getitem avg l in Ok (l, num_to_Q a)) in
  Ok (map fst (sorted_desc snd keyed)).

Definition compute_green_times (self : AdaptiveController)
    (sensor_data : dict (list Sample)) : result (dict Z) :=
  let* avg := avg_density self sensor_data in
  if num_leb (total_density avg) (Int 0) then
    Ok (dict_comp (lanes self) (fun _ => min_green self))
  else
    let* green_times := clamped_greens self avg in
    let current_sum := Zsum (dict_values green_times) in
    let diff := available_time self - current_sum in
    if negb (diff =? 0) then
      let* order := sorted_lanes self avg in
      redistribute order green_times diff
    else Ok green_times.

Record Phase : Type := {
  phase_lane : string;
  phase_green : Z;
  phase_yellow : Z
}.

Record Message : Type := {
  msg_intersection_id : string;
  msg_cycle_start_ts : Q;
  msg_cycle_length : Z;
  msg_cycle_count : Z;
  msg_phase_schedule : list Phase;
  msg_algorithm : string
}.

Definition incr_cycle (self : AdaptiveController) : AdaptiveController :=
  {| cycle_count := cycle_count self + 1;
     cycle_length := cycle_length self;
     min_green := min_green self;
     max_green := max_green self;
     yellow_time := yellow_time self;
     all_red_time := all_red_time self;
     lanes := lanes self |}.

(** [publish_schedule]: compute, build the message, publish, count. *)
Definition publish_schedule (now : Q) (self : AdaptiveController)
    (sensor_data : dict (list Sample))
    : result (AdaptiveController * Message) :=
  let* green_times := compute_green_times self sensor_data in
  let* phase_schedule :=
    list_for (lanes self)
      (fun lane =>
         let* g := getitem green_times lane in
         Ok {| phase_lane := lane;
               phase_green := g;
               phase_yellow := yellow_time self |}) in
  let message :=
    {| msg_intersection_id := "intersection_1";
       msg_cycle_start_ts := now;
       msg_cycle_length := cycle_length self;
       msg_cycle_count := cycle_count self;
       msg_phase_schedule := phase_schedule;
       msg_algorithm := "proportional_allocation" |} in
  Ok (incr_cycle self, message).
End TrafficApi.

(** * Derived quantities used in the statements *)

(** What one pass over [n] lanes, one second per lane, can remove from a
    rounding difference [diff]: [diff] itself when [|diff| <= n], otherwise
    [n] seconds in the direction of [diff]. *)
Definition single_pass (n : nat) (diff : Z) : Z :=
  Z.max (- Z.of_nat n) (Z.min (Z.of_nat n) diff).

(** [green_times[lane]] read back from a schedule, for statements about all
    lanes. *)
Definition green_of (g : dict Z) (lane : string) : Z :=
  dict_get_default g lane 0.

(** No clamp is active on the proportional path: every average is
    non-negative and [max(min_green, min(max_green, raw))] returns the raw
    share itself for every lane. *)
Definition unclamped (cfg : EdgeController.Config) (avg : dict Q) : Prop :=
  let total := Qsum (dict_values avg) in
  forall a, In a (dict_values avg) ->
    (0 <= a)%Q
    /\ EdgeController.raw_green cfg total a
       = Float (a / total * inject_Z (EdgeController.available cfg)).

(** The JSON object a sensor publishes ([VirtualSensor.publish_density],
    [src/virtual_sensor.py]). *)
Definition sensor_message (lane : string) (density_pct : num)
    (queue_len seq : Z) (ts : num) : dict value :=
  [("intersection_id", Str "intersection_1");
   ("lane", Str lane);
   ("density_pct", Num density_pct);
   ("queue_len", Num (Int queue_len));
   ("seq", Num (Int seq));
   ("ts", Num ts)].

(** A payload that carries a reading for [lane] with integer sequence number
    [seq]: the fields the handler reads are present, [ts] is a number. *)
Definition reading_for (lane : string) (seq : Z) (data : dict value) : Prop :=
  getitem data "lane" = Ok (Str lane)
  /\ (exists tp, getitem data "ts" = Ok (Num tp))
  /\ getitem data "seq" = Ok (Num (Int seq))
  /\ (exists d, getitem data "density_pct" = Ok d).

(** The per-lane window the averages are taken over. *)
Definition window (st : EdgeController.Controller) (lane : string)
    : list EdgeController.Reading :=
  dict_get_default (EdgeController.sensor_data st) lane [].

(** What the handler adds to [lost_messages] for sequence number [s] after
    [last], on integers. *)
Definition loss_step (last s : Z) : Z :=
  if (0 <=? last) && negb (s =? last + 1) then s - (last + 1) else 0.

Fixpoint loss_of (last : Z) (seqs : list Z) : Z :=
  match seqs with
  | [] => 0
  | s :: rest => loss_step last s + loss_of s rest
  end.

(** Payloads the handler gives up on before its first update: no [lane]
    field, a lane that is not a configured lane name, no [ts] or a [ts] that
    is not a number, no [seq], or a [seq] that is not a number on a lane whose
    last sequence number is non-negative. *)
Definition not_a_number (v : value) : Prop := forall n, v <> Num n.



(** ** Concrete inputs *)

Definition four_lanes : list string := ["north"; "south"; "east"; "west"].

Definition example_timing : EdgeController.Timing :=
  {| EdgeController.cycle_length := 60;
     EdgeController.yellow_time := 3;
     EdgeController.all_red_time := 2;
     EdgeController.min_green := 10;
     EdgeController.max_green := 60;
     EdgeController.control_interval := 60 |}.

Definition example_config : EdgeController.Config :=
  {| EdgeController.intersection_id := "intersection_1";
     EdgeController.qos_level := 1;
     EdgeController.timing := example_timing;
     EdgeController.lanes := four_lanes;
     EdgeController.moving_average_window := inject_Z 30;
     EdgeController.algorithm_type := "proportional" |}.

(** One reading per lane with densities 80, 20, 0, 0, all published and
    received at time 100. *)
Definition example_readings : list (Q * dict value) :=
  [(inject_Z 100, sensor_message "north" (Int 80) 8 0 (Int 100));
   (inject_Z 100, sensor_message "south" (Int 20) 2 0 (Int 100));
   (inject_Z 100, sensor_message "east" (Int 0) 0 0 (Int 100));
   (inject_Z 100, sensor_message "west" (Int 0) 0 0 (Int 100))].

Definition example_state : EdgeController.Controller :=
  EdgeController.ingest_all example_readings
    (EdgeController.init example_config).

(** Readings for lane north with the given sequence numbers, all published
    and received at time 100. *)
Definition north_trace (seqs : list Z) : list (Q * dict value) :=
  map (fun s => (inject_Z 100, sensor_message "north" (Int 50) 5 s (Int 100)))
    seqs.

(** [n] readings for lane north, numbered from 0. *)
Definition north_burst (n : nat) : list (Q * dict value) :=
  north_trace (map Z.of_nat (seq 0 n)).

(** Three readings per lane, numbered 0, 1, 2. *)
Definition three_per_lane : list (Q * dict value) :=
  flat_map
    (fun lane =>
       map (fun s => (inject_Z 100,
                      sensor_message lane (Int 40) 4 s (Int 100)))
         [0; 1; 2])
    four_lanes.


(** Three lanes and an available time of 40 seconds, with a green range wide
    enough that no share is clamped. *)
Definition rounding_config : EdgeController.Config :=
  {| EdgeController.intersection_id := "intersection_1";
     EdgeController.qos_level := 1;
     EdgeController.timing :=
       {| EdgeController.cycle_length := 55;
          EdgeController.yellow_time := 3;
          EdgeController.all_red_time := 2;
          EdgeController.min_green := 5;
          EdgeController.max_green := 60;
          EdgeController.control_interval := 60 |};
     EdgeController.lanes := ["north"; "south"; "east"];
     EdgeController.moving_average_window := inject_Z 30;
     EdgeController.algorithm_type := "proportional" |}.

(** Equal densities on the three lanes. *)
Definition rounding_state : EdgeController.Controller :=
  EdgeController.ingest_all
    [(inject_Z 100, sensor_message "north" (Int 30) 3 0 (Int 100));
     (inject_Z 100, sensor_message "south" (Int 30) 3 0 (Int 100));
     (inject_Z 100, sensor_message "east" (Int 30) 3 0 (Int 100))]
    (EdgeController.init rounding_config).

(** A configuration with no lane. *)
Definition empty_lanes_config : EdgeController.Config :=
  {| EdgeController.intersection_id := "intersection_1";
     EdgeController.qos_level := 1;
     EdgeController.timing := example_timing;
     EdgeController.lanes := [];
     EdgeController.moving_average_window := inject_Z 30;
     EdgeController.algorithm_type := "proportional" |}.

(** The global [sensor_data] of [app.py] at start: one empty deque per
    lane. *)
Definition api_idle_data : dict (list TrafficApi.Sample) :=
  [("north", []); ("south", []); ("east", []); ("west", [])].

Definition api_sample (d : Z) : TrafficApi.Sample :=
  {| TrafficApi.density := Num (Int d); TrafficApi.ts := inject_Z 100 |}.

(** One sample per lane with densities 80, 20, 0, 0. *)
Definition api_example_data : dict (list TrafficApi.Sample) :=
  [("north", [api_sample 80]); ("south", [api_sample 20]);
   ("east", [api_sample 0]); ("west", [api_sample 0])].


Definition number_within (lo hi : Q) (v : value) : Prop :=
  exists n, v = Num n /\ (lo <= num_to_Q n)%Q /\ (num_to_Q n <= hi)%Q.

(** A payload whose [density_pct], when present, satisfies [P]. *)
Definition density_satisfies (P : value -> Prop) (data : dict value) : Prop :=
  forall v, dict_get data "density_pct" = Some v -> P v.

(** There is a window for every configured lane and no other, and every
    density stored in the windows satisfies [P]. *)
Definition windows_satisfy (P : value -> Prop)
    (st : EdgeController.Controller) : Prop :=
  dict_keys (EdgeController.sensor_data st)
  = lane_keys (EdgeController.lanes (EdgeController.config st))
  /\ forall l rs,
       dict_get (EdgeController.sensor_data st) l = Some rs ->
       Forall (fun r => P (EdgeController.density r)) rs.





(** [[start, start + 1, ..., start + n - 1]] *)
Definition consecutive (start : Z) (n : nat) : list Z :=
  map (fun i => start + Z.of_nat i) (seq 0 n).

(** Descending order of keys, as [sorted(..., reverse=True)] leaves it. *)
Definition descending {A : Type} (key : A -> Q) (x y : A) : Prop :=
  (key y <= key x)%Q.

(** A run: the four readings of the worked example, a payload without a
    lane, a tick, a reading for lane north with a skipped sequence number,
    and a second tick. *)
Definition example_events : list EdgeController.Event :=
  map (fun m => EdgeController.Deliver (fst m) (snd m)) example_readings
  ++ [EdgeController.Deliver (inject_Z 101)
        [("density_pct", Num (Int 40)); ("seq", Num (Int 1));
         ("ts", Num (Int 101))];
      EdgeController.Tick (inject_Z 160);
      EdgeController.Deliver (inject_Z 162)
        (sensor_message "north" (Float (905 # 10)) 9 3 (Int 161));
      EdgeController.Tick (inject_Z 220)].

(** A north reading whose [density_pct] is the string ["high"], and the
    example controller after receiving it at time 100. *)
Definition text_density_message : dict value :=
  dict_set (sensor_message "north" (Int 0) 8 0 (Int 100))
    "density_pct" (Str "high").

Definition text_density_state : EdgeController.Controller :=
  EdgeController.on_message (inject_Z 100) text_density_message
    (EdgeController.init example_config).

(** * [VirtualSensor] ([src/virtual_sensor.py]) *)

Module VirtualSensor.

(** The fields of [config/sensor.yml] the sensor reads: the [simulation]
    section and the QoS of the [mqtt] section.  [publish_interval] and the
    peak hours are integers. *)
Record Config : Type := {
  peak_hours : list (Z * Z);
  peak_density_range : Q * Q;
  off_peak_density_range : Q * Q;
  noise_stddev : Q;
  publish_interval : Z;
  qos : Z
}.

Record Sensor : Type := {
  config : Config;
  lane : string;
  sequence : Z
}.

(** What one call of [publish_density] reads from outside: the hour of
    [datetime.now()], the values [random.uniform(a, b)] and
    [random.gauss(mu, sigma)] return, and [time.time()]. *)
Record World : Type := {
  hour : Z;
  uniform : Q -> Q -> Q;
  gauss : Q -> Q -> Q;
  time : Q
}.

(** [__init__] *)
Definition init (cfg : Config) (lane : string) : Sensor :=
  {| config := cfg; lane := lane; sequence := 0 |}.

(** [is_peak_hour]: some [start <= hour < end] among the peak hours. *)
Definition is_peak_hour (cfg : Config) (w : World) : bool :=
  existsb (fun p => (fst p <=? hour w) && (hour w <? snd p)) (peak_hours cfg).

(** [generate_realistic_density]: [max(0, min(100, base_density + noise))] *)
Definition generate_realistic_density (cfg : Config) (w : World) : num :=
  let range :=
    if is_peak_hour cfg w then peak_density_range cfg
    else off_peak_density_range cfg in
  let base_density := uniform w (fst range) (snd range) in
  let noise := gauss w (inject_Z 0) (noise_stddev cfg) in
  let density := (base_density + noise)%Q in
  py_max (Int 0) (py_min (Int 100) (Float density)).

(** [estimate_queue_length]: [int((density / 100) * max_queue)] with
    [max_queue = 20]. *)
Definition estimate_queue_length (density : num) : Z :=
  let max_queue := 20 in
  py_int (Float (num_to_Q density / inject_Z 100 * inject_Z max_queue)).

(** [publish_density]: the topic and the message published, the density
    returned, and the sensor with its counter advanced. *)
Definition publish_density (self : Sensor) (w : World)
    : Sensor * (string * dict value) * num :=
  let density := generate_realistic_density (config self) w in
  let queue := estimate_queue_length density in
  let message :=
    sensor_message (lane self) (num_round density 1) queue (sequence self)
      (Float (time w)) in
  let topic := ("traffic/intersection_1/" ++ lane self ++ "/density")%string in
  ({| config := config self;
      lane := lane self;
      sequence := sequence self + 1 |},
   (topic, message), density).

(** The [for i in range(cycles)] loop of [run]; [world i] is what the
    call of iteration [i] reads. *)
Fixpoint publish_loop (cycles : nat) (world : nat -> World) (i : nat)
    (self : Sensor) : Sensor * list (string * dict value) :=
  match cycles with
  | O => (self, [])
  | S n =>
      let published := publish_density self (world i) in
      let later := publish_loop n world (S i) (fst (fst published)) in
      (fst later, snd (fst published) :: snd later)
  end.

(** [run]: nothing is published when [connect] failed; otherwise
    [duration // interval] readings are. *)
Definition run (connected : bool) (duration : Z) (world : nat -> World)
    (self : Sensor) : result (Sensor * list (string * dict value)) :=
  if negb connected then Ok (self, [])
  else
    let* cycles := floordiv duration (publish_interval (config self)) in
    Ok (publish_loop (Z.to_nat cycles) world 0 self).
End VirtualSensor.

(** * [VirtualSensor] of the API backend ([src/traffic-api/app.py]) *)

Module ApiSensor.

Record Sensor : Type := {
  lane : string;
  seq : Z;
  last_density : num
}.

(** The hour of [datetime.now()], the value [random.gauss(mu, sigma)]
    returns, and [time.time()]. *)
Record World : Type := {
  hour : Z;
  gauss : Q -> Q -> Q;
  time : Q
}.

(** [__init__] *)
Definition init (lane : string) : Sensor :=
  {| lane := lane; seq := 0; last_density := Int 50 |}.

(** [generate_density]: the smoothed value is stored unclamped, the value
    returned is clamped to 0..100 and rounded to one decimal. *)
Definition generate_density (self : Sensor) (w : World) : Sensor * num :=
  let is_peak :=
    ((8 <=? hour w) && (hour w <? 10)) || ((17 <=? hour w) && (hour w <? 19)) in
  let base_density :=
    if is_peak then gauss w (inject_Z 75) (inject_Z 10)
    else gauss w (inject_Z 30) (inject_Z 8) in
  let smoothed :=
    Float ((7 # 10) * num_to_Q (last_density self) + (3 # 10) * base_density) in
  let density := py_max (Int 0) (py_min (Int 100) smoothed) in
  ({| lane := lane self; seq := seq self; last_density := smoothed |},
   num_round density 1).

(** [publish]: the topic and message published and the sensor with its
    counter advanced; [queue_len = int(density / 10)]. *)
Definition publish (self : Sensor) (w : World)
    : Sensor * (string * dict value) :=
  let generated := generate_density self w in
  let self1 := fst generated in
  let density := snd generated in
  let queue_len := py_int (Float (num_to_Q density / inject_Z 10)) in
  let message :=
    sensor_message (lane self1) density queue_len (seq self1)
      (Float (time w)) in
  let topic :=
    ("traffic/intersection_1/" ++ lane self1 ++ "/density")%string in
  ({| lane := lane self1;
      seq := seq self1 + 1;
      last_density := last_density self1 |},
   (topic, message)).
End ApiSensor.

(** A sensor configuration publishing every 2 seconds, and a world in
    which it is always noon, every draw returns its first argument and
    the clock reads 100. *)
Definition example_sensor_config : VirtualSensor.Config :=
  {| VirtualSensor.peak_hours := [(8, 10); (17, 19)];
     VirtualSensor.peak_density_range := (inject_Z 60, inject_Z 90);
     VirtualSensor.off_peak_density_range := (inject_Z 10, inject_Z 40);
     VirtualSensor.noise_stddev := inject_Z 5;
     VirtualSensor.publish_interval := 2;
     VirtualSensor.qos := 1 |}.

Definition example_world (i : nat) : VirtualSensor.World :=
  {| VirtualSensor.hour := 12;
     VirtualSensor.uniform := fun a _ => a;
     VirtualSensor.gauss := fun mu _ => mu;
     VirtualSensor.time := inject_Z 100 |}.

(** * The message handler and history endpoint of the API backend
      ([src/traffic-api/app.py])

    Payloads are JSON objects whose fields are numbers, strings or [null],
    except [phase_schedule], which, when present, is an array of such
    objects.  The deques of [metrics_log] named [f'{lane}_density'] and
    [f'{lane}_green'] are kept in two dictionaries keyed by the lane. *)

Module ApiBackend.

(** Keys of the dictionaries of [current_state] are values taken from
    payloads; two keys are the same when they compare equal. *)
Definition key_eqb (a b : value) : bool := negb (value_ne a b).

Section VDict.
Context {V : Type}.

Definition vdict : Type := list (value * V).

Fixpoint vdict_get (d : vdict) (k : value) : option V :=
  match d with
  | [] => None
  | (k', v) :: rest => if key_eqb k' k then Some v else vdict_get rest k
  end.

Fixpoint vdict_set (d : vdict) (k : value) (v : V) : vdict :=
  match d with
  | [] => [(k, v)]
  | (k', v') :: rest =>
      if key_eqb k' k then (k', v) :: rest else (k', v') :: vdict_set rest k v
  end.

Definition vgetitem (d : vdict) (k : value) : result V :=
  match vdict_get d k with
  | Some v => Ok v
  | None => Raise KeyError
  end.
End VDict.

Arguments vdict V : clear implicits.

(** [deque(maxlen=n).append(x)] *)
Definition deque_append {A : Type} (maxlen : nat) (d : list A) (x : A)
    : list A :=
  let l := d ++ [x] in
  skipn (List.length l - maxlen) l.

Record CurrentState : Type := {
  intersection_id : string;
  cycle_count : value;
  densities : vdict value;
  green_times : vdict value;
  signals : vdict string;
  timestamp : num;
  latency_ms : num;
  messages_received : Z;
  messages_lost : Z;
  api_status : string
}.

Record MetricsLog : Type := {
  timestamps : list string;
  density_log : dict (list value);
  green_log : dict (list value);
  latencies : list Q
}.

(** The three globals the handler works on. *)
Record Backend : Type := {
  current_state : CurrentState;
  metrics_log : MetricsLog;
  sensor_data : dict (list TrafficApi.Sample)
}.

(** The module-level initial values. *)
Definition init : Backend :=
  {| current_state :=
       {| intersection_id := "intersection_1";
          cycle_count := Num (Int 0);
          densities := [(Str "north", Num (Int 0)); (Str "south", Num (Int 0));
                        (Str "east", Num (Int 0)); (Str "west", Num (Int 0))];
          green_times := [(Str "north", Num (Int 10));
                          (Str "south", Num (Int 10));
                          (Str "east", Num (Int 10));
                          (Str "west", Num (Int 10))];
          signals := [(Str "north", "RED"); (Str "south", "RED");
                      (Str "east", "RED"); (Str "west", "RED")];
          timestamp := Int 0;
          latency_ms := Int 0;
          messages_received := 0;
          messages_lost := 0;
          api_status := "running" |};
     metrics_log :=
       {| timestamps := [];
          density_log := [("north", []); ("south", []); ("east", []);
                          ("west", [])];
          green_log := [("north", []); ("south", []); ("east", []);
                        ("west", [])];
          latencies := [] |};
     sensor_data := [("north", []); ("south", []); ("east", []);
                     ("west", [])] |}.

Definition set_current_state (c : CurrentState) (b : Backend) : Backend :=
  {| current_state := c;
     metrics_log := metrics_log b;
     sensor_data := sensor_data b |}.

Definition set_metrics_log (m : MetricsLog) (b : Backend) : Backend :=
  {| current_state := current_state b;
     metrics_log := m;
     sensor_data := sensor_data b |}.

Definition set_sensor_data (sd : dict (list TrafficApi.Sample)) (b : Backend)
    : Backend :=
  {| current_state := current_state b;
     metrics_log := metrics_log b;
     sensor_data := sd |}.

Definition set_cycle_count (v : value) (c : CurrentState) : CurrentState :=
  {| intersection_id := intersection_id c;
     cycle_count := v;
     densities := densities c;
     green_times := green_times c;
     signals := signals c;
     timestamp := timestamp c;
     latency_ms := latency_ms c;
     messages_received := messages_received c;
     messages_lost := messages_lost c;
     api_status := api_status c |}.

Definition set_density (lane density : value) (c : CurrentState)
    : CurrentState :=
  {| intersection_id := intersection_id c;
     cycle_count := cycle_count c;
     densities := vdict_set (densities c) lane density;
     green_times := green_times c;
     signals := signals c;
     timestamp := timestamp c;
     latency_ms := latency_ms c;
     messages_received := messages_received c;
     messages_lost := messages_lost c;
     api_status := api_status c |}.

Definition set_green_time (lane green : value) (c : CurrentState)
    : CurrentState :=
  {| intersection_id := intersection_id c;
     cycle_count := cycle_count c;
     densities := densities c;
     green_times := vdict_set (green_times c) lane green;
     signals := signals c;
     timestamp := timestamp c;
     latency_ms := latency_ms c;
     messages_received := messages_received c;
     messages_lost := messages_lost c;
     api_status := api_status c |}.

Definition set_signal (lane : value) (colour : string) (c : CurrentState)
    : CurrentState :=
  {| intersection_id := intersection_id c;
     cycle_count := cycle_count c;
     densities := densities c;
     green_times := green_times c;
     signals := vdict_set (signals c) lane colour;
     timestamp := timestamp c;
     latency_ms := latency_ms c;
     messages_received := messages_received c;
     messages_lost := messages_lost c;
     api_status := api_status c |}.

Definition set_timestamp (t : num) (c : CurrentState) : CurrentState :=
  {| intersection_id := intersection_id c;
     cycle_count := cycle_count c;
     densities := densities c;
     green_times := green_times c;
     signals := signals c;
     timestamp := t;
     latency_ms := latency_ms c;
     messages_received := messages_received c;
     messages_lost := messages_lost c;
     api_status := api_status c |}.

Definition set_latency_ms (l : num) (c : CurrentState) : CurrentState :=
  {| intersection_id := intersection_id c;
     cycle_count := cycle_count c;
     densities := densities c;
     green_times := green_times c;
     signals := signals c;
     timestamp := timestamp c;
     latency_ms := l;
     messages_received := messages_received c;
     messages_lost := messages_lost c;
     api_status := api_status c |}.

Definition incr_received (c : CurrentState) : CurrentState :=
  {| intersection_id := intersection_id c;
     cycle_count := cycle_count c;
     densities := densities c;
     green_times := green_times c;
     signals := signals c;
     timestamp := timestamp c;
     latency_ms := latency_ms c;
     messages_received := messages_received c + 1;
     messages_lost := messages_lost c;
     api_status := api_status c |}.

Definition append_latency (l : Q) (m : MetricsLog) : MetricsLog :=
  {| timestamps := timestamps m;
     density_log := density_log m;
     green_log := green_log m;
     latencies := deque_append 100 (latencies m) l |}.

Definition append_timestamp (t : string) (m : MetricsLog) : MetricsLog :=
  {| timestamps := deque_append 100 (timestamps m) t;
     density_log := density_log m;
     green_log := green_log m;
     latencies := latencies m |}.

Definition set_density_log (d : dict (list value)) (m : MetricsLog)
    : MetricsLog :=
  {| timestamps := timestamps m;
     density_log := d;
     green_log := green_log m;
     latencies := latencies m |}.

Definition set_green_log (g : dict (list value)) (m : MetricsLog)
    : MetricsLog :=
  {| timestamps := timestamps m;
     density_log := density_log m;
     green_log := g;
     latencies := latencies m |}.

(** A decoded payload. *)
Record Payload : Type := {
  fields : dict value;
  phase_schedule : option (list (dict value))
}.

(** What one call of the handler reads from outside: [time.time()] where
    the latency is computed, where the sample is stored and where the
    timestamp is set, and [datetime.now().isoformat()]. *)
Record World : Type := {
  t_latency : Q;
  t_sample : Q;
  t_stamp : Q;
  isoformat : string
}.

(** The handler runs in a state-and-exception monad over the globals:
    updates made before an exception stay. *)
Definition M (A : Type) : Type := Backend -> result A * Backend.

Definition ret {A : Type} (a : A) : M A := fun b => (Ok a, b).

Definition bind {A B : Type} (m : M A) (k : A -> M B) : M B :=
  fun b =>
    match m b with
    | (Ok a, b') => k a b'
    | (Raise e, b') => (Raise e, b')
    end.

Definition lift {A : Type} (r : result A) : M A := fun b => (r, b).

Definition reads {A : Type} (f : Backend -> result A) : M A :=
  fun b => (f b, b).

Definition modify (f : Backend -> Backend) : M unit :=
  fun b => (Ok tt, f b).

Declare Scope backend_scope.
Delimit Scope backend_scope with backend.
Notation "x <- m ;; k" := (bind m (fun x => k))
  (at level 61, m at next level, right associativity) : backend_scope.
Notation "m ;; k" := (bind m (fun _ => k))
  (at level 61, right associativity) : backend_scope.

Definition update_state (f : CurrentState -> CurrentState) : M unit :=
  modify (fun b => set_current_state (f (current_state b)) b).

Definition update_log (f : MetricsLog -> MetricsLog) : M unit :=
  modify (fun b => set_metrics_log (f (metrics_log b)) b).

(** [green > 0] *)
Definition py_gt0 (v : value) : result bool :=
  let* n := as_num v in Ok (num_ltb (Int 0) n).

(** The branch [if 'density_pct' in payload]. *)
Definition density_branch (w : World) (payload : dict value) : M unit :=
  (let lane := dict_get_default payload "lane" Null in
   let density := dict_get_default payload "density_pct" (Num (Int 0)) in
   update_state (set_density lane density) ;;
   update_state incr_received ;;
   (match dict_get payload "ts" with
    | Some ts =>
        elapsed <- lift (py_sub (Num (Float (t_latency w))) ts) ;;
        let latency := (num_to_Q elapsed * inject_Z 1000)%Q in
        update_state (set_latency_ms (Float (py_round latency 2))) ;;
        update_log (append_latency latency)
    | None => ret tt
    end) ;;
   samples <- reads (fun b => EdgeController.lookup_lane (sensor_data b) lane) ;;
   modify (fun b =>
     set_sensor_data
       (dict_set (sensor_data b) (fst samples)
          (deque_append 30 (snd samples)
             {| TrafficApi.density := density;
                TrafficApi.ts := t_sample w |}))
       b))%backend.

(** [for phase in schedule: ...] *)
Fixpoint apply_schedule (schedule : list (dict value)) : M unit :=
  match schedule with
  | [] => ret tt
  | phase :: rest =>
      (let lane := dict_get_default phase "lane" Null in
       let green := dict_get_default phase "green" (Num (Int 10)) in
       update_state (set_green_time lane green) ;;
       positive <- lift (py_gt0 green) ;;
       update_state (set_signal lane (if positive : bool then "GREEN" else "RED")) ;;
       apply_schedule rest)%backend
  end.

(** One iteration of [for lane in ['north', 'south', 'east', 'west']]. *)
Definition log_lane (lane : string) : M unit :=
  (dlog <- reads (fun b => getitem (density_log (metrics_log b)) lane) ;;
   d <- reads (fun b => vgetitem (densities (current_state b)) (Str lane)) ;;
   update_log (fun m =>
     set_density_log (dict_set (density_log m) lane (deque_append 100 dlog d))
       m) ;;
   glog <- reads (fun b => getitem (green_log (metrics_log b)) lane) ;;
   g <- reads (fun b => vgetitem (green_times (current_state b)) (Str lane)) ;;
   update_log (fun m =>
     set_green_log (dict_set (green_log m) lane (deque_append 100 glog g))
       m))%backend.

Fixpoint log_lanes (lanes : list string) : M unit :=
  match lanes with
  | [] => ret tt
  | lane :: rest => (log_lane lane ;; log_lanes rest)%backend
  end.

(** The branch [elif 'phase_schedule' in payload]. *)
Definition schedule_branch (w : World) (payload : dict value)
    (schedule : list (dict value)) : M unit :=
  (update_state
     (set_cycle_count (dict_get_default payload "cycle_count" (Num (Int 0)))) ;;
   apply_schedule schedule ;;
   update_log (append_timestamp (isoformat w)) ;;
   log_lanes four_lanes)%backend.

(** The body of the [try] block of [on_mqtt_message]. *)
Definition on_mqtt_message_body (w : World) (payload : Payload) : M unit :=
  ((match dict_get (fields payload) "density_pct" with
    | Some _ => density_branch w (fields payload)
    | None =>
        match phase_schedule payload with
        | Some schedule => schedule_branch w (fields payload) schedule
        | None => ret tt
        end
    end) ;;
   update_state (set_timestamp (Float (t_stamp w))))%backend.

(** [on_mqtt_message]: [except Exception] reports the error and returns. *)
Definition on_mqtt_message (w : World) (payload : Payload) (b : Backend)
    : Backend :=
  snd (on_mqtt_message_body w payload b).

Definition on_mqtt_message_error (w : World) (payload : Payload)
    (b : Backend) : option exn :=
  match fst (on_mqtt_message_body w payload b) with
  | Ok _ => None
  | Raise e => Some e
  end.

(** The handler run over a sequence of deliveries. *)
Definition deliver_all (msgs : list (World * Payload)) (b : Backend)
    : Backend :=
  fold_left (fun s m => on_mqtt_message (fst m) (snd m) s) msgs b.

(** [validate_api_key]: the [X-API-Key] header, if any, against
    [API_KEY]. *)
Definition validate_api_key (header : option string) (api_key : string)
    : bool :=
  match header with
  | Some key => String.eqb key api_key
  | None => false
  end.

(** [max(xs)] and [min(xs)] of a non-empty sequence [x :: xs]. *)
Definition py_list_max (x : Q) (xs : list Q) : Q :=
  fold_left (fun m y => if Qltb m y then y else m) xs x.

Definition py_list_min (x : Q) (xs : list Q) : Q :=
  fold_left (fun m y => if Qltb y m then y else m) xs x.

Record LatencyStats : Type := {
  stat_values : list Q;
  stat_mean : Q;
  stat_max : num;
  stat_min : num
}.

(** The [latencies] entry of the [get_history] response. *)
Definition latency_stats (l : list Q) : LatencyStats :=
  {| stat_values := l;
     stat_mean :=
       (Qsum l / inject_Z (Z.max 1 (Z.of_nat (List.length l))))%Q;
     stat_max :=
       match l with
       | [] => Int 0
       | x :: xs => Float (py_list_max x xs)
       end;
     stat_min :=
       match l with
       | [] => Int 0
       | x :: xs => Float (py_list_min x xs)
       end |}.

Record History : Type := {
  hist_timestamps : list string;
  hist_densities : dict (list value);
  hist_green_times : dict (list value);
  hist_latencies : LatencyStats
}.

Inductive Response (A : Type) : Type :=
| Unauthorized
| Json (body : A).

Arguments Unauthorized {A}.
Arguments Json {A} body.

(** [get_history]: status 401 without the key; otherwise the logs of the
    four lanes, a missing log raising [KeyError]. *)
Definition get_history (header : option string) (api_key : string)
    (b : Backend) : result (Response History) :=
  if negb (validate_api_key header api_key) then Ok Unauthorized
  else
    let m := metrics_log b in
    let* ds := dict_for four_lanes (fun lane => getitem (density_log m) lane) [] in
    let* gs := dict_for four_lanes (fun lane => getitem (green_log m) lane) [] in
    Ok (Json {| hist_timestamps := timestamps m;
                hist_densities := ds;
                hist_green_times := gs;
                hist_latencies := latency_stats (latencies m) |}).

(** The payload the handler decodes from a schedule published by
    [AdaptiveController.publish_schedule]: [json.loads(json.dumps(message))]. *)
Definition schedule_payload (message : TrafficApi.Message) : Payload :=
  {| fields :=
       [("intersection_id", Str (TrafficApi.msg_intersection_id message));
        ("cycle_start_ts", Num (Float (TrafficApi.msg_cycle_start_ts message)));
        ("cycle_length", Num (Int (TrafficApi.msg_cycle_length message)));
        ("cycle_count", Num (Int (TrafficApi.msg_cycle_count message)));
        ("algorithm", Str (TrafficApi.msg_algorithm message))];
     phase_schedule :=
       Some (map (fun p =>
                    [("lane", Str (TrafficApi.phase_lane p));
                     ("green", Num (Int (TrafficApi.phase_green p)));
                     ("yellow", Num (Int (TrafficApi.phase_yellow p)))])
               (TrafficApi.msg_phase_schedule message)) |}.

(** The payload decoded from a sensor reading. *)
Definition reading_payload (message : dict value) : Payload :=
  {| fields := message; phase_schedule := None |}.
End ApiBackend.

(** What the handler of the backend keeps true of the globals: the four
    lanes are keys of every per-lane dictionary, the deques are within
    their capacity, and the history deques all have the length of
    [timestamps]. *)
Definition backend_ok (b : ApiBackend.Backend) : Prop :=
  let c := ApiBackend.current_state b in
  let m := ApiBackend.metrics_log b in
  dict_keys (ApiBackend.sensor_data b) = four_lanes
  /\ dict_keys (ApiBackend.density_log m) = four_lanes
  /\ dict_keys (ApiBackend.green_log m) = four_lanes
  /\ (forall lane, In lane four_lanes ->
        ApiBackend.vdict_get (ApiBackend.densities c) (Str lane) <> None
        /\ ApiBackend.vdict_get (ApiBackend.green_times c) (Str lane) <> None)
  /\ (forall lane samples,
        dict_get (ApiBackend.sensor_data b) lane = Some samples ->
        (List.length samples <= 30)%nat)
  /\ (List.length (ApiBackend.latencies m) <= 100)%nat
  /\ (List.length (ApiBackend.timestamps m) <= 100)%nat
  /\ (forall lane l,
        dict_get (ApiBackend.density_log m) lane = Some l ->
        List.length l = List.length (ApiBackend.timestamps m))
  /\ (forall lane l,
        dict_get (ApiBackend.green_log m) lane = Some l ->
        List.length l = List.length (ApiBackend.timestamps m)).

(** Deliveries to the backend: a reading for lane north, a schedule, and a
    reading for a lane [sensor_data] does not know. *)
Definition example_backend_world : ApiBackend.World :=
  {| ApiBackend.t_latency := inject_Z 101;
     ApiBackend.t_sample := inject_Z 101;
     ApiBackend.t_stamp := inject_Z 101;
     ApiBackend.isoformat := "2025-11-08T12:00:00" |}.

Definition example_schedule : TrafficApi.Message :=
  {| TrafficApi.msg_intersection_id := "intersection_1";
     TrafficApi.msg_cycle_start_ts := inject_Z 100;
     TrafficApi.msg_cycle_length := 60;
     TrafficApi.msg_cycle_count := 7;
     TrafficApi.msg_phase_schedule :=
       [{| TrafficApi.phase_lane := "north";
           TrafficApi.phase_green := 25;
           TrafficApi.phase_yellow := 3 |};
        {| TrafficApi.phase_lane := "south";
           TrafficApi.phase_green := 0;
           TrafficApi.phase_yellow := 3 |}];
     TrafficApi.msg_algorithm := "proportional_allocation" |}.

Definition example_deliveries : list (ApiBackend.World * ApiBackend.Payload) :=
  [(example_backend_world,
    ApiBackend.reading_payload
      (sensor_message "north" (Float (805 # 10)) 8 0 (Int 100)));
   (example_backend_world, ApiBackend.schedule_payload example_schedule);
   (example_backend_world,
    ApiBackend.reading_payload
      (sensor_message "northeast" (Int 40) 4 0 (Int 100)))].


(** * The dashboard's message handler and export ([src/dashboard.py])

    Payloads, dictionary keys and deques are as in [ApiBackend]. *)

Module Dashboard.

(** One entry of [sensor_history[lane]]. *)
Record Entry : Type := {
  entry_time : Q;
  entry_density : value
}.

Record CurrentState : Type := {
  intersection_id : string;
  cycle_count : value;
  current_cycle : Z;
  densities : ApiBackend.vdict value;
  green_times : ApiBackend.vdict value;
  signals : ApiBackend.vdict string;
  timestamp : num;
  latency_ms : num;
  messages_received : Z;
  messages_lost : Z;
  avg_wait_time : Z
}.

Record MetricsLog : Type := {
  timestamps : list string;
  density_log : dict (list value);
  green_log : dict (list value);
  latencies : list Q
}.

(** The three globals the handler works on. *)
Record Globals : Type := {
  current_state : CurrentState;
  metrics_log : MetricsLog;
  sensor_history : dict (list Entry)
}.

(** The module-level initial values. *)
Definition init : Globals :=
  {| current_state :=
       {| intersection_id := "intersection_1";
          cycle_count := Num (Int 0);
          current_cycle := 0;
          densities := [(Str "north", Num (Int 0)); (Str "south", Num (Int 0));
                        (Str "east", Num (Int 0)); (Str "west", Num (Int 0))];
          green_times := [(Str "north", Num (Int 10));
                          (Str "south", Num (Int 10));
                          (Str "east", Num (Int 10));
                          (Str "west", Num (Int 10))];
          signals := [(Str "north", "RED"); (Str "south", "RED");
                      (Str "east", "RED"); (Str "west", "RED")];
          timestamp := Int 0;
          latency_ms := Int 0;
          messages_received := 0;
          messages_lost := 0;
          avg_wait_time := 0 |};
     metrics_log :=
       {| timestamps := [];
          density_log := [("north", []); ("south", []); ("east", []);
                          ("west", [])];
          green_log := [("north", []); ("south", []); ("east", []);
                        ("west", [])];
          latencies := [] |};
     sensor_history := [("north", []); ("south", []); ("east", []);
                        ("west", [])] |}.

Definition set_current_state (c : CurrentState) (d : Globals) : Globals :=
  {| current_state := c;
     metrics_log := metrics_log d;
     sensor_history := sensor_history d |}.

Definition set_metrics_log (m : MetricsLog) (d : Globals) : Globals :=
  {| current_state := current_state d;
     metrics_log := m;
     sensor_history := sensor_history d |}.

Definition set_sensor_history (h : dict (list Entry)) (d : Globals)
    : Globals :=
  {| current_state := current_state d;
     metrics_log := metrics_log d;
     sensor_history := h |}.

Definition set_cycle_count (v : value) (c : CurrentState) : CurrentState :=
  {| intersection_id := intersection_id c;
     cycle_count := v;
     current_cycle := current_cycle c;
     densities := densities c;
     green_times := green_times c;
     signals := signals c;
     timestamp := timestamp c;
     latency_ms := latency_ms c;
     messages_received := messages_received c;
     messages_lost := messages_lost c;
     avg_wait_time := avg_wait_time c |}.

Definition set_density (lane density : value) (c : CurrentState)
    : CurrentState :=
  {| intersection_id := intersection_id c;
     cycle_count := cycle_count c;
     current_cycle := current_cycle c;
     densities := ApiBackend.vdict_set (densities c) lane density;
     green_times := green_times c;
     signals := signals c;
     timestamp := timestamp c;
     latency_ms := latency_ms c;
     messages_received := messages_received c;
     messages_lost := messages_lost c;
     avg_wait_time := avg_wait_time c |}.

Definition set_green_time (lane green : value) (c : CurrentState)
    : CurrentState :=
  {| intersection_id := intersection_id c;
     cycle_count := cycle_count c;
     current_cycle := current_cycle c;
     densities := densities c;
     green_times := ApiBackend.vdict_set (green_times c) lane green;
     signals := signals c;
     timestamp := timestamp c;
     latency_ms := latency_ms c;
     messages_received := messages_received c;
     messages_lost := messages_lost c;
     avg_wait_time := avg_wait_time c |}.

Definition set_signal (lane : value) (colour : string) (c : CurrentState)
    : CurrentState :=
  {| intersection_id := intersection_id c;
     cycle_count := cycle_count c;
     current_cycle := current_cycle c;
     densities := densities c;
     green_times := green_times c;
     signals := ApiBackend.vdict_set (signals c) lane colour;
     timestamp := timestamp c;
     latency_ms := latency_ms c;
     messages_received := messages_received c;
     messages_lost := messages_lost c;
     avg_wait_time := avg_wait_time c |}.

Definition set_timestamp (t : num) (c : CurrentState) : CurrentState :=
  {| intersection_id := intersection_id c;
     cycle_count := cycle_count c;
     current_cycle := current_cycle c;
     densities := densities c;
     green_times := green_times c;
     signals := signals c;
     timestamp := t;
     latency_ms := latency_ms c;
     messages_received := messages_received c;
     messages_lost := messages_lost c;
     avg_wait_time := avg_wait_time c |}.

Definition set_latency_ms (l : num) (c : CurrentState) : CurrentState :=
  {| intersection_id := intersection_id c;
     cycle_count := cycle_count c;
     current_cycle := current_cycle c;
     densities := densities c;
     green_times := green_times c;
     signals := signals c;
     timestamp := timestamp c;
     latency_ms := l;
     messages_received := messages_received c;
     messages_lost := messages_lost c;
     avg_wait_time := avg_wait_time c |}.

Definition incr_received (c : CurrentState) : CurrentState :=
  {| intersection_id := intersection_id c;
     cycle_count := cycle_count c;
     current_cycle := current_cycle c;
     densities := densities c;
     green_times := green_times c;
     signals := signals c;
     timestamp := timestamp c;
     latency_ms := latency_ms c;
     messages_received := messages_received c + 1;
     messages_lost := messages_lost c;
     avg_wait_time := avg_wait_time c |}.

Definition append_latency (l : Q) (m : MetricsLog) : MetricsLog :=
  {| timestamps := timestamps m;
     density_log := density_log m;
     green_log := green_log m;
     latencies := ApiBackend.deque_append 100 (latencies m) l |}.

Definition append_timestamp (t : string) (m : MetricsLog) : MetricsLog :=
  {| timestamps := ApiBackend.deque_append 60 (timestamps m) t;
     density_log := density_log m;
     green_log := green_log m;
     latencies := latencies m |}.

Definition set_density_log (d : dict (list value)) (m : MetricsLog)
    : MetricsLog :=
  {| timestamps := timestamps m;
     density_log := d;
     green_log := green_log m;
     latencies := latencies m |}.

Definition set_green_log (g : dict (list value)) (m : MetricsLog)
    : MetricsLog :=
  {| timestamps := timestamps m;
     density_log := density_log m;
     green_log := g;
     latencies := latencies m |}.

(** The handler runs in a state-and-exception monad over the globals. *)
Definition M (A : Type) : Type := Globals -> result A * Globals.

Definition ret {A : Type} (a : A) : M A := fun d => (Ok a, d).

Definition bind {A B : Type} (m : M A) (k : A -> M B) : M B :=
  fun d =>
    match m d with
    | (Ok a, d') => k a d'
    | (Raise e, d') => (Raise e, d')
    end.

Definition lift {A : Type} (r : result A) : M A := fun d => (r, d).

Definition reads {A : Type} (f : Globals -> result A) : M A :=
  fun d => (f d, d).

Definition modify (f : Globals -> Globals) : M unit :=
  fun d => (Ok tt, f d).

Declare Scope dashboard_scope.
Delimit Scope dashboard_scope with dashboard.
Notation "x <- m ;; k" := (bind m (fun x => k))
  (at level 61, m at next level, right associativity) : dashboard_scope.
Notation "m ;; k" := (bind m (fun _ => k))
  (at level 61, right associativity) : dashboard_scope.

Definition update_state (f : CurrentState -> CurrentState) : M unit :=
  modify (fun d => set_current_state (f (current_state d)) d).

Definition update_log (f : MetricsLog -> MetricsLog) : M unit :=
  modify (fun d => set_metrics_log (f (metrics_log d)) d).

(** The branch [if 'density_pct' in payload]. *)
Definition density_branch (w : ApiBackend.World) (payload : dict value)
    : M unit :=
  (lane <- lift (getitem payload "lane") ;;
   density <- lift (getitem payload "density_pct") ;;
   update_state (set_density lane density) ;;
   update_state incr_received ;;
   (match dict_get payload "ts" with
    | Some ts =>
        elapsed <-
          lift (py_sub (Num (Float (ApiBackend.t_latency w))) ts) ;;
        let latency := (num_to_Q elapsed * inject_Z 1000)%Q in
        update_state (set_latency_ms (Float (py_round latency 2))) ;;
        update_log (append_latency latency)
    | None => ret tt
    end) ;;
   history <-
     reads (fun d => EdgeController.lookup_lane (sensor_history d) lane) ;;
   modify (fun d =>
     set_sensor_history
       (dict_set (sensor_history d) (fst history)
          (ApiBackend.deque_append 60 (snd history)
             {| entry_time := ApiBackend.t_sample w;
                entry_density := density |}))
       d))%dashboard.

(** [for phase in schedule: current_state['green_times'][lane] = green] *)
Fixpoint apply_schedule (schedule : list (dict value)) : M unit :=
  match schedule with
  | [] => ret tt
  | phase :: rest =>
      (let lane := dict_get_default phase "lane" Null in
       let green := dict_get_default phase "green" (Num (Int 10)) in
       update_state (set_green_time lane green) ;;
       apply_schedule rest)%dashboard
  end.

(** [for lane in current_state['signals']: ...] over the keys [lanes]. *)
Fixpoint update_signals (lanes : list value) : M unit :=
  match lanes with
  | [] => ret tt
  | lane :: rest =>
      (green <-
         reads (fun d =>
                  ApiBackend.vgetitem (green_times (current_state d)) lane) ;;
       positive <- lift (ApiBackend.py_gt0 green) ;;
       update_state
         (set_signal lane (if positive : bool then "GREEN" else "RED")) ;;
       update_signals rest)%dashboard
  end.

(** One iteration of [for lane in ['north', 'south', 'east', 'west']]. *)
Definition log_lane (lane : string) : M unit :=
  (dlog <- reads (fun d => getitem (density_log (metrics_log d)) lane) ;;
   x <- reads (fun d =>
                 ApiBackend.vgetitem (densities (current_state d))
                   (Str lane)) ;;
   update_log (fun m =>
     set_density_log
       (dict_set (density_log m) lane (ApiBackend.deque_append 60 dlog x))
       m) ;;
   glog <- reads (fun d => getitem (green_log (metrics_log d)) lane) ;;
   g <- reads (fun d =>
                 ApiBackend.vgetitem (green_times (current_state d))
                   (Str lane)) ;;
   update_log (fun m =>
     set_green_log
       (dict_set (green_log m) lane (ApiBackend.deque_append 60 glog g))
       m))%dashboard.

Fixpoint log_lanes (lanes : list string) : M unit :=
  match lanes with
  | [] => ret tt
  | lane :: rest => (log_lane lane ;; log_lanes rest)%dashboard
  end.

(** The branch [elif 'phase_schedule' in payload]. *)
Definition schedule_branch (w : ApiBackend.World) (payload : dict value)
    (schedule : list (dict value)) : M unit :=
  (update_state
     (set_cycle_count (dict_get_default payload "cycle_count" (Num (Int 0)))) ;;
   apply_schedule schedule ;;
   lanes <- reads (fun d => Ok (map fst (signals (current_state d)))) ;;
   update_signals lanes ;;
   update_log (append_timestamp (ApiBackend.isoformat w)) ;;
   log_lanes four_lanes)%dashboard.

(** The body of the [try] block of [on_message] up to the emission. *)
Definition on_message_body (w : ApiBackend.World)
    (payload : ApiBackend.Payload) : M unit :=
  ((match dict_get (ApiBackend.fields payload) "density_pct" with
    | Some _ => density_branch w (ApiBackend.fields payload)
    | None =>
        match ApiBackend.phase_schedule payload with
        | Some schedule =>
            schedule_branch w (ApiBackend.fields payload) schedule
        | None => ret tt
        end
    end) ;;
   update_state (set_timestamp (Float (ApiBackend.t_stamp w))))%dashboard.

(** [on_message]: the globals it leaves, and the state it emits to the
    connected clients when the body raised nothing. *)
Definition on_message (w : ApiBackend.World) (payload : ApiBackend.Payload)
    (d : Globals) : Globals :=
  snd (on_message_body w payload d).

Definition on_message_emits (w : ApiBackend.World)
    (payload : ApiBackend.Payload) (d : Globals) : option CurrentState :=
  match on_message_body w payload d with
  | (Ok _, d') => Some (current_state d')
  | (Raise _, _) => None
  end.

Definition deliver_all (msgs : list (ApiBackend.World * ApiBackend.Payload))
    (d : Globals) : Globals :=
  fold_left (fun s m => on_message (fst m) (snd m) s) msgs d.

(** [seq[i] if i < len(seq) else default] *)
Definition cell {A : Type} (l : list A) (i : nat) (default : A) : A :=
  if (i <? List.length l)%nat then nth i l default else default.

Record ExportRow : Type := {
  export_timestamp : string;
  export_densities : list value;
  export_greens : list value
}.

(** The rows [export_data] writes after the header: one per timestamp,
    the densities and green times of north, south, east and west; a log
    that is missing raises [KeyError]. *)
Definition export_rows (d : Globals) : result (list ExportRow) :=
  let m := metrics_log d in
  list_for (seq 0 (List.length (timestamps m)))
    (fun i =>
       let* ds :=
         list_for four_lanes
           (fun lane => let* l := getitem (density_log m) lane in
                        Ok (cell l i (Num (Int 0)))) in
       let* gs :=
         list_for four_lanes
           (fun lane => let* l := getitem (green_log m) lane in
                        Ok (cell l i (Num (Int 0)))) in
       Ok {| export_timestamp := cell (timestamps m) i "";
             export_densities := ds;
             export_greens := gs |}).
End Dashboard.

(** What the dashboard's handler keeps true of its globals. *)
Definition dashboard_ok (d : Dashboard.Globals) : Prop :=
  let c := Dashboard.current_state d in
  let m := Dashboard.metrics_log d in
  dict_keys (Dashboard.sensor_history d) = four_lanes
  /\ dict_keys (Dashboard.density_log m) = four_lanes
  /\ dict_keys (Dashboard.green_log m) = four_lanes
  /\ map fst (Dashboard.signals c)
     = [Str "north"; Str "south"; Str "east"; Str "west"]
  /\ (forall lane, In lane four_lanes ->
        ApiBackend.vdict_get (Dashboard.densities c) (Str lane) <> None
        /\ ApiBackend.vdict_get (Dashboard.green_times c) (Str lane) <> None)
  /\ (forall lane entries,
        dict_get (Dashboard.sensor_history d) lane = Some entries ->
        (List.length entries <= 60)%nat)
  /\ (List.length (Dashboard.latencies m) <= 100)%nat
  /\ (List.length (Dashboard.timestamps m) <= 60)%nat
  /\ (forall lane l,
        dict_get (Dashboard.density_log m) lane = Some l ->
        List.length l = List.length (Dashboard.timestamps m))
  /\ (forall lane l,
        dict_get (Dashboard.green_log m) lane = Some l ->
        List.length l = List.length (Dashboard.timestamps m)).

(** * Facts about dictionaries *)

Section DictFacts.
Context {V : Type}.
Implicit Types (d : dict V) (k : string) (v : V).

Lemma dict_get_set_same d k v : dict_get (dict_set d k v) k = Some v.
Proof.
  induction d as [|[k' v'] d IH]; simpl.
  - now rewrite String.eqb_refl.
  - destruct (String.eqb k' k) eqn:E; simpl; rewrite E; auto.
Qed.

Lemma dict_get_set_other d k k' v :
  k <> k' -> dict_get (dict_set d k v) k' = dict_get d k'.
Proof.
  intros Hne. induction d as [|[k0 v0] d IH]; simpl.
  - destruct (String.eqb k k') eqn:E; auto.
    apply String.eqb_eq in E. contradiction.
  - destruct (String.eqb k0 k) eqn:E; simpl.
    + apply String.eqb_eq in E. subst k0.
      destruct (String.eqb k k') eqn:E'; auto.
      apply String.eqb_eq in E'. contradiction.
    + now rewrite IH.
Qed.

Lemma dict_get_some_in d k v :
  dict_get d k = Some v -> In k (dict_keys d).
Proof.
  induction d as [|[k' v'] d IH]; simpl; [discriminate|].
  destruct (String.eqb k' k) eqn:E; intros H.
  - apply String.eqb_eq in E. now left.
  - right. now apply IH.
Qed.

Lemma dict_in_get_some d k :
  In k (dict_keys d) -> exists v, dict_get d k = Some v.
Proof.
  induction d as [|[k' v'] d IH]; simpl; [tauto|].
  intros [->|H].
  - rewrite String.eqb_refl. eauto.
  - destruct (String.eqb k' k); eauto.
Qed.

Lemma dict_get_none_notin d k :
  dict_get d k = None -> ~ In k (dict_keys d).
Proof.
  intros Hn Hin. apply dict_in_get_some in Hin as [v Hv]. congruence.
Qed.

Lemma dict_keys_set_in d k v :
  In k (dict_keys d) -> dict_keys (dict_set d k v) = dict_keys d.
Proof.
  induction d as [|[k' v'] d IH]; simpl; [tauto|].
  intros Hin. destruct (String.eqb k' k) eqn:E; simpl; [reflexivity|].
  f_equal. apply IH. destruct Hin as [->|H]; auto.
  rewrite String.eqb_refl in E. discriminate.
Qed.

Lemma dict_keys_set_notin d k v :
  ~ In k (dict_keys d) -> dict_keys (dict_set d k v) = dict_keys d ++ [k].
Proof.
  induction d as [|[k' v'] d IH]; simpl; [reflexivity|].
  intros Hnin. destruct (String.eqb k' k) eqn:E; simpl.
  - apply String.eqb_eq in E. tauto.
  - f_equal. apply IH. tauto.
Qed.

Lemma dict_keys_set d k v :
  dict_keys (dict_set d k v) = add_key (dict_keys d) k.
Proof.
  unfold add_key. destruct (in_dec string_dec k (dict_keys d)).
  - now apply dict_keys_set_in.
  - now apply dict_keys_set_notin.
Qed.

Lemma dict_for_keys ks (f : string -> result V) :
  forall acc d, dict_for ks f acc = Ok d ->
    dict_keys d = fold_left add_key ks (dict_keys acc).
Proof.
  induction ks as [|k ks IH]; simpl; intros acc d H.
  - now inversion H.
  - destruct (f k) as [v|e]; simpl in H; [|discriminate].
    apply IH in H. now rewrite dict_keys_set in H.
Qed.

Lemma dict_for_get_notin ks (f : string -> result V) k :
  ~ In k ks ->
  forall acc d, dict_for ks f acc = Ok d -> dict_get d k = dict_get acc k.
Proof.
  induction ks as [|k0 ks IH]; simpl; intros Hnin acc d H.
  - now inversion H.
  - destruct (f k0) as [v|e]; simpl in H; [|discriminate].
    rewrite (IH (fun Hin => Hnin (or_intror Hin)) _ _ H).
    apply dict_get_set_other. intros ->. tauto.
Qed.

Lemma dict_for_get_in ks (f : string -> result V) k :
  In k ks ->
  forall acc d, dict_for ks f acc = Ok d ->
    exists v, f k = Ok v /\ dict_get d k = Some v.
Proof.
  induction ks as [|k0 ks IH]; simpl; intros Hin acc d H; [tauto|].
  destruct (f k0) as [v|e] eqn:Ef; simpl in H; [|discriminate].
  destruct (in_dec string_dec k ks) as [Hin'|Hnin].
  - eapply IH; eauto.
  - destruct Hin as [->|Hin]; [|tauto].
    exists v. split; [assumption|].
    rewrite (dict_for_get_notin _ _ _ Hnin _ _ H).
    apply dict_get_set_same.
Qed.

Lemma dict_for_ok ks (f : string -> result V) :
  (forall k, In k ks -> exists v, f k = Ok v) ->
  forall acc, exists d, dict_for ks f acc = Ok d.
Proof.
  induction ks as [|k ks IH]; simpl; intros Hf acc; [eauto|].
  destruct (Hf k (or_introl eq_refl)) as [v ->]. simpl.
  apply IH. intros k' Hk'. apply Hf. now right.
Qed.

Lemma dict_comp_for ks (g : string -> V) :
  dict_for ks (fun k => Ok (g k)) [] = Ok (dict_comp ks g).
Proof.
  unfold dict_comp. generalize (@nil (string * V)).
  induction ks as [|k ks IH]; simpl; intros acc; [reflexivity|].
  apply IH.
Qed.
End DictFacts.

Lemma add_key_in ks k k' : In k' (add_key ks k) <-> In k' ks \/ k' = k.
Proof.
  unfold add_key. destruct (in_dec string_dec k ks) as [Hin|Hnin].
  - split; [tauto|]. intros [H| ->]; assumption.
  - rewrite in_app_iff. simpl. intuition congruence.
Qed.

Lemma add_key_NoDup ks k : NoDup ks -> NoDup (add_key ks k).
Proof.
  intros Hnd. unfold add_key.
  destruct (in_dec string_dec k ks) as [Hin|Hnin]; [assumption|].
  apply NoDup_app; [assumption| repeat constructor; simpl; tauto |].
  intros x Hx [<-|[]]. contradiction.
Qed.

Lemma fold_add_key_in ks : forall acc k,
  In k (fold_left add_key ks acc) <-> In k acc \/ In k ks.
Proof.
  induction ks as [|k0 ks IH]; simpl; intros acc k; [tauto|].
  rewrite IH, add_key_in. intuition congruence.
Qed.

Lemma fold_add_key_NoDup ks : forall acc,
  NoDup acc -> NoDup (fold_left add_key ks acc).
Proof.
  induction ks as [|k0 ks IH]; simpl; intros acc H; [assumption|].
  apply IH. now apply add_key_NoDup.
Qed.

Lemma fold_add_key_length ks : forall acc,
  (List.length (fold_left add_key ks acc) <= List.length acc + List.length ks)%nat.
Proof.
  induction ks as [|k0 ks IH]; simpl; intros acc; [lia|].
  specialize (IH (add_key acc k0)). unfold add_key in *.
  destruct (in_dec string_dec k0 acc); [lia|].
  rewrite length_app in IH. simpl in IH. lia.
Qed.

Lemma lane_keys_in lanes k : In k (lane_keys lanes) <-> In k lanes.
Proof. unfold lane_keys. rewrite fold_add_key_in. simpl. tauto. Qed.

Lemma lane_keys_NoDup lanes : NoDup (lane_keys lanes).
Proof. apply fold_add_key_NoDup. constructor. Qed.

Lemma lane_keys_length lanes :
  (List.length (lane_keys lanes) <= List.length lanes)%nat.
Proof. apply (fold_add_key_length lanes []). Qed.

(** * Facts about sums, the stable sort and the redistribution loop *)

Lemma fold_add_shift xs : forall a, fold_left Z.add xs a = a + fold_left Z.add xs 0.
Proof.
  induction xs as [|x xs IH]; simpl; intros a; [lia|].
  rewrite (IH (a + x)), (IH x). lia.
Qed.

Lemma Zsum_cons x xs : Zsum (x :: xs) = x + Zsum xs.
Proof. unfold Zsum. simpl. now rewrite fold_add_shift. Qed.

Lemma Zsum_set (d : dict Z) k old v :
  dict_get d k = Some old ->
  Zsum (dict_values (dict_set d k v)) = Zsum (dict_values d) - old + v.
Proof.
  induction d as [|[k' v'] d IH]; simpl; [discriminate|].
  destruct (String.eqb k' k); simpl; intros H.
  - inversion H; subst. rewrite !Zsum_cons. lia.
  - rewrite !Zsum_cons, (IH H). lia.
Qed.

Section SortedFacts.
Context {A : Type} (key : A -> Q).

Lemma insert_desc_perm x l : Permutation (insert_desc key x l) (x :: l).
Proof.
  induction l as [|y l IH]; simpl; [reflexivity|].
  destruct (Qltb (key x) (key y)); [|reflexivity].
  rewrite IH. apply perm_swap.
Qed.

Lemma sorted_desc_perm l : Permutation (sorted_desc key l) l.
Proof.
  induction l as [|x l IH]; simpl; [reflexivity|].
  rewrite insert_desc_perm. now constructor.
Qed.
End SortedFacts.

Section Redistribute.
Implicit Types (g : dict Z) (ks : list string) (diff : Z).

Lemma redistribute_ok ks : forall g diff,
  (forall k, In k ks -> In k (dict_keys g)) ->
  exists g', redistribute ks g diff = Ok g'.
Proof.
  induction ks as [|k ks IH]; simpl; intros g diff Hin; [eauto|].
  destruct (diff =? 0); [eauto|].
  destruct (dict_in_get_some g k (Hin k (or_introl eq_refl))) as [v Hv].
  unfold getitem. rewrite Hv. simpl.
  apply IH. intros k' Hk'.
  rewrite dict_keys_set_in; eauto using dict_get_some_in.
Qed.

Lemma redistribute_keys ks : forall g diff g',
  redistribute ks g diff = Ok g' -> dict_keys g' = dict_keys g.
Proof.
  induction ks as [|k ks IH]; simpl; intros g diff g' H.
  - now inversion H.
  - destruct (diff =? 0); [now inversion H|].
    unfold getitem in H. destruct (dict_get g k) as [v|] eqn:Hv;
      simpl in H; [|discriminate].
    rewrite (IH _ _ _ H).
    apply dict_keys_set_in. eauto using dict_get_some_in.
Qed.

(** The pass moves the sum by [single_pass (length ks) diff]. *)
Lemma redistribute_sum ks : forall g diff g',
  redistribute ks g diff = Ok g' ->
  Zsum (dict_values g') =
  Zsum (dict_values g) + single_pass (List.length ks) diff.
Proof.
  unfold single_pass.
  induction ks as [|k ks IH]; intros g diff g' H.
  - simpl in H. inversion H; subst. simpl. lia.
  - cbn [redistribute] in H.
    destruct (Z.eqb_spec diff 0) as [->|Hne].
    + inversion H; subst. simpl List.length. lia.
    + unfold getitem in H. destruct (dict_get g k) as [v|] eqn:Hv;
        simpl in H; [|discriminate].
      rewrite (IH _ _ _ H), (Zsum_set _ _ _ _ Hv).
      simpl List.length. destruct (Z.ltb_spec 0 diff); lia.
Qed.

Lemma redistribute_get_other ks k : ~ In k ks ->
  forall g diff g', redistribute ks g diff = Ok g' ->
    dict_get g' k = dict_get g k.
Proof.
  induction ks as [|k0 ks IH]; simpl; intros Hnin g diff g' H.
  - now inversion H.
  - destruct (diff =? 0); [now inversion H|].
    unfold getitem in H. destruct (dict_get g k0) as [v|] eqn:Hv;
      simpl in H; [|discriminate].
    rewrite (IH (fun Hin => Hnin (or_intror Hin)) _ _ _ H).
    apply dict_get_set_other. intros ->. tauto.
Qed.

(** A lane that occurs once in the visiting order moves by at most one
    second. *)
Lemma redistribute_get_bound ks k : NoDup ks ->
  forall g diff g', redistribute ks g diff = Ok g' ->
    Z.abs (green_of g' k - green_of g k) <= 1.
Proof.
  unfold green_of, dict_get_default.
  induction ks as [|k0 ks IH]; simpl; intros Hnd g diff g' H.
  - inversion H; subst. destruct (dict_get g' k); lia.
  - destruct (diff =? 0).
    { inversion H; subst. destruct (dict_get g' k); lia. }
    unfold getitem in H. destruct (dict_get g k0) as [v|] eqn:Hv;
      simpl in H; [|discriminate].
    inversion Hnd as [|? ? Hnotin Hnd']; subst.
    destruct (string_dec k0 k) as [->|Hne].
    + rewrite (redistribute_get_other _ _ Hnotin _ _ _ H).
      rewrite dict_get_set_same, Hv.
      destruct (0 <? diff); lia.
    + specialize (IH Hnd' _ _ _ H).
      now rewrite dict_get_set_other in IH.
Qed.
End Redistribute.

Lemma single_pass_exact n diff :
  single_pass n diff = diff <-> Z.abs diff <= Z.of_nat n.
Proof. unfold single_pass. lia. Qed.

Lemma single_pass_bound n diff : Z.abs (single_pass n diff) <= Z.of_nat n.
Proof. unfold single_pass. lia. Qed.

(** * [ProportionalController.compute_green_times] *)

Section EdgeCompute.
Import EdgeController.

Lemma avg_densities_keys st avg :
  avg_densities st = Ok avg ->
  dict_keys avg = lane_keys (lanes (config st)).
Proof. intros H. apply dict_for_keys in H. exact H. Qed.

Lemma raw_greens_ok cfg (avg : dict Q) :
  dict_keys avg = lane_keys (lanes cfg) ->
  exists raw, raw_greens cfg avg = Ok raw
              /\ dict_keys raw = lane_keys (lanes cfg).
Proof.
  intros Hk. unfold raw_greens.
  destruct (dict_for_ok (lanes cfg)
    (fun lane => let* a := getitem avg lane in
                 Ok (raw_green cfg (Qsum (dict_values avg)) a)))
    with (acc := @nil (string * num)) as [raw Hraw].
  - intros k Hin. apply lane_keys_in in Hin. rewrite <- Hk in Hin.
    apply dict_in_get_some in Hin as [a Ha].
    unfold getitem. rewrite Ha. simpl. eauto.
  - exists raw. split; [assumption|].
    apply dict_for_keys in Hraw. exact Hraw.
Qed.

Lemma rounded_greens_ok cfg (avg : dict Q) :
  dict_keys avg = lane_keys (lanes cfg) ->
  exists pre, rounded_greens cfg avg = Ok pre
              /\ dict_keys pre = lane_keys (lanes cfg).
Proof.
  intros Hk. destruct (raw_greens_ok cfg avg Hk) as (raw & Hraw & Hkeys).
  unfold rounded_greens. rewrite Hraw. simpl.
  eexists. split; [reflexivity|].
  unfold dict_keys in *. rewrite map_map. simpl. exact Hkeys.
Qed.

Lemma sorted_lanes_perm (avg : dict Q) :
  Permutation (map fst (sorted_lanes avg)) (dict_keys avg).
Proof. apply Permutation_map, sorted_desc_perm. Qed.

(** The visiting order of the redistribution loop has no repeated lane. *)
Lemma sorted_lanes_NoDup st avg :
  avg_densities st = Ok avg -> NoDup (map fst (sorted_lanes avg)).
Proof.
  intros H. apply avg_densities_keys in H.
  eapply Permutation_NoDup; [symmetry; apply sorted_lanes_perm|].
  rewrite H. apply lane_keys_NoDup.
Qed.

(** The zero-density path. *)
Lemma compute_green_times_zero st avg :
  avg_densities st = Ok avg ->
  Qle_bool (Qsum (dict_values avg)) (inject_Z 0) = true ->
  compute_green_times st =
    let* equal := floordiv (cycle_length (timing (config st)))
                    (Z.of_nat (List.length (lanes (config st))) * 2) in
    Ok (dict_comp (lanes (config st)) (fun _ => equal), avg).
Proof.
  intros Havg Hle. unfold compute_green_times. rewrite Havg. simpl.
  now rewrite Hle.
Qed.

(** The proportional path: the schedule is the rounded one after a single
    pass over the lanes. *)
Lemma compute_green_times_pos st avg :
  avg_densities st = Ok avg ->
  Qle_bool (Qsum (dict_values avg)) (inject_Z 0) = false ->
  exists pre g,
    rounded_greens (config st) avg = Ok pre
    /\ compute_green_times st = Ok (g, avg)
    /\ dict_keys g = lane_keys (lanes (config st))
    /\ Zsum (dict_values g) =
       Zsum (dict_values pre)
       + single_pass (List.length (lane_keys (lanes (config st))))
           (available (config st) - Zsum (dict_values pre))
    /\ forall lane, Z.abs (green_of g lane - green_of pre lane) <= 1.
Proof.
  intros Havg Hpos.
  pose proof (avg_densities_keys _ _ Havg) as Hk.
  destruct (rounded_greens_ok (config st) avg Hk) as (pre & Hpre & Hkpre).
  exists pre. unfold compute_green_times. rewrite Havg. simpl.
  rewrite Hpos, Hpre. simpl.
  set (diff := available (config st) - Zsum (dict_values pre)).
  destruct (Z.eqb_spec diff 0) as [E|E]; simpl.
  - exists pre. repeat split; auto.
    + rewrite E. unfold single_pass. lia.
    + intros lane. unfold green_of, dict_get_default.
      destruct (dict_get pre lane); lia.
  - destruct (redistribute_ok (map fst (sorted_lanes avg)) pre diff)
      as [g Hg].
    { intros k Hin. rewrite Hkpre, <- Hk.
      eapply Permutation_in; [apply sorted_lanes_perm|exact Hin]. }
    exists g. rewrite Hg. simpl. repeat split.
    + rewrite (redistribute_keys _ _ _ _ Hg). exact Hkpre.
    + rewrite (redistribute_sum _ _ _ _ Hg). f_equal. f_equal.
      rewrite <- Hk. apply Permutation_length, sorted_lanes_perm.
    + intros lane. eapply redistribute_get_bound; [|exact Hg].
      eapply sorted_lanes_NoDup; eauto.
Qed.

Lemma compute_green_times_keys st g avg :
  compute_green_times st = Ok (g, avg) ->
  dict_keys g = lane_keys (lanes (config st)).
Proof.
  intros H. unfold compute_green_times in H.
  destruct (avg_densities st) as [avg'|e] eqn:Havg; simpl in H;
    [|discriminate].
  destruct (Qle_bool (Qsum (dict_values avg')) (inject_Z 0)) eqn:Hle.
  - destruct (floordiv _ _) as [equal|e]; simpl in H; [|discriminate].
    inversion H; subst.
    pose proof (dict_comp_for (lanes (config st)) (fun _ : string => equal))
      as Hc.
    apply dict_for_keys in Hc. exact Hc.
  - destruct (compute_green_times_pos st avg' Havg Hle)
      as (pre & g' & _ & Hc & Hk & _).
    unfold compute_green_times in Hc. rewrite Havg in Hc. simpl in Hc.
    rewrite Hle in Hc. rewrite Hc in H. inversion H; subst. exact Hk.
Qed.
End EdgeCompute.

(** * [AdaptiveController.compute_green_times] *)

Lemma list_for_ok {A B : Type} (f : A -> result B) xs :
  (forall x, In x xs -> exists y, f x = Ok y) ->
  exists ys, list_for xs f = Ok ys.
Proof.
  induction xs as [|x xs IH]; simpl; intros Hf; [eauto|].
  destruct (Hf x (or_introl eq_refl)) as [y ->]. simpl.
  destruct IH as [ys ->]; [intros; apply Hf; now right|].
  simpl. eauto.
Qed.

Lemma list_for_map {A B C : Type} (f : A -> result B) (p : B -> C) (q : A -> C) xs :
  (forall x y, f x = Ok y -> p y = q x) ->
  forall ys, list_for xs f = Ok ys -> map p ys = map q xs.
Proof.
  intros Hp. induction xs as [|x xs IH]; simpl; intros ys H.
  - now inversion H.
  - destruct (f x) as [y|e] eqn:Ef; simpl in H; [|discriminate].
    destruct (list_for xs f) as [ys'|e]; simpl in H; [|discriminate].
    inversion H; subst. simpl. f_equal; auto.
Qed.

Section ApiCompute.
Import TrafficApi.

Variable self : AdaptiveController.

Lemma avg_density_keys sd avg :
  avg_density self sd = Ok avg -> dict_keys avg = lane_keys (lanes self).
Proof. intros H. apply dict_for_keys in H. exact H. Qed.

Lemma clamped_greens_ok (avg : dict num) :
  dict_keys avg = lane_keys (lanes self) ->
  exists pre, clamped_greens self avg = Ok pre
              /\ dict_keys pre = lane_keys (lanes self).
Proof.
  intros Hk. unfold clamped_greens, raw_green.
  match goal with
  | |- context [dict_for ?ks ?f []] =>
      destruct (dict_for_ok ks f) with (acc := @nil (string * Q))
        as [raw Hraw]
  end.
  { intros k Hin. apply lane_keys_in in Hin. rewrite <- Hk in Hin.
    apply dict_in_get_some in Hin as [a Ha].
    unfold getitem. rewrite Ha. simpl. eauto. }
  rewrite Hraw. simpl.
  pose proof (dict_for_keys _ _ _ _ Hraw) as Hkraw.
  match goal with
  | |- context [dict_for ?ks ?f []] =>
      destruct (dict_for_ok ks f) with (acc := @nil (string * Z))
        as [pre Hpre]
  end.
  { intros k Hin. apply lane_keys_in in Hin.
    change (fold_left add_key (lanes self) (dict_keys [])) with
      (lane_keys (lanes self)) in Hkraw.
    rewrite <- Hkraw in Hin.
    apply dict_in_get_some in Hin as [a Ha].
    unfold getitem. rewrite Ha. simpl. eauto. }
  exists pre. split; [assumption|].
  apply dict_for_keys in Hpre. exact Hpre.
Qed.

Lemma sorted_lanes_ok (avg : dict num) :
  dict_keys avg = lane_keys (lanes self) ->
  exists order, sorted_lanes self avg = Ok order
                /\ Permutation order (lanes self).
Proof.
  intros Hk. unfold sorted_lanes.
  match goal with
  | |- context [list_for ?xs ?f] =>
      destruct (list_for_ok f xs) as [keyed Hkeyed]
  end.
  { intros k Hin. apply lane_keys_in in Hin. rewrite <- Hk in Hin.
    apply dict_in_get_some in Hin as [a Ha].
    unfold getitem. rewrite Ha. simpl. eauto. }
  rewrite Hkeyed. simpl. eexists. split; [reflexivity|].
  assert (Hfst : map fst keyed = map (fun l => l) (lanes self)).
  { refine (list_for_map _ _ _ _ _ _ Hkeyed).
    intros x y Hy. destruct (getitem avg x); simpl in Hy; [|discriminate].
    now inversion Hy. }
  rewrite map_id in Hfst. rewrite <- Hfst.
  apply Permutation_map, sorted_desc_perm.
Qed.

(** The zero-density path returns [min_green] for every lane. *)
Lemma api_compute_green_times_zero sd avg :
  avg_density self sd = Ok avg ->
  num_leb (total_density avg) (Int 0) = true ->
  compute_green_times self sd =
    Ok (dict_comp (lanes self) (fun _ => min_green self)).
Proof.
  intros Havg Hle. unfold compute_green_times. rewrite Havg. simpl.
  now rewrite Hle.
Qed.

Lemma api_compute_green_times_pos sd avg :
  avg_density self sd = Ok avg ->
  num_leb (total_density avg) (Int 0) = false ->
  exists pre g,
    clamped_greens self avg = Ok pre
    /\ compute_green_times self sd = Ok g
    /\ dict_keys g = lane_keys (lanes self)
    /\ Zsum (dict_values g) =
       Zsum (dict_values pre)
       + single_pass (List.length (lanes self))
           (available_time self - Zsum (dict_values pre))
    /\ (NoDup (lanes self) ->
        forall lane, Z.abs (green_of g lane - green_of pre lane) <= 1).
Proof.
  intros Havg Hpos.
  pose proof (avg_density_keys _ _ Havg) as Hk.
  destruct (clamped_greens_ok avg Hk) as (pre & Hpre & Hkpre).
  exists pre. unfold compute_green_times. rewrite Havg. simpl.
  rewrite Hpos, Hpre. simpl.
  set (diff := available_time self - Zsum (dict_values pre)).
  destruct (Z.eqb_spec diff 0) as [E|E]; simpl.
  - exists pre. repeat split; auto.
    + rewrite E. unfold single_pass. lia.
    + intros _ lane. unfold green_of, dict_get_default.
      destruct (dict_get pre lane); lia.
  - destruct (sorted_lanes_ok avg Hk) as (order & Hord & Hperm).
    rewrite Hord. simpl.
    destruct (redistribute_ok order pre diff) as [g Hg].
    { intros k Hin. rewrite Hkpre. apply lane_keys_in.
      eapply Permutation_in; eauto. }
    exists g. repeat split; auto.
    + rewrite (redistribute_keys _ _ _ _ Hg). exact Hkpre.
    + rewrite (redistribute_sum _ _ _ _ Hg). f_equal. f_equal.
      now apply Permutation_length.
    + intros Hnd lane. eapply redistribute_get_bound; [|exact Hg].
      eapply Permutation_NoDup; [symmetry; exact Hperm|exact Hnd].
Qed.

Lemma api_compute_green_times_keys sd g :
  compute_green_times self sd = Ok g ->
  dict_keys g = lane_keys (lanes self).
Proof.
  intros H. unfold compute_green_times in H.
  destruct (avg_density self sd) as [avg|e] eqn:Havg; simpl in H;
    [|discriminate].
  destruct (num_leb (total_density avg) (Int 0)) eqn:Hle.
  - inversion H; subst.
    pose proof (dict_comp_for (lanes self) (fun _ : string => min_green self))
      as Hc.
    apply dict_for_keys in Hc. exact Hc.
  - destruct (api_compute_green_times_pos sd avg Havg Hle)
      as (pre & g' & _ & Hc & Hk & _).
    unfold compute_green_times in Hc. rewrite Havg in Hc. simpl in Hc.
    rewrite Hle in Hc. rewrite Hc in H. inversion H; subst. exact Hk.
Qed.
End ApiCompute.

(** * [ProportionalController.on_message] *)

Section EdgeIngest.
Import EdgeController.

Lemma bind_lift_ok {A B : Type} (r : result A) (a : A) (k : A -> M B) st :
  r = Ok a -> bind (lift r) k st = k a st.
Proof. intros ->. reflexivity. Qed.

Lemma bind_lift_raise {A B : Type} (r : result A) e (k : A -> M B) st :
  r = Raise e -> bind (lift r) k st = (Raise e, st).
Proof. intros ->. reflexivity. Qed.

Lemma bind_reads_ok {A B : Type} (f : Controller -> result A) (a : A)
    (k : A -> M B) st :
  f st = Ok a -> bind (reads f) k st = k a st.
Proof. intros H. unfold bind, reads. now rewrite H. Qed.

Lemma bind_reads_raise {A B : Type} (f : Controller -> result A) e
    (k : A -> M B) st :
  f st = Raise e -> bind (reads f) k st = (Raise e, st).
Proof. intros H. unfold bind, reads. now rewrite H. Qed.

Lemma bind_modify {B : Type} (f : Controller -> Controller)
    (k : unit -> M B) st :
  bind (modify f) k st = k tt (f st).
Proof. reflexivity. Qed.

Lemma bind_ret {A B : Type} (a : A) (k : A -> M B) st :
  bind (ret a) k st = k a st.
Proof. reflexivity. Qed.

Lemma bind_assoc {A B C : Type} (m : M A) (k : A -> M B) (h : B -> M C) st :
  bind (bind m k) h st = bind m (fun a => bind (k a) h) st.
Proof. unfold bind. destruct (m st) as [[a|e] st']; reflexivity. Qed.


Ltac proj :=
  cbn [set_metrics set_last_seq set_sensor_data sensor_data metrics
       config last_seq fst snd].

Ltac run_tail :=
  proj;
  match goal with
  | Hsd : dict_get (sensor_data ?st) ?l = Some ?rs |- _ =>
      rewrite (bind_reads_ok _ rs)
        by (proj; unfold getitem; now rewrite Hsd)
  end;
  match goal with
  | Hdens : getitem _ "density_pct" = Ok _ |- _ =>
      rewrite (bind_lift_ok _ _ _ _ Hdens)
  end;
  rewrite bind_modify; proj;
  erewrite bind_reads_ok by reflexivity; proj;
  erewrite bind_reads_ok
    by (proj; unfold getitem; now rewrite dict_get_set_same);
  rewrite bind_modify; proj;
  unfold bind, lift;
  match goal with
  | |- context [format_density ?d] => destruct (format_density d)
  end;
  [match goal with
   | |- context [format_queue ?q] => destruct (format_queue q)
   end|];
  cbn; repeat split.

(** The handler on a message that reaches the end of the locked block:
    a configured lane, a numeric [ts], a [seq] that is numeric whenever the
    loss branch is taken, and a [density_pct] field. *)
Lemma on_message_recorded t data st l tp cur p rs dens :
  getitem data "lane" = Ok (Str l) ->
  getitem data "ts" = Ok (Num tp) ->
  getitem data "seq" = Ok cur ->
  dict_get (last_seq st) l = Some (Num p) ->
  dict_get (sensor_data st) l = Some rs ->
  getitem data "density_pct" = Ok dens ->
  let expected := num_add p (Int 1) in
  let gap := num_leb (Int 0) p && value_ne cur (Num expected) in
  (gap = true -> exists c, cur = Num c) ->
  let entry := {| density := dens;
                  queue := dict_get_default data "queue_len" (Num (Int 0));
                  timestamp := tp |} in
  let cutoff := (t - moving_average_window (config st))%Q in
  let st' := on_message t data st in
  config st' = config st
  /\ last_seq st' = dict_set (last_seq st) l cur
  /\ sensor_data st' =
     dict_set (dict_set (sensor_data st) l (rs ++ [entry])) l
       (filter (fun d => Qltb cutoff (num_to_Q (timestamp d)))
          (rs ++ [entry]))
  /\ latencies (metrics st') =
     latencies (metrics st) ++ [((t - num_to_Q tp) * inject_Z 1000)%Q]
  /\ total_messages (metrics st') = total_messages (metrics st) + 1
  /\ cycle_count (metrics st') = cycle_count (metrics st)
  /\ lost_messages (metrics st') =
     if gap then
       match py_sub cur (Num expected) with
       | Ok lost => num_add (lost_messages (metrics st)) lost
       | Raise _ => lost_messages (metrics st)
       end
     else lost_messages (metrics st).
Proof.
  intros Hlane Hts Hseq Hlast Hsd Hdens expected gap Hgap entry cutoff st'.
  assert (Hl : lookup_lane (last_seq st) (Str l) = Ok (l, Num p)).
  { unfold lookup_lane, getitem. now rewrite Hlast. }
  subst st'. unfold on_message, on_message_body.
  rewrite (bind_lift_ok _ _ _ _ Hlane), (bind_lift_ok _ _ _ _ Hts).
  rewrite (bind_lift_ok (as_num (Num tp)) tp) by reflexivity.
  rewrite (bind_lift_ok _ _ _ _ Hseq).
  rewrite (bind_reads_ok _ (l, Num p)) by exact Hl.
  cbn [fst snd].
  rewrite (bind_lift_ok (py_add (Num p) (Num (Int 1))) expected)
    by reflexivity.
  rewrite (bind_lift_ok (py_ge0 (Num p)) (num_leb (Int 0) p))
    by reflexivity.
  fold gap.
  assert (Hrs : forall m ls,
    getitem (sensor_data (set_metrics m (set_last_seq ls st))) l = Ok rs).
  { intros. cbn. unfold getitem. now rewrite Hsd. }
  destruct gap eqn:Eg.
  - destruct (Hgap eq_refl) as [c ->].
    rewrite bind_assoc.
    rewrite (bind_lift_ok (py_sub (Num c) (Num expected)) (num_sub c expected))
      by reflexivity.
    rewrite !bind_modify.
    run_tail.
  - rewrite bind_ret. rewrite !bind_modify.
    run_tail.
Qed.
Lemma getitem_ok {V : Type} (d : dict V) k v :
  getitem d k = Ok v <-> dict_get d k = Some v.
Proof.
  unfold getitem. destruct (dict_get d k); split; intros H;
    inversion H; reflexivity.
Qed.

Lemma lookup_lane_ok {V : Type} (d : dict V) lv l v :
  lookup_lane d lv = Ok (l, v) -> lv = Str l /\ dict_get d l = Some v.
Proof.
  destruct lv as [n|s|]; simpl; try discriminate.
  unfold getitem. destruct (dict_get d s) eqn:E; simpl; [|discriminate].
  intros H. inversion H; subst. auto.
Qed.



Lemma num_leb_Int a b : num_leb (Int a) (Int b) = (a <=? b).
Proof.
  unfold num_leb, Qle_bool. simpl. now rewrite !Z.mul_1_r.
Qed.

Lemma value_ne_Int a b : value_ne (Num (Int a)) (Num (Int b)) = negb (a =? b).
Proof.
  unfold value_ne, num_eqb, Qeq_bool. simpl. now rewrite !Z.mul_1_r.
Qed.

Lemma dict_comp_get {V : Type} ks (f : string -> V) k :
  In k ks -> dict_get (dict_comp ks f) k = Some (f k).
Proof.
  intros Hin.
  destruct (dict_for_get_in ks (fun k => Ok (f k)) k Hin [] _
              (dict_comp_for ks f)) as (v & Hv & Hget).
  inversion Hv; subst. exact Hget.
Qed.

Lemma init_last_seq cfg l :
  In l (lanes cfg) -> dict_get (last_seq (init cfg)) l = Some (Num (Int (-1))).
Proof. intros H. simpl. now rewrite dict_comp_get. Qed.

Lemma init_sensor_data cfg l :
  In l (lanes cfg) -> dict_get (sensor_data (init cfg)) l = Some [].
Proof. intros H. simpl. now rewrite dict_comp_get. Qed.

(** One reading with an integer sequence number on a lane whose last
    sequence number is an integer. *)
Lemma ingest_reading t data st l s p n :
  reading_for l s data ->
  dict_get (last_seq st) l = Some (Num (Int p)) ->
  In l (dict_keys (sensor_data st)) ->
  lost_messages (metrics st) = Int n ->
  let st' := on_message t data st in
  config st' = config st
  /\ dict_get (last_seq st') l = Some (Num (Int s))
  /\ In l (dict_keys (sensor_data st'))
  /\ lost_messages (metrics st') = Int (n + loss_step p s)
  /\ total_messages (metrics st') = total_messages (metrics st) + 1
  /\ List.length (latencies (metrics st'))
     = S (List.length (latencies (metrics st)))
  /\ cycle_count (metrics st') = cycle_count (metrics st).
Proof.
  intros (Hlane & [tp Hts] & Hseq & [dens Hdens]) Hlast Hin Hlost st'.
  destruct (dict_in_get_some _ _ Hin) as [rs Hrs].
  destruct (on_message_recorded t data st l tp (Num (Int s)) (Int p) rs dens
              Hlane Hts Hseq Hlast Hrs Hdens)
    as (Hc & Hls & Hsd & Hlat & Htot & Hcyc & Hl).
  { intros _. eauto. }
  subst st'. repeat split; auto.
  - rewrite Hls. apply dict_get_set_same.
  - rewrite Hsd, !dict_keys_set_in; auto.
    rewrite dict_keys_set_in; auto.
  - rewrite Hl, Hlost. cbn [num_add py_sub as_num rbind num_sub].
    rewrite num_leb_Int, value_ne_Int. unfold loss_step.
    destruct ((0 <=? p) && negb (s =? p + 1)); cbn; f_equal; lia.
  - rewrite Hlat, length_app. simpl. lia.
Qed.

(** A run of readings on one lane: the loss counter follows [loss_of]; every
    reading counts as one message and adds one latency sample. *)
Lemma ingest_trace l msgs seqs :
  Forall2 (fun m s => reading_for l s (snd m)) msgs seqs ->
  forall st p n,
    dict_get (last_seq st) l = Some (Num (Int p)) ->
    In l (dict_keys (sensor_data st)) ->
    lost_messages (metrics st) = Int n ->
    let st' := ingest_all msgs st in
    config st' = config st
    /\ lost_messages (metrics st') = Int (n + loss_of p seqs)
    /\ total_messages (metrics st')
       = total_messages (metrics st) + Z.of_nat (List.length msgs)
    /\ List.length (latencies (metrics st'))
       = (List.length (latencies (metrics st)) + List.length msgs)%nat
    /\ cycle_count (metrics st') = cycle_count (metrics st).
Proof.
  induction 1 as [|m s msgs seqs Hm _ IH]; intros st p n Hlast Hin Hlost.
  - simpl. repeat split; auto; try lia. rewrite Hlost. f_equal. lia.
  - destruct (ingest_reading (fst m) (snd m) st l s p n Hm Hlast Hin Hlost)
      as (Hc & Hls & Hsd & Hl & Htot & Hlat & Hcyc).
    destruct (IH _ _ _ Hls Hsd Hl) as (Hc' & Hl' & Htot' & Hlat' & Hcyc').
    unfold ingest_all in *. cbn [fold_left loss_of List.length].
    repeat split.
    + now rewrite Hc'.
    + rewrite Hl'. f_equal. lia.
    + rewrite Htot', Htot. lia.
    + rewrite Hlat', Hlat. lia.
    + now rewrite Hcyc'.
Qed.

Lemma sensor_message_reading lane d q s ts :
  reading_for lane s (sensor_message lane d q s ts).
Proof.
  unfold reading_for, sensor_message.
  repeat split; try reflexivity; eexists; reflexivity.
Qed.
Lemma bind_run {A B : Type} (m : M A) (k : A -> M B) st a st1 :
  m st = (Ok a, st1) -> bind m k st = k a st1.
Proof. intros H. unfold bind. now rewrite H. Qed.

Lemma bind_run_raise {A B : Type} (m : M A) (k : A -> M B) st e st1 :
  m st = (Raise e, st1) -> bind m k st = (Raise e, st1).
Proof. intros H. unfold bind. now rewrite H. Qed.

Ltac step_ok x H :=
  match goal with
  | |- context [bind (lift ?r) _ _] =>
      destruct r as [x|?] eqn:H;
      [rewrite (bind_lift_ok _ _ _ _ eq_refl)
      |rewrite (bind_lift_raise _ _ _ _ eq_refl); cbn; discriminate]
  end.

(** A handler run that reports no exception read a configured lane, a
    numeric [ts], a [seq], and a [density_pct] from the payload. *)
Lemma on_message_success_inv t data st :
  on_message_error t data st = None ->
  exists l tp cur p rs dens,
    getitem data "lane" = Ok (Str l)
    /\ getitem data "ts" = Ok (Num tp)
    /\ getitem data "seq" = Ok cur
    /\ dict_get (last_seq st) l = Some (Num p)
    /\ dict_get (sensor_data st) l = Some rs
    /\ getitem data "density_pct" = Ok dens
    /\ (num_leb (Int 0) p && value_ne cur (Num (num_add p (Int 1))) = true ->
        exists c, cur = Num c).
Proof.
  unfold on_message_error, on_message_body.
  step_ok lv Hlane. step_ok tv Hts. step_ok tp Hnum. step_ok cur Hseq.
  match goal with
  | |- context [bind (reads ?f) _ _] =>
      destruct (f st) as [[l last]|e] eqn:Hlook;
      [rewrite (bind_reads_ok _ _ _ _ Hlook)
      |rewrite (bind_reads_raise _ _ _ _ Hlook); cbn; discriminate]
  end.
  cbn [fst snd].
  step_ok expected Hexp. step_ok seen Hseen.
  apply lookup_lane_ok in Hlook as [-> Hlast].
  destruct tv as [tp'|?|]; simpl in Hnum; try discriminate.
  inversion Hnum; subst tp'.
  destruct last as [p|?|]; try discriminate.
  simpl in Hexp, Hseen. inversion Hexp; subst. inversion Hseen; subst.
  set (gap := num_leb (Int 0) p && value_ne cur (Num (num_add p (Int 1)))).
  match goal with
  | |- context [bind ?m _ st] =>
      assert (Hif : (exists e, m st = (Raise e, st))
                    \/ ((exists mt, m st = (Ok tt, set_metrics mt st))
                        /\ (gap = true -> exists c, cur = Num c)))
  end.
  { destruct gap eqn:Eg.
    - destruct cur as [c|sq|].
      + right. split; [|eauto]. eexists. reflexivity.
      + left. eexists. reflexivity.
      + left. eexists. reflexivity.
    - right. split; [|discriminate].
      exists (metrics st). destruct st; reflexivity. }
  destruct Hif as [[e Hif]|[[mt Hif] Hgap]].
  { rewrite (bind_run_raise _ _ _ _ _ Hif). cbn. discriminate. }
  rewrite (bind_run _ _ _ _ _ Hif). rewrite !bind_modify. proj.
  destruct (dict_get (sensor_data st) l) as [rs|] eqn:Hsd.
  2:{ rewrite (bind_reads_raise _ KeyError)
        by (proj; unfold getitem; now rewrite Hsd).
      cbn. discriminate. }
  rewrite (bind_reads_ok _ rs) by (proj; unfold getitem; now rewrite Hsd).
  step_ok dens Hdens.
  intros _. exists l, tp, cur, p, rs, dens. repeat split; auto.
Qed.

(** The window of a lane after a reading for it has been handled: the old
    entries and the new one, filtered against the receipt time. *)
Lemma window_after t data st l :
  getitem data "lane" = Ok (Str l) ->
  on_message_error t data st = None ->
  exists entry,
    window (on_message t data st) l
    = filter (fun d => Qltb (t - moving_average_window (config st))
                         (num_to_Q (timestamp d)))
        (window st l ++ [entry]).
Proof.
  intros Hl Hok.
  destruct (on_message_success_inv t data st Hok)
    as (l' & tp & cur & p & rs & dens & Hlane & Hts & Hseq & Hlast & Hsd
        & Hdens & Hgap).
  rewrite Hl in Hlane. inversion Hlane; subst l'.
  destruct (on_message_recorded t data st l tp cur p rs dens
              Hl Hts Hseq Hlast Hsd Hdens Hgap)
    as (_ & _ & Hwin & _).
  eexists. unfold window, dict_get_default.
  rewrite Hwin, dict_get_set_same, Hsd. reflexivity.
Qed.

Lemma Qltb_lt a b : Qltb a b = true <-> (a < b)%Q.
Proof.
  unfold Qltb. rewrite negb_true_iff.
  split; intros H.
  - apply Qnot_le_lt. intros Hle. apply Qle_bool_iff in Hle. congruence.
  - destruct (Qle_bool b a) eqn:E; [|reflexivity].
    apply Qle_bool_iff in E. exfalso. now apply (Qlt_not_le a b).
Qed.
End EdgeIngest.

(** * Rounding without clamping *)

Section Unclamped.
Import EdgeController.

Lemma dict_get_map {V W : Type} (f : V -> W) (d : dict V) k :
  dict_get (map (fun kv => (fst kv, f (snd kv))) d) k
  = option_map f (dict_get d k).
Proof.
  induction d as [|[k' v] d IH]; simpl; [reflexivity|].
  destruct (String.eqb k' k); auto.
Qed.

Lemma dict_keys_map {V W : Type} (f : V -> W) (d : dict V) :
  dict_keys (map (fun kv => (fst kv, f (snd kv))) d) = dict_keys d.
Proof. unfold dict_keys. rewrite map_map. reflexivity. Qed.

Lemma dict_values_map {V W : Type} (f : V -> W) (d : dict V) :
  dict_values (map (fun kv => (fst kv, f (snd kv))) d) = map f (dict_values d).
Proof. unfold dict_values. rewrite !map_map. reflexivity. Qed.

(** Two dictionaries with the same duplicate-free key sequence and the same
    lookups are the same list. *)
Lemma dict_ext {V : Type} (d1 : dict V) : forall d2,
  NoDup (dict_keys d1) ->
  dict_keys d1 = dict_keys d2 ->
  (forall k, In k (dict_keys d1) -> dict_get d1 k = dict_get d2 k) ->
  d1 = d2.
Proof.
  induction d1 as [|[k1 v1] d1 IH]; intros [|[k2 v2] d2] Hnd Hk Hget;
    simpl in Hk; try discriminate; [reflexivity|].
  inversion Hk; subst k2. inversion Hnd as [|? ? Hnotin Hnd']; subst.
  pose proof (Hget k1 (or_introl eq_refl)) as Hhead.
  simpl in Hhead. rewrite String.eqb_refl in Hhead. inversion Hhead; subst v2.
  f_equal. apply IH; auto.
  intros k Hin. specialize (Hget k (or_intror Hin)). simpl in Hget.
  destruct (String.eqb_spec k1 k) as [->|Hne]; [contradiction|exact Hget].
Qed.

Lemma raw_greens_map cfg (avg : dict Q) :
  dict_keys avg = lane_keys (lanes cfg) ->
  raw_greens cfg avg
  = Ok (map (fun kv => (fst kv, raw_green cfg (Qsum (dict_values avg)) (snd kv)))
          avg).
Proof.
  intros Hk. destruct (raw_greens_ok cfg avg Hk) as (raw & Hraw & Hkraw).
  rewrite Hraw. f_equal. symmetry. apply dict_ext.
  - rewrite dict_keys_map, Hk. apply lane_keys_NoDup.
  - now rewrite dict_keys_map, Hk, Hkraw.
  - intros k Hin. rewrite dict_keys_map, Hk in Hin.
    apply (proj1 (lane_keys_in _ _)) in Hin.
    rewrite dict_get_map.
    destruct (dict_for_get_in _ _ k Hin _ _ Hraw) as (v & Hv & ->).
    unfold getitem in Hv. destruct (dict_get avg k); simpl in *;
      [now inversion Hv|discriminate].
Qed.

Lemma rounded_greens_values cfg (avg : dict Q) pre :
  dict_keys avg = lane_keys (lanes cfg) ->
  rounded_greens cfg avg = Ok pre ->
  dict_values pre
  = map (fun a => py_int (raw_green cfg (Qsum (dict_values avg)) a))
      (dict_values avg).
Proof.
  intros Hk Hpre. unfold rounded_greens in Hpre.
  rewrite (raw_greens_map cfg avg Hk) in Hpre. simpl in Hpre.
  inversion Hpre; subst. unfold dict_values. rewrite !map_map. reflexivity.
Qed.

Lemma fold_Qplus_shift xs : forall a,
  (fold_left Qplus xs a == a + fold_left Qplus xs (inject_Z 0))%Q.
Proof.
  induction xs as [|x xs IH]; simpl; intros a; [ring|].
  rewrite (IH (a + x)%Q), (IH (inject_Z 0 + x)%Q). ring.
Qed.

Lemma Qsum_cons x xs : (Qsum (x :: xs) == x + Qsum xs)%Q.
Proof. unfold Qsum. simpl. rewrite fold_Qplus_shift. ring. Qed.

Lemma Qsum_shares (total : Q) (A : Q) xs :
  (Qsum (map (fun a => a / total * A) xs) == Qsum xs / total * A)%Q.
Proof.
  induction xs as [|x xs IH]; simpl map.
  - unfold Qsum, Qdiv. simpl. ring.
  - rewrite !Qsum_cons, IH. unfold Qdiv. ring.
Qed.

Lemma Qtrunc_floor q : (0 <= q)%Q -> Qtrunc q = Qfloor q.
Proof.
  destruct q as [n d]. unfold Qle, Qtrunc, Qfloor. simpl. intros H.
  apply Z.quot_div_nonneg; lia.
Qed.

Lemma trunc_sum_bounds rs :
  Forall (fun r => 0 <= r)%Q rs ->
  (inject_Z (Zsum (map Qtrunc rs)) <= Qsum rs)%Q
  /\ (Qsum rs <= inject_Z (Zsum (map Qtrunc rs) + Z.of_nat (List.length rs)))%Q
  /\ (rs <> [] ->
      (Qsum rs < inject_Z (Zsum (map Qtrunc rs) + Z.of_nat (List.length rs)))%Q).
Proof.
  induction 1 as [|r rs Hr _ (IH1 & IH2 & IH3)].
  - repeat split; try (unfold Qsum, Zsum; simpl; lra).
    intros Hne. now contradiction Hne.
  - simpl map. rewrite Zsum_cons.
    assert (Hlo : (inject_Z (Qtrunc r) <= r)%Q)
      by (rewrite (Qtrunc_floor r Hr); apply Qfloor_le).
    assert (Hhi : (r < inject_Z (Qtrunc r + 1))%Q)
      by (rewrite (Qtrunc_floor r Hr); apply Qlt_floor).
    assert (Hstrict :
      (Qsum (r :: rs)
       < inject_Z (Qtrunc r + Zsum (map Qtrunc rs)
                   + Z.of_nat (List.length (r :: rs))))%Q).
    { rewrite Qsum_cons. simpl List.length. rewrite Nat2Z.inj_succ.
      rewrite !inject_Z_plus in *. unfold Z.succ. rewrite inject_Z_plus.
      lra. }
    repeat split.
    + rewrite Qsum_cons, inject_Z_plus. lra.
    + now apply Qlt_le_weak.
    + intros _. exact Hstrict.
Qed.

(** When no clamp is active and the shares are non-negative, the rounding
    difference lies in [0, n) and the single pass closes it: the schedule
    sums to the available time. *)
Lemma unclamped_sum_exact st avg :
  avg_densities st = Ok avg ->
  Qle_bool (Qsum (dict_values avg)) (inject_Z 0) = false ->
  0 <= available (config st) ->
  unclamped (config st) avg ->
  exists g,
    compute_green_times st = Ok (g, avg)
    /\ Zsum (dict_values g) = available (config st).
Proof.
  intros Havg Hpos HA Hun.
  destruct (compute_green_times_pos st avg Havg Hpos)
    as (pre & g & Hpre & Hg & _ & Hsum & _).
  exists g. split; [exact Hg|]. rewrite Hsum.
  pose proof (avg_densities_keys _ _ Havg) as Hk.
  assert (Htot : (0 < Qsum (dict_values avg))%Q).
  { apply Qnot_le_lt. intros Hle.
    assert (E : Qle_bool (Qsum (dict_values avg)) (inject_Z 0) = true)
      by (apply Qle_bool_iff; exact Hle).
    congruence. }
  set (total := Qsum (dict_values avg)) in *.
  set (A := available (config st)) in *.
  set (share := fun a : Q => (a / total * inject_Z A)%Q).
  assert (Hvals : dict_values pre = map Qtrunc (map share (dict_values avg))).
  { rewrite (rounded_greens_values _ _ _ Hk Hpre), map_map.
    apply map_ext_in. intros a Ha. destruct (Hun a Ha) as [_ ->].
    reflexivity. }
  assert (Hnonneg : Forall (fun r => 0 <= r)%Q (map share (dict_values avg))).
  { apply Forall_forall. intros r Hr. apply in_map_iff in Hr as (a & <- & Ha).
    destruct (Hun a Ha) as [Ha0 _]. unfold share.
    apply Qmult_le_0_compat.
    - apply Qle_shift_div_l; [exact Htot|]. lra.
    - change 0%Q with (inject_Z 0). now rewrite <- Zle_Qle. }
  destruct (trunc_sum_bounds _ Hnonneg) as (Hlo & _ & Hhi).
  assert (Hshares : (Qsum (map share (dict_values avg)) == inject_Z A)%Q).
  { unfold share. rewrite Qsum_shares. fold total. field. lra. }
  rewrite Hshares in Hlo. rewrite <- Hvals in Hlo.
  rewrite <- Zle_Qle in Hlo.
  assert (Hne : map share (dict_values avg) <> []).
  { intros E. apply map_eq_nil in E. unfold total in Htot. rewrite E in Htot.
    exact (Qlt_irrefl 0 Htot). }
  specialize (Hhi Hne). rewrite Hshares, <- Hvals in Hhi.
  rewrite <- Zlt_Qlt in Hhi. rewrite !length_map in Hhi.
  assert (Hlen : List.length (dict_values avg)
                 = List.length (lane_keys (lanes (config st)))).
  { rewrite <- Hk. unfold dict_values, dict_keys. now rewrite !length_map. }
  rewrite Hlen in Hhi.
  unfold single_pass. lia.
Qed.
End Unclamped.

(** Three equal shares of 40 seconds truncate to 13 each; the pass hands the
    remaining second to the first lane. *)
Example rounding_leftover :
  exists avg,
    EdgeController.compute_green_times rounding_state
    = Ok ([("north", 14); ("south", 13); ("east", 13)], avg)
    /\ unclamped rounding_config avg.
Proof.
  eexists. split; [vm_compute; reflexivity|].
  intros a [<-|[<-|[<-|[]]]]; split; try reflexivity; discriminate.
Qed.

(** * Properties of the allocation *)

(** C1, evaluated on the worked example (average densities 80, 20, 0, 0 with
    cycle 60, yellow 3, all-red 2, green range 10..60).  The total density is
    positive and the available time is 40, yet both controllers return the
    schedule 31, 9, 9, 9, which sums to 58: the single redistribution pass
    removes four of the 22 surplus seconds that clamping created. *)
Theorem worked_example_sum_differs :
  exists g avg,
    EdgeController.compute_green_times example_state = Ok (g, avg)
    /\ TrafficApi.compute_green_times TrafficApi.init api_example_data = Ok g
    /\ (0 < Qsum (dict_values avg))%Q
    /\ g = [("north", 31); ("south", 9); ("east", 9); ("west", 9)]
    /\ Zsum (dict_values g) = 58
    /\ EdgeController.available (EdgeController.config example_state) = 40
    /\ TrafficApi.available_time TrafficApi.init = 40
    /\ Zsum (dict_values g)
       <> EdgeController.available (EdgeController.config example_state).
Proof.
  do 2 eexists. split; [vm_compute; reflexivity|].
  repeat split. discriminate.
Qed.

(** C10: on the proportional path of either controller the redistribution
    loop visits the lanes in an order without repetition, each lane's final
    green time is within one second of its clamped and truncated value, and
    the sum moves by at most the number of lanes. *)
Theorem redistribution_single_pass :
  (forall st avg,
     EdgeController.avg_densities st = Ok avg ->
     Qle_bool (Qsum (dict_values avg)) (inject_Z 0) = false ->
     exists pre g,
       EdgeController.rounded_greens (EdgeController.config st) avg = Ok pre
       /\ EdgeController.compute_green_times st = Ok (g, avg)
       /\ NoDup (map fst (EdgeController.sorted_lanes avg))
       /\ (forall lane, Z.abs (green_of g lane - green_of pre lane) <= 1)
       /\ Z.abs (Zsum (dict_values g) - Zsum (dict_values pre))
          <= Z.of_nat (List.length
                         (EdgeController.lanes (EdgeController.config st))))
  /\ (forall self sd avg,
        NoDup (TrafficApi.lanes self) ->
        TrafficApi.avg_density self sd = Ok avg ->
        num_leb (TrafficApi.total_density avg) (Int 0) = false ->
        exists pre g order,
          TrafficApi.clamped_greens self avg = Ok pre
          /\ TrafficApi.compute_green_times self sd = Ok g
          /\ TrafficApi.sorted_lanes self avg = Ok order
          /\ NoDup order
          /\ (forall lane, Z.abs (green_of g lane - green_of pre lane) <= 1)
          /\ Z.abs (Zsum (dict_values g) - Zsum (dict_values pre))
             <= Z.of_nat (List.length (TrafficApi.lanes self))).
Proof.
  split.
  - intros st avg Havg Hpos.
    destruct (compute_green_times_pos st avg Havg Hpos)
      as (pre & g & Hpre & Hg & _ & Hsum & Hlane).
    exists pre, g. repeat split; auto.
    + eapply sorted_lanes_NoDup; eauto.
    + rewrite Hsum.
      pose proof (single_pass_bound
        (List.length (lane_keys (EdgeController.lanes (EdgeController.config st))))
        (EdgeController.available (EdgeController.config st)
         - Zsum (dict_values pre))).
      pose proof (lane_keys_length
        (EdgeController.lanes (EdgeController.config st))).
      lia.
  - intros self sd avg Hnd Havg Hpos.
    destruct (api_compute_green_times_pos self sd avg Havg Hpos)
      as (pre & g & Hpre & Hg & _ & Hsum & Hlane).
    destruct (sorted_lanes_ok self avg (avg_density_keys self _ _ Havg))
      as (order & Hord & Hperm).
    exists pre, g, order. repeat split; auto.
    + eapply Permutation_NoDup; [symmetry; exact Hperm|exact Hnd].
    + rewrite Hsum.
      pose proof (single_pass_bound (List.length (TrafficApi.lanes self))
        (TrafficApi.available_time self - Zsum (dict_values pre))).
      lia.
Qed.

(** The bound at the worked example, for both controllers. *)
Lemma redistribution_single_pass_witness :
  (exists pre g,
     EdgeController.rounded_greens (EdgeController.config example_state)
       [("north", inject_Z 80); ("south", inject_Z 20);
        ("east", inject_Z 0); ("west", inject_Z 0)] = Ok pre
     /\ EdgeController.compute_green_times example_state
        = Ok (g, [("north", inject_Z 80); ("south", inject_Z 20);
                  ("east", inject_Z 0); ("west", inject_Z 0)])
     /\ NoDup (map fst (EdgeController.sorted_lanes
                          [("north", inject_Z 80); ("south", inject_Z 20);
                           ("east", inject_Z 0); ("west", inject_Z 0)]))
     /\ (forall lane, Z.abs (green_of g lane - green_of pre lane) <= 1)
     /\ Z.abs (Zsum (dict_values g) - Zsum (dict_values pre))
        <= Z.of_nat (List.length
                       (EdgeController.lanes
                          (EdgeController.config example_state))))
  /\ (exists pre g order,
        TrafficApi.clamped_greens TrafficApi.init
          [("north", Float (inject_Z 80)); ("south", Float (inject_Z 20));
           ("east", Float (inject_Z 0)); ("west", Float (inject_Z 0))] = Ok pre
        /\ TrafficApi.compute_green_times TrafficApi.init api_example_data
           = Ok g
        /\ TrafficApi.sorted_lanes TrafficApi.init
             [("north", Float (inject_Z 80)); ("south", Float (inject_Z 20));
              ("east", Float (inject_Z 0)); ("west", Float (inject_Z 0))]
           = Ok order
        /\ NoDup order
        /\ (forall lane, Z.abs (green_of g lane - green_of pre lane) <= 1)
        /\ Z.abs (Zsum (dict_values g) - Zsum (dict_values pre))
           <= Z.of_nat (List.length (TrafficApi.lanes TrafficApi.init))).
Proof.
  split.
  - apply (proj1 redistribution_single_pass example_state); vm_compute;
      reflexivity.
  - apply (proj2 redistribution_single_pass TrafficApi.init api_example_data).
    + repeat constructor; simpl; intuition discriminate.
    + vm_compute. reflexivity.
    + vm_compute. reflexivity.
Defined.

Lemma dict_comp_keys {V : Type} ks (f : string -> V) :
  dict_keys (dict_comp ks f) = lane_keys ks.
Proof. exact (dict_for_keys ks _ [] _ (dict_comp_for ks f)). Qed.

Lemma green_of_comp ks (f : string -> Z) lane :
  In lane ks -> green_of (dict_comp ks f) lane = f lane.
Proof.
  intros H. unfold green_of, dict_get_default. now rewrite dict_comp_get.
Qed.

(** With no traffic the web controller returns [min_green] = 10 for every
    lane, not [60 // (2 * 4)] = 7; and with an empty lane list the edge
    controller raises [ZeroDivisionError] instead of returning
    (counterexample to C6 as stated). *)
Lemma zero_density_min_green_counterexample :
  (exists avg g,
     TrafficApi.avg_density TrafficApi.init api_idle_data = Ok avg
     /\ num_leb (TrafficApi.total_density avg) (Int 0) = true
     /\ TrafficApi.compute_green_times TrafficApi.init api_idle_data = Ok g
     /\ green_of g "north" = 10
     /\ TrafficApi.cycle_length TrafficApi.init
        / (2 * Z.of_nat (List.length (TrafficApi.lanes TrafficApi.init))) = 7)
  /\ EdgeController.compute_green_times
       (EdgeController.init empty_lanes_config) = Raise ZeroDivisionError.
Proof. split; [do 2 eexists; repeat split|reflexivity]. Qed.

(** C6 (amended): when the total of the averages is not positive,
    [ProportionalController] with a non-empty lane list returns
    [cycle_length // (2 * len(lanes))] for every lane, and
    [AdaptiveController] returns [min_green] for every lane; in both the
    schedule is a constant map that no density enters. *)
Theorem zero_density_equal_split :
  (forall st avg,
     EdgeController.avg_densities st = Ok avg ->
     Qle_bool (Qsum (dict_values avg)) (inject_Z 0) = true ->
     EdgeController.lanes (EdgeController.config st) <> [] ->
     let cfg := EdgeController.config st in
     let equal :=
       EdgeController.cycle_length (EdgeController.timing cfg)
       / (Z.of_nat (List.length (EdgeController.lanes cfg)) * 2) in
     EdgeController.compute_green_times st
     = Ok (dict_comp (EdgeController.lanes cfg) (fun _ => equal), avg)
     /\ forall lane, In lane (EdgeController.lanes cfg) ->
          green_of (dict_comp (EdgeController.lanes cfg) (fun _ => equal)) lane
          = equal)
  /\ (forall self sd avg,
        TrafficApi.avg_density self sd = Ok avg ->
        num_leb (TrafficApi.total_density avg) (Int 0) = true ->
        TrafficApi.compute_green_times self sd
        = Ok (dict_comp (TrafficApi.lanes self)
                (fun _ => TrafficApi.min_green self))
        /\ forall lane, In lane (TrafficApi.lanes self) ->
             green_of (dict_comp (TrafficApi.lanes self)
                         (fun _ => TrafficApi.min_green self)) lane
             = TrafficApi.min_green self).
Proof.
  split.
  - intros st avg Havg Hle Hne cfg equal. subst cfg equal. split.
    + rewrite (compute_green_times_zero st avg Havg Hle).
      unfold floordiv.
      destruct (Z.eqb_spec
                  (Z.of_nat (List.length
                     (EdgeController.lanes (EdgeController.config st))) * 2) 0)
        as [E|E].
      * destruct (EdgeController.lanes (EdgeController.config st));
          [contradiction|simpl in E; lia].
      * reflexivity.
    + intros lane Hin. now apply green_of_comp.
  - intros self sd avg Havg Hle. split.
    + now apply api_compute_green_times_zero with (avg := avg).
    + intros lane Hin. now apply green_of_comp.
Qed.

(** The equal split on a fresh edge controller and on the idle web
    controller. *)
Lemma zero_density_equal_split_witness :
  (EdgeController.compute_green_times (EdgeController.init example_config)
   = Ok (dict_comp four_lanes (fun _ => 60 / (4 * 2)),
         [("north", inject_Z 0); ("south", inject_Z 0);
          ("east", inject_Z 0); ("west", inject_Z 0)])
   /\ forall lane, In lane four_lanes ->
        green_of (dict_comp four_lanes (fun _ => 60 / (4 * 2))) lane
        = 60 / (4 * 2))
  /\ (TrafficApi.compute_green_times TrafficApi.init api_idle_data
      = Ok (dict_comp four_lanes (fun _ => 10))
      /\ forall lane, In lane four_lanes ->
           green_of (dict_comp four_lanes (fun _ => 10)) lane = 10).
Proof.
  split.
  - apply (proj1 zero_density_equal_split (EdgeController.init example_config)).
    + vm_compute. reflexivity.
    + vm_compute. reflexivity.
    + discriminate.
  - apply (proj2 zero_density_equal_split TrafficApi.init api_idle_data
             [("north", Int 0); ("south", Int 0);
              ("east", Int 0); ("west", Int 0)]).
    + vm_compute. reflexivity.
    + vm_compute. reflexivity.
Defined.

(** * Cycle counting *)

Lemma publish_phases_ok {P : Type} lanes (g : dict Z) (mk : string -> Z -> P) :
  dict_keys g = lane_keys lanes ->
  exists phases,
    list_for lanes (fun lane => let* x := getitem g lane in Ok (mk lane x))
    = Ok phases.
Proof.
  intros Hk. apply list_for_ok. intros lane Hin.
  apply lane_keys_in in Hin. rewrite <- Hk in Hin.
  apply dict_in_get_some in Hin as [x Hx].
  unfold getitem. rewrite Hx. simpl. eauto.
Qed.

(** After three readings per lane, the first tick publishes
    [cycle_count = 0] while the counter becomes 1 (counterexample to C5 as
    stated). *)
Lemma first_tick_counterexample :
  let st := EdgeController.ingest_all three_per_lane
              (EdgeController.init example_config) in
  exists st' message,
    EdgeController.control_loop_iteration (inject_Z 160) st = Ok (st', message)
    /\ EdgeController.cycle_count (EdgeController.metrics st') = 1
    /\ EdgeController.msg_cycle_count message = 0
    /\ EdgeController.msg_cycle_count message
       <> EdgeController.cycle_count (EdgeController.metrics st').
Proof.
  do 2 eexists. split; [vm_compute; reflexivity|].
  repeat split. discriminate.
Qed.

Lemma edge_tick now st g avg :
  EdgeController.compute_green_times st = Ok (g, avg) ->
  exists st' message,
    EdgeController.control_loop_iteration now st = Ok (st', message)
    /\ EdgeController.cycle_count (EdgeController.metrics st')
       = EdgeController.cycle_count (EdgeController.metrics st) + 1
    /\ EdgeController.msg_cycle_count message
       = EdgeController.cycle_count (EdgeController.metrics st)
    /\ EdgeController.config st' = EdgeController.config st.
Proof.
  intros Hc.
  unfold EdgeController.control_loop_iteration,
    EdgeController.publish_schedule.
  rewrite Hc. cbn [rbind fst].
  destruct (publish_phases_ok
              (EdgeController.lanes (EdgeController.config st)) g
              (fun lane x =>
                 {| EdgeController.phase_lane := lane;
                    EdgeController.phase_green := x;
                    EdgeController.phase_yellow :=
                      EdgeController.yellow_time
                        (EdgeController.timing (EdgeController.config st)) |})
              (compute_green_times_keys _ _ _ Hc)) as [phases Hp].
  rewrite Hp. cbn [rbind]. do 2 eexists. repeat split.
Qed.

Lemma api_tick now self sd g :
  TrafficApi.compute_green_times self sd = Ok g ->
  exists self' message,
    TrafficApi.publish_schedule now self sd = Ok (self', message)
    /\ TrafficApi.cycle_count self' = TrafficApi.cycle_count self + 1
    /\ TrafficApi.msg_cycle_count message = TrafficApi.cycle_count self.
Proof.
  intros Hc.
  unfold TrafficApi.publish_schedule. rewrite Hc. cbn [rbind].
  destruct (publish_phases_ok (TrafficApi.lanes self) g
              (fun lane x =>
                 {| TrafficApi.phase_lane := lane;
                    TrafficApi.phase_green := x;
                    TrafficApi.phase_yellow := TrafficApi.yellow_time self |})
              (api_compute_green_times_keys _ _ _ Hc)) as [phases Hp].
  rewrite Hp. cbn [rbind]. do 2 eexists. repeat split.
Qed.

(** C5 (amended): a tick whose allocation succeeds publishes and increases
    the cycle counter by exactly 1; the published [cycle_count] is the value
    of the counter before the increment. *)
Theorem tick_counts_cycle :
  (forall now st g avg,
     EdgeController.compute_green_times st = Ok (g, avg) ->
     exists st' message,
       EdgeController.control_loop_iteration now st = Ok (st', message)
       /\ EdgeController.cycle_count (EdgeController.metrics st')
          = EdgeController.cycle_count (EdgeController.metrics st) + 1
       /\ EdgeController.msg_cycle_count message
          = EdgeController.cycle_count (EdgeController.metrics st))
  /\ (forall now self sd g,
        TrafficApi.compute_green_times self sd = Ok g ->
        exists self' message,
          TrafficApi.publish_schedule now self sd = Ok (self', message)
          /\ TrafficApi.cycle_count self' = TrafficApi.cycle_count self + 1
          /\ TrafficApi.msg_cycle_count message = TrafficApi.cycle_count self).
Proof.
  split.
  - intros now st g avg Hc.
    destruct (edge_tick now st g avg Hc) as (st' & message & H1 & H2 & H3 & _).
    eauto.
  - intros now self sd g Hc. now apply api_tick with (g := g).
Qed.

(** One tick of each controller on the worked example. *)
Lemma tick_counts_cycle_witness :
  (exists st' message,
     EdgeController.control_loop_iteration (inject_Z 160) example_state
     = Ok (st', message)
     /\ EdgeController.cycle_count (EdgeController.metrics st')
        = EdgeController.cycle_count (EdgeController.metrics example_state) + 1
     /\ EdgeController.msg_cycle_count message
        = EdgeController.cycle_count (EdgeController.metrics example_state))
  /\ (exists self' message,
        TrafficApi.publish_schedule (inject_Z 160) TrafficApi.init
          api_example_data = Ok (self', message)
        /\ TrafficApi.cycle_count self'
           = TrafficApi.cycle_count TrafficApi.init + 1
        /\ TrafficApi.msg_cycle_count message
           = TrafficApi.cycle_count TrafficApi.init).
Proof.
  split.
  - eapply (proj1 tick_counts_cycle). vm_compute. reflexivity.
  - eapply (proj2 tick_counts_cycle). vm_compute. reflexivity.
Defined.

(** * Startup *)

Section Startup.
Import EdgeController.






End Startup.




(** * Properties of the ingestion *)

Lemma north_trace_readings seqs :
  Forall2 (fun m s => reading_for "north" s (snd m)) (north_trace seqs) seqs.
Proof.
  induction seqs as [|s seqs IH]; simpl; constructor; auto.
  apply sensor_message_reading.
Qed.

Lemma init_tracks cfg l :
  In l (EdgeController.lanes cfg) ->
  dict_get (EdgeController.last_seq (EdgeController.init cfg)) l
  = Some (Num (Int (-1)))
  /\ In l (dict_keys (EdgeController.sensor_data (EdgeController.init cfg)))
  /\ EdgeController.lost_messages
       (EdgeController.metrics (EdgeController.init cfg)) = Int 0.
Proof.
  intros Hin. repeat split.
  - now apply init_last_seq.
  - eapply dict_get_some_in. now apply init_sensor_data.
Qed.

(** A stale or duplicate sequence number on a lane already seen lowers the
    loss counter by the distance to the expected number. *)
Lemma stale_reading_decrements t data st l s p n :
  reading_for l s data ->
  dict_get (EdgeController.last_seq st) l = Some (Num (Int p)) ->
  In l (dict_keys (EdgeController.sensor_data st)) ->
  EdgeController.lost_messages (EdgeController.metrics st) = Int n ->
  0 <= p -> s <= p ->
  EdgeController.lost_messages
    (EdgeController.metrics (EdgeController.on_message t data st))
  = Int (n - (p + 1 - s)).
Proof.
  intros Hr Hlast Hsd Hlost Hp Hs.
  destruct (ingest_reading t data st l s p n Hr Hlast Hsd Hlost)
    as (_ & _ & _ & H & _).
  rewrite H. unfold loss_step.
  destruct (Z.leb_spec 0 p); [|lia].
  destruct (Z.eqb_spec s (p + 1)); [lia|]. cbn. f_equal. lia.
Qed.

(** C2, evaluated on its own trace: for lane north of the example
    controller the loss counter is 0 after sequence numbers 0, 1, 2, drops to
    -1 when 2 arrives again, and is still -1 after 0, 1, 2, 2, 3. *)
Theorem duplicate_decrements_loss :
  let lost seqs :=
    EdgeController.lost_messages
      (EdgeController.metrics
         (EdgeController.ingest_all (north_trace seqs)
            (EdgeController.init example_config))) in
  lost [0; 1; 2] = Int 0
  /\ lost [0; 1; 2; 2] = Int (-1)
  /\ lost [0; 1; 2; 2; 3] = Int (-1).
Proof. repeat split. Qed.




(** C8, evaluated: the latency list of [ProportionalController] keeps one
    sample per ingested reading, so after [N + 1] readings it holds [N + 1]
    samples, more than any capacity [N] fixed in advance. *)
Theorem latencies_unbounded :
  forall N : nat,
    List.length
      (EdgeController.latencies
         (EdgeController.metrics
            (EdgeController.ingest_all (north_burst (S N))
               (EdgeController.init example_config)))) = S N.
Proof.
  intros N. unfold north_burst.
  destruct (init_tracks example_config "north") as (Hlast & Hsd & Hlost);
    [simpl; auto|].
  destruct (ingest_trace "north" _ _
              (north_trace_readings (map Z.of_nat (seq 0 (S N))))
              _ _ _ Hlast Hsd Hlost) as (_ & _ & _ & H & _).
  rewrite H. unfold north_trace. rewrite !length_map, length_seq.
  reflexivity.
Qed.




(** * The moving window *)

(** C7: once a reading for a lane has been handled at receipt time [t'],
    every entry left in the lane's window carries a timestamp later than
    [t' - moving_average_window]; so an entry whose timestamp is [T], or
    any earlier time, is gone as soon as [t' > T + moving_average_window],
    and also as soon as the new reading's own timestamp exceeds
    [T + moving_average_window] provided that timestamp is not ahead of the
    receipt time.  The average of the lane is taken over exactly that
    window: [avg_densities] reads no clock. *)
Theorem window_pruning :
  forall t' data st l,
    getitem data "lane" = Ok (Str l) ->
    EdgeController.on_message_error t' data st = None ->
    let st' := EdgeController.on_message t' data st in
    let horizon :=
      EdgeController.moving_average_window (EdgeController.config st) in
    (forall r, In r (window st' l) ->
       (t' - horizon < num_to_Q (EdgeController.timestamp r))%Q)
    /\ (forall r T,
          (num_to_Q (EdgeController.timestamp r) <= T)%Q ->
          (T + horizon < t')%Q ->
          ~ In r (window st' l))
    /\ (forall r T tp,
          (num_to_Q (EdgeController.timestamp r) <= T)%Q ->
          getitem data "ts" = Ok (Num tp) ->
          (num_to_Q tp <= t')%Q ->
          (T + horizon < num_to_Q tp)%Q ->
          ~ In r (window st' l))
    /\ (forall avg a,
          EdgeController.avg_densities st' = Ok avg ->
          dict_get avg l = Some a ->
          EdgeController.average (window st' l) = Ok a).
Proof.
  intros t' data st l Hl Hok st' horizon.
  destruct (window_after t' data st l Hl Hok) as [entry Hwin].
  assert (Hkept : forall r, In r (window st' l) ->
            (t' - horizon < num_to_Q (EdgeController.timestamp r))%Q).
  { intros r Hr. subst st'. rewrite Hwin in Hr.
    apply filter_In in Hr as [_ Hr]. now apply Qltb_lt in Hr. }
  split; [exact Hkept|]. split; [|split].
  - intros r T HT Hold Hr. apply Hkept in Hr. lra.
  - intros r T tp HT _ Hlat Hold Hr. apply Hkept in Hr. lra.
  - intros avg a Havg Ha.
    assert (Hin : In l (EdgeController.lanes (EdgeController.config st'))).
    { apply lane_keys_in. rewrite <- (avg_densities_keys _ _ Havg).
      eapply dict_get_some_in; eauto. }
    destruct (dict_for_get_in _ _ l Hin _ _ Havg) as (a' & Hf & Ha').
    rewrite Ha in Ha'. inversion Ha'; subst a'.
    unfold window, dict_get_default.
    unfold getitem in Hf.
    destruct (dict_get (EdgeController.sensor_data st') l); simpl in Hf;
      [exact Hf|discriminate].
Qed.

(** A reading for lane north received at 140 prunes the entry stamped
    100 under a 30 second window. *)
Lemma window_pruning_witness :
  let data := sensor_message "north" (Int 60) 6 1 (Int 140) in
  let st' := EdgeController.on_message (inject_Z 140) data example_state in
  (forall r, In r (window st' "north") ->
     (inject_Z 140 - inject_Z 30 < num_to_Q (EdgeController.timestamp r))%Q)
  /\ (forall r T,
        (num_to_Q (EdgeController.timestamp r) <= T)%Q ->
        (T + inject_Z 30 < inject_Z 140)%Q ->
        ~ In r (window st' "north"))
  /\ (forall r T tp,
        (num_to_Q (EdgeController.timestamp r) <= T)%Q ->
        getitem data "ts" = Ok (Num tp) ->
        (num_to_Q tp <= inject_Z 140)%Q ->
        (T + inject_Z 30 < num_to_Q tp)%Q ->
        ~ In r (window st' "north"))
  /\ (forall avg a,
        EdgeController.avg_densities st' = Ok avg ->
        dict_get avg "north" = Some a ->
        EdgeController.average (window st' "north") = Ok a).
Proof.
  apply (window_pruning (inject_Z 140)
           (sensor_message "north" (Int 60) 6 1 (Int 140)) example_state
           "north"); reflexivity.
Defined.

(** * The handler on arbitrary payloads *)

Section EdgeHandlerCases.
Import EdgeController.

Ltac fields :=
  cbn [set_metrics set_last_seq set_sensor_data sensor_data metrics
       config last_seq fst snd].

(** Every run of the handler ends in one of three shapes: nothing was
    touched; the sequence number and the counters were updated and the
    window was not; or the window was updated as well. *)
Lemma on_message_cases t data st :
  let st' := on_message t data st in
  st' = st
  \/ exists l last cur tp m1,
       getitem data "lane" = Ok (Str l)
       /\ getitem data "ts" = Ok (Num tp)
       /\ getitem data "seq" = Ok cur
       /\ dict_get (last_seq st) l = Some last
       /\ (m1 = metrics st \/ exists lost, m1 = add_lost lost (metrics st))
       /\ config st' = config st
       /\ last_seq st' = dict_set (last_seq st) l cur
       /\ metrics st'
          = append_latency ((t - num_to_Q tp) * inject_Z 1000)%Q
              (incr_total m1)
       /\ (sensor_data st' = sensor_data st
           \/ exists rs dens,
                dict_get (sensor_data st) l = Some rs
                /\ getitem data "density_pct" = Ok dens
                /\ sensor_data st'
                   = dict_set
                       (dict_set (sensor_data st) l
                          (rs ++ [{| density := dens;
                                     queue := dict_get_default data
                                                "queue_len" (Num (Int 0));
                                     timestamp := tp |}])) l
                       (filter
                          (fun d => Qltb (t - moving_average_window (config st))
                                      (num_to_Q (timestamp d)))
                          (rs ++ [{| density := dens;
                                     queue := dict_get_default data
                                                "queue_len" (Num (Int 0));
                                     timestamp := tp |}]))).
Proof.
  unfold on_message, on_message_body.
  destruct (getitem data "lane") as [lv|e] eqn:Hlane;
    [rewrite (bind_lift_ok _ _ _ _ eq_refl)
    |rewrite (bind_lift_raise _ _ _ _ eq_refl); now left].
  destruct (getitem data "ts") as [tv|e] eqn:Hts;
    [rewrite (bind_lift_ok _ _ _ _ eq_refl)
    |rewrite (bind_lift_raise _ _ _ _ eq_refl); now left].
  destruct (as_num tv) as [tp|e] eqn:Hnum;
    [rewrite (bind_lift_ok _ _ _ _ eq_refl)
    |rewrite (bind_lift_raise _ _ _ _ eq_refl); now left].
  destruct (getitem data "seq") as [cur|e] eqn:Hseq;
    [rewrite (bind_lift_ok _ _ _ _ eq_refl)
    |rewrite (bind_lift_raise _ _ _ _ eq_refl); now left].
  destruct (lookup_lane (last_seq st) lv) as [[l last]|e] eqn:Hlook;
    [rewrite (bind_reads_ok _ _ _ _ Hlook)
    |rewrite (bind_reads_raise _ _ _ _ Hlook); now left].
  cbn [fst snd].
  destruct (py_add last (Num (Int 1))) as [expected|e] eqn:Hexp;
    [rewrite (bind_lift_ok _ _ _ _ eq_refl)
    |rewrite (bind_lift_raise _ _ _ _ eq_refl); now left].
  destruct (py_ge0 last) as [seen|e] eqn:Hseen;
    [rewrite (bind_lift_ok _ _ _ _ eq_refl)
    |rewrite (bind_lift_raise _ _ _ _ eq_refl); now left].
  apply lookup_lane_ok in Hlook as [-> Hlast].
  destruct tv as [tp'|?|]; simpl in Hnum; try discriminate.
  inversion Hnum; subst tp'.
  match goal with
  | |- context [bind ?m _ st] =>
      assert (Hif : (exists e, m st = (Raise e, st))
                    \/ (exists m1, m st = (Ok tt, set_metrics m1 st)
                          /\ (m1 = metrics st
                              \/ exists lost, m1 = add_lost lost (metrics st))))
  end.
  { destruct (seen && value_ne cur (Num expected)).
    - destruct (py_sub cur (Num expected)) as [lost|e] eqn:Hsub.
      + right. exists (add_lost lost (metrics st)).
        rewrite (bind_lift_ok _ _ _ _ eq_refl). split; [reflexivity|eauto].
      + left. exists e. now rewrite (bind_lift_raise _ _ _ _ eq_refl).
    - right. exists (metrics st). split; [|now left].
      destruct st; reflexivity. }
  destruct Hif as [[e Hif]|(m1 & Hif & Hm1)].
  { rewrite (bind_run_raise _ _ _ _ _ Hif). now left. }
  rewrite (bind_run _ _ _ _ _ Hif). rewrite !bind_modify. fields.
  right. exists l, last, cur, tp, m1.
  do 5 (split; [first [assumption|reflexivity]|]).
  destruct (dict_get (sensor_data st) l) as [rs|] eqn:Hsd.
  2:{ rewrite (bind_reads_raise _ KeyError)
        by (fields; unfold getitem; now rewrite Hsd).
      fields. repeat split. now left. }
  rewrite (bind_reads_ok _ rs) by (fields; unfold getitem; now rewrite Hsd).
  destruct (getitem data "density_pct") as [dens|e] eqn:Hdens;
    [rewrite (bind_lift_ok _ _ _ _ eq_refl)
    |rewrite (bind_lift_raise _ _ _ _ eq_refl); fields; repeat split;
     now left].
  rewrite bind_modify; fields.
  erewrite bind_reads_ok by reflexivity; fields.
  erewrite bind_reads_ok
    by (fields; unfold getitem; now rewrite dict_get_set_same).
  rewrite bind_modify; fields.
  unfold bind, lift.
  destruct (format_density dens); [destruct (format_queue _)|]; fields;
    repeat split; right; exists rs, dens; repeat split.
Qed.
End EdgeHandlerCases.

Section EdgeInvariants.
Import EdgeController.

Lemma on_message_frame t data st :
  let st' := on_message t data st in
  config st' = config st
  /\ cycle_count (metrics st') = cycle_count (metrics st)
  /\ dict_keys (last_seq st') = dict_keys (last_seq st)
  /\ dict_keys (sensor_data st') = dict_keys (sensor_data st).
Proof.
  destruct (on_message_cases t data st)
    as [->|(l & last & cur & tp & m1 & _ & _ & _ & Hlast & Hm1 & Hc & Hls
            & Hm & Hsd)]; [auto|].
  cbv zeta. repeat split.
  - exact Hc.
  - rewrite Hm. destruct Hm1 as [->|[lost ->]]; reflexivity.
  - rewrite Hls. apply dict_keys_set_in. eauto using dict_get_some_in.
  - destruct Hsd as [->|(rs & dens & Hrs & _ & ->)]; [reflexivity|].
    rewrite dict_keys_set_in.
    + apply dict_keys_set_in. eauto using dict_get_some_in.
    + rewrite dict_keys_set_in; eauto using dict_get_some_in.
Qed.

Lemma on_message_counts t data st :
  let st' := on_message t data st in
  (total_messages (metrics st') = total_messages (metrics st)
   /\ latencies (metrics st') = latencies (metrics st))
  \/ (total_messages (metrics st') = total_messages (metrics st) + 1
      /\ exists lat, latencies (metrics st') = latencies (metrics st) ++ [lat]).
Proof.
  destruct (on_message_cases t data st)
    as [->|(l & last & cur & tp & m1 & _ & _ & _ & _ & Hm1 & _ & _
            & Hm & _)]; [now left|].
  right. cbv zeta. rewrite Hm.
  destruct Hm1 as [->|[lost ->]]; simpl; eauto.
Qed.

Lemma on_message_other_lane t data st k :
  getitem data "lane" <> Ok (Str k) ->
  let st' := on_message t data st in
  dict_get (sensor_data st') k = dict_get (sensor_data st) k
  /\ dict_get (last_seq st') k = dict_get (last_seq st) k.
Proof.
  intros Hk.
  destruct (on_message_cases t data st)
    as [->|(l & last & cur & tp & m1 & Hl & _ & _ & _ & _ & _ & Hls
            & _ & Hsd)]; [auto|].
  assert (Hne : l <> k) by (intros ->; contradiction).
  cbv zeta. split.
  - destruct Hsd as [->|(rs & dens & _ & _ & ->)]; [reflexivity|].
    now rewrite !dict_get_set_other.
  - rewrite Hls. now apply dict_get_set_other.
Qed.

Lemma on_message_windows (P : value -> Prop) t data st :
  density_satisfies P data ->
  windows_satisfy P st -> windows_satisfy P (on_message t data st).
Proof.
  intros Hnum [Hkeys Hwin].
  destruct (on_message_frame t data st) as (Hc & _ & _ & Hk).
  split; [now rewrite Hk, Hc|].
  destruct (on_message_cases t data st)
    as [->|(l & last & cur & tp & m1 & _ & _ & _ & _ & _ & _ & _
            & _ & Hsd)]; [exact Hwin|].
  destruct Hsd as [->|(rs & dens & Hrs & Hdens & ->)]; [exact Hwin|].
  intros k rs' Hget.
  destruct (string_dec l k) as [->|Hne].
  - rewrite dict_get_set_same in Hget. inversion Hget; subst rs'.
    apply Forall_forall. intros r Hr. apply filter_In in Hr as [Hr _].
    apply in_app_iff in Hr as [Hr|[<-|[]]].
    + specialize (Hwin k rs Hrs). rewrite Forall_forall in Hwin. auto.
    + simpl. apply Hnum. now apply getitem_ok.
  - rewrite !dict_get_set_other in Hget by assumption. eauto.
Qed.


Lemma init_windows (P : value -> Prop) cfg : windows_satisfy P (init cfg).
Proof.
  split.
  - simpl. apply dict_comp_keys.
  - intros l rs Hget. simpl in Hget.
    assert (Hin : In l (lanes cfg)).
    { apply lane_keys_in.
      rewrite <- (dict_comp_keys (lanes cfg) (fun _ => @nil Reading)).
      eapply dict_get_some_in; eauto. }
    rewrite dict_comp_get in Hget by assumption. inversion Hget. constructor.
Qed.


Lemma windows_satisfy_impl (P Q : value -> Prop) st :
  (forall v, P v -> Q v) -> windows_satisfy P st -> windows_satisfy Q st.
Proof.
  intros Himp [Hk Hw]. split; [exact Hk|].
  intros l rs Hget. eapply Forall_impl; [|eapply Hw; eauto]. auto.
Qed.





Lemma ingest_all_app msgs1 msgs2 st :
  ingest_all (msgs1 ++ msgs2) st = ingest_all msgs2 (ingest_all msgs1 st).
Proof. unfold ingest_all. apply fold_left_app. Qed.

Lemma ingest_all_invariant (I : Controller -> Prop) (P : dict value -> Prop) :
  (forall t data st, P data -> I st -> I (on_message t data st)) ->
  forall msgs st,
    Forall (fun m => P (snd m)) msgs -> I st -> I (ingest_all msgs st).
Proof.
  intros Hstep. induction msgs as [|m msgs IH]; intros st Hm Hi; [exact Hi|].
  inversion Hm; subst. simpl. apply IH; auto.
Qed.
End EdgeInvariants.

(** * Runs of the controller *)

Section EdgeRuns.
Import EdgeController.

Ltac conjs := repeat match goal with |- _ /\ _ => split end.

Lemma list_for_In {A B : Type} (f : A -> result B) xs ys :
  list_for xs f = Ok ys ->
  Forall2 (fun x y => f x = Ok y) xs ys.
Proof.
  revert ys. induction xs as [|x xs IH]; simpl; intros ys H.
  - inversion H. constructor.
  - destruct (f x) as [y|e] eqn:Ef; simpl in H; [|discriminate].
    destruct (list_for xs f) as [ys'|e]; simpl in H; [|discriminate].
    inversion H; subst. constructor; auto.
Qed.

Lemma list_for_raise {A B : Type} (f : A -> result B) xs x e :
  In x xs -> f x = Raise e -> exists e', list_for xs f = Raise e'.
Proof.
  induction xs as [|y xs IH]; simpl; intros Hin Hf; [contradiction|].
  destruct (f y) as [b|e0] eqn:Ey; simpl; [|eauto].
  destruct Hin as [->|Hin]; [congruence|].
  destruct (IH Hin Hf) as [e' ->]. simpl. eauto.
Qed.

(** What a successful tick leaves and publishes. *)
Lemma tick_state now st st' message :
  control_loop_iteration now st = Ok (st', message) ->
  st' = set_metrics (incr_cycle (metrics st)) st
  /\ msg_cycle_count message = cycle_count (metrics st)
  /\ exists g avg,
       compute_green_times st = Ok (g, avg)
       /\ publish_schedule now st g = Ok message.
Proof.
  unfold control_loop_iteration. intros H.
  destruct (compute_green_times st) as [[g avg]|e] eqn:Hc; simpl in H;
    [|discriminate].
  destruct (publish_schedule now st g) as [m|e] eqn:Hp; simpl in H;
    [|discriminate].
  inversion H; subst. repeat split; eauto.
  unfold publish_schedule in Hp.
  destruct (list_for _ _); simpl in Hp; [|discriminate].
  inversion Hp. reflexivity.
Qed.


Lemma consecutive_cons start n :
  consecutive start (S n) = start :: consecutive (start + 1) n.
Proof.
  unfold consecutive. simpl seq. simpl map. rewrite Z.add_0_r. f_equal.
  rewrite <- seq_shift, map_map. apply map_ext. intros i. lia.
Qed.


Lemma run_events_invariant (I : Controller -> Prop) :
  (forall t data st, I st -> I (on_message t data st)) ->
  (forall st, I st -> I (set_metrics (incr_cycle (metrics st)) st)) ->
  forall events st st' messages,
    run_events events st = Ok (st', messages) -> I st -> I st'.
Proof.
  intros Hmsg Htick.
  induction events as [|[t data|now] events IH]; simpl;
    intros st st' ms H Hi.
  - now inversion H; subst.
  - eapply IH; eauto.
  - destruct (control_loop_iteration now st) as [[st1 m]|e] eqn:Ht;
      simpl in H; [|discriminate].
    destruct (run_events events st1) as [[st2 ms2]|e] eqn:Hr; simpl in H;
      [|discriminate].
    inversion H; subst. eapply IH; eauto.
    apply tick_state in Ht as [-> _]. auto.
Qed.
End EdgeRuns.

(** X1: in every state a run reaches from a fresh controller, whatever the
    payloads delivered, [total_messages] equals the number of latency
    samples: the handler counts a message and samples its latency
    together or not at all. *)
Theorem samples_match_total :
  forall cfg events st messages,
    EdgeController.run_events events (EdgeController.init cfg)
    = Ok (st, messages) ->
    EdgeController.total_messages (EdgeController.metrics st)
    = Z.of_nat (List.length
                  (EdgeController.latencies (EdgeController.metrics st))).
Proof.
  intros cfg events st messages Hrun.
  apply (run_events_invariant
           (fun s => EdgeController.total_messages (EdgeController.metrics s)
                     = Z.of_nat (List.length
                         (EdgeController.latencies (EdgeController.metrics s))))
           ) with (3 := Hrun).
  - intros t data s Hs.
    destruct (on_message_counts t data s) as [[-> ->]|[-> [lat ->]]];
      [exact Hs|].
    rewrite length_app, Hs. simpl. lia.
  - intros s Hs. exact Hs.
  - reflexivity.
Qed.

(** One delivery in five is dropped in [example_events]; the counters agree
    at the end. *)
Lemma samples_match_total_witness :
  exists st messages,
    EdgeController.run_events example_events
      (EdgeController.init example_config) = Ok (st, messages)
    /\ EdgeController.total_messages (EdgeController.metrics st)
       = Z.of_nat (List.length
                     (EdgeController.latencies (EdgeController.metrics st))).
Proof.
  do 2 eexists. split; [vm_compute; reflexivity|].
  eapply (samples_match_total example_config example_events).
  vm_compute. reflexivity.
Defined.

(** X2: whatever the payload, the handler leaves the configuration, the
    cycle counter and the set of tracked lanes as they were: it never adds
    or removes a key of [last_seq] or [sensor_data]. *)
Theorem handler_keeps_lanes :
  forall t data st,
    let st' := EdgeController.on_message t data st in
    EdgeController.config st' = EdgeController.config st
    /\ EdgeController.cycle_count (EdgeController.metrics st')
       = EdgeController.cycle_count (EdgeController.metrics st)
    /\ dict_keys (EdgeController.last_seq st')
       = dict_keys (EdgeController.last_seq st)
    /\ dict_keys (EdgeController.sensor_data st')
       = dict_keys (EdgeController.sensor_data st).
Proof. intros t data st. apply on_message_frame. Qed.

(** X3: a payload whose lane field is not lane [k] leaves the window and
    the last sequence number of lane [k] untouched. *)
Theorem handler_other_lane :
  forall t data st k,
    getitem data "lane" <> Ok (Str k) ->
    let st' := EdgeController.on_message t data st in
    window st' k = window st k
    /\ dict_get (EdgeController.last_seq st') k
       = dict_get (EdgeController.last_seq st) k.
Proof.
  intros t data st k Hk st'.
  destruct (on_message_other_lane t data st k Hk) as [Hsd Hls].
  split; [|exact Hls].
  unfold window, dict_get_default. subst st'. now rewrite Hsd.
Qed.

Lemma handler_other_lane_witness :
  let st' :=
    EdgeController.on_message (inject_Z 200)
      (sensor_message "north" (Int 55) 5 1 (Int 199)) example_state in
  window st' "south" = window example_state "south"
  /\ dict_get (EdgeController.last_seq st') "south"
     = dict_get (EdgeController.last_seq example_state) "south".
Proof.
  apply (handler_other_lane (inject_Z 200)
           (sensor_message "north" (Int 55) 5 1 (Int 199)) example_state
           "south").
  vm_compute. discriminate.
Defined.





(** * The published schedule *)

Lemma list_for_getitem_raise {V B : Type} (d : dict V) (mk : string -> V -> B)
    xs x :
  In x xs -> dict_get d x = None ->
  list_for xs (fun k => let* v := getitem d k in Ok (mk k v)) = Raise KeyError.
Proof.
  induction xs as [|y xs IH]; simpl; intros Hin Hx; [contradiction|].
  unfold getitem at 1. destruct (dict_get d y) as [v|] eqn:Ey; simpl;
    [|reflexivity].
  destruct Hin as [->|Hin]; [congruence|].
  now rewrite (IH Hin Hx).
Qed.

(** X6: [publish_schedule] raises [KeyError] when the schedule lacks a
    configured lane; otherwise the message lists the entries of the lane
    list in order, each with its green time from the schedule and the
    configured yellow time, and carries the current cycle counter. *)
Theorem publish_schedule_content :
  forall now st g,
    (forall lane,
       In lane (EdgeController.lanes (EdgeController.config st)) ->
       dict_get g lane = None ->
       EdgeController.publish_schedule now st g = Raise KeyError)
    /\ ((forall lane,
           In lane (EdgeController.lanes (EdgeController.config st)) ->
           dict_get g lane <> None) ->
        exists message,
          EdgeController.publish_schedule now st g = Ok message
          /\ map EdgeController.phase_lane
               (EdgeController.msg_phase_schedule message)
             = EdgeController.lanes (EdgeController.config st)
          /\ Forall
               (fun p =>
                  dict_get g (EdgeController.phase_lane p)
                  = Some (EdgeController.phase_green p)
                  /\ EdgeController.phase_yellow p
                     = EdgeController.yellow_time
                         (EdgeController.timing (EdgeController.config st)))
               (EdgeController.msg_phase_schedule message)
          /\ EdgeController.msg_cycle_count message
             = EdgeController.cycle_count (EdgeController.metrics st)).
Proof.
  intros now st g. split.
  - intros lane Hin Hnone. unfold EdgeController.publish_schedule.
    rewrite (list_for_getitem_raise g _ _ lane Hin Hnone). reflexivity.
  - intros Hall. unfold EdgeController.publish_schedule.
    match goal with
    | |- context [list_for ?xs ?f] =>
        destruct (list_for xs f) as [phases|e] eqn:Hp
    end.
    + simpl. eexists. split; [reflexivity|]. simpl.
      pose proof (list_for_In _ _ _ Hp) as Hall2.
      repeat split.
      * clear Hp Hall. induction Hall2 as [|x p xs ps Hx _ IH]; simpl;
          [reflexivity|].
        f_equal; [|exact IH].
        destruct (getitem g x); simpl in Hx; [|discriminate].
        now inversion Hx.
      * clear Hp Hall. induction Hall2 as [|x p xs ps Hx _ IH];
          constructor; [|exact IH].
        unfold getitem in Hx. destruct (dict_get g x) eqn:Eg; simpl in Hx;
          [|discriminate].
        inversion Hx; subst. simpl. auto.
    + exfalso.
      assert (Hok : exists ps,
                list_for (EdgeController.lanes (EdgeController.config st))
                  (fun lane =>
                     let* x := getitem g lane in
                     Ok {| EdgeController.phase_lane := lane;
                           EdgeController.phase_green := x;
                           EdgeController.phase_yellow :=
                             EdgeController.yellow_time
                               (EdgeController.timing
                                  (EdgeController.config st)) |})
                = Ok ps).
      { apply list_for_ok. intros lane Hin. specialize (Hall lane Hin).
        unfold getitem. destruct (dict_get g lane); [simpl; eauto|congruence]. }
      destruct Hok as [ps Hps]. rewrite Hps in Hp. discriminate.
Qed.

Lemma publish_schedule_content_witness :
  (EdgeController.publish_schedule (inject_Z 160) example_state
     [("north", 31); ("south", 9); ("east", 9)] = Raise KeyError)
  /\ exists message,
       EdgeController.publish_schedule (inject_Z 160) example_state
         [("north", 31); ("south", 9); ("east", 9); ("west", 9)] = Ok message
       /\ map EdgeController.phase_lane
            (EdgeController.msg_phase_schedule message)
          = EdgeController.lanes (EdgeController.config example_state)
       /\ Forall
            (fun p =>
               dict_get [("north", 31); ("south", 9); ("east", 9); ("west", 9)]
                 (EdgeController.phase_lane p)
               = Some (EdgeController.phase_green p)
               /\ EdgeController.phase_yellow p
                  = EdgeController.yellow_time
                      (EdgeController.timing
                         (EdgeController.config example_state)))
            (EdgeController.msg_phase_schedule message)
       /\ EdgeController.msg_cycle_count message
          = EdgeController.cycle_count (EdgeController.metrics example_state).
Proof.
  split.
  - apply (proj1 (publish_schedule_content (inject_Z 160) example_state
                    [("north", 31); ("south", 9); ("east", 9)]) "west").
    + vm_compute. auto.
    + reflexivity.
  - apply (proj2 (publish_schedule_content (inject_Z 160) example_state
                    [("north", 31); ("south", 9); ("east", 9); ("west", 9)])).
    intros lane Hin. vm_compute in Hin.
    destruct Hin as [<-|[<-|[<-|[<-|[]]]]]; discriminate.
Defined.

(** * Loss accounting *)





(** * Bounds on the green times *)

Lemma Qtrunc_lower (m : Z) (q : Q) : (inject_Z m <= q)%Q -> m <= Qtrunc q.
Proof.
  destruct q as [n d]. unfold Qle, Qtrunc. simpl. intros H.
  destruct (Z.le_gt_cases 0 n) as [Hn|Hn].
  - rewrite Z.quot_div_nonneg by lia.
    apply Z.div_le_lower_bound; lia.
  - replace n with (- (- n)) by lia.
    rewrite Z.quot_opp_l by lia. rewrite Z.quot_div_nonneg by lia.
    assert ((- n) / Z.pos d <= - m); [|lia].
    apply Z.div_le_upper_bound; lia.
Qed.

Lemma Qtrunc_upper (M : Z) (q : Q) : (q <= inject_Z M)%Q -> Qtrunc q <= M.
Proof.
  destruct q as [n d]. unfold Qle, Qtrunc. simpl. intros H.
  destruct (Z.le_gt_cases 0 n) as [Hn|Hn].
  - rewrite Z.quot_div_nonneg by lia.
    apply Z.div_le_upper_bound; lia.
  - replace n with (- (- n)) by lia.
    rewrite Z.quot_opp_l by lia. rewrite Z.quot_div_nonneg by lia.
    assert (- M <= (- n) / Z.pos d); [|lia].
    apply Z.div_le_lower_bound; lia.
Qed.

(** The clamped and truncated share of a lane lies between [min_green] and
    the larger of [min_green] and [max_green]. *)
Lemma raw_green_bounds cfg total a :
  let lo := EdgeController.min_green (EdgeController.timing cfg) in
  let hi := EdgeController.max_green (EdgeController.timing cfg) in
  lo <= py_int (EdgeController.raw_green cfg total a) <= Z.max lo hi.
Proof.
  intros lo hi. unfold EdgeController.raw_green. fold lo hi.
  set (raw := (a / total * inject_Z (EdgeController.available cfg))%Q).
  unfold py_min, py_max, num_ltb. cbn [num_to_Q].
  destruct (Qltb raw (inject_Z hi)) eqn:Ehi; cbn [num_to_Q].
  - apply Qltb_lt in Ehi.
    destruct (Qltb (inject_Z lo) raw) eqn:Elo; cbn [py_int]; [|lia].
    apply Qltb_lt in Elo. split.
    + apply Qtrunc_lower. now apply Qlt_le_weak.
    + assert (Qtrunc raw <= hi) by (apply Qtrunc_upper; now apply Qlt_le_weak).
      lia.
  - destruct (Qltb (inject_Z lo) (inject_Z hi)) eqn:Elh; cbn [py_int];
      [|lia].
    apply Qltb_lt in Elh. rewrite <- Zlt_Qlt in Elh. lia.
Qed.

Lemma green_of_bound (pre g : dict Z) lane lo hi :
  lo <= green_of pre lane <= hi ->
  Z.abs (green_of g lane - green_of pre lane) <= 1 ->
  lo - 1 <= green_of g lane <= hi + 1.
Proof. lia. Qed.

Lemma edge_green_bounds st avg :
  EdgeController.avg_densities st = Ok avg ->
  Qle_bool (Qsum (dict_values avg)) (inject_Z 0) = false ->
  let lo := EdgeController.min_green
              (EdgeController.timing (EdgeController.config st)) in
  let hi := EdgeController.max_green
              (EdgeController.timing (EdgeController.config st)) in
  exists g,
    EdgeController.compute_green_times st = Ok (g, avg)
    /\ forall lane,
         In lane (EdgeController.lanes (EdgeController.config st)) ->
         lo - 1 <= green_of g lane <= Z.max lo hi + 1.
Proof.
  intros Havg Hpos lo hi.
  destruct (compute_green_times_pos st avg Havg Hpos)
    as (pre & g & Hpre & Hg & _ & _ & Hnear).
  exists g. split; [exact Hg|]. intros lane Hin.
  apply (green_of_bound pre); [|apply Hnear].
  pose proof (avg_densities_keys _ _ Havg) as Hk.
  unfold EdgeController.rounded_greens in Hpre.
  rewrite (raw_greens_map _ _ Hk) in Hpre. simpl in Hpre.
  inversion Hpre; subst pre. clear Hpre.
  unfold green_of, dict_get_default.
  rewrite (dict_get_map py_int).
  rewrite (dict_get_map
             (EdgeController.raw_green (EdgeController.config st)
                (Qsum (dict_values avg)))).
  assert (Hin' : In lane (dict_keys avg))
    by (rewrite Hk; now apply lane_keys_in).
  apply dict_in_get_some in Hin' as [a ->]. simpl.
  apply raw_green_bounds.
Qed.

Lemma api_green_bounds self sd avg :
  NoDup (TrafficApi.lanes self) ->
  TrafficApi.avg_density self sd = Ok avg ->
  num_leb (TrafficApi.total_density avg) (Int 0) = false ->
  exists g,
    TrafficApi.compute_green_times self sd = Ok g
    /\ forall lane,
         In lane (TrafficApi.lanes self) ->
         TrafficApi.min_green self - 1 <= green_of g lane
         <= Z.max (TrafficApi.min_green self) (TrafficApi.max_green self) + 1.
Proof.
  intros Hnd Havg Hpos.
  destruct (api_compute_green_times_pos self sd avg Havg Hpos)
    as (pre & g & Hpre & Hg & _ & _ & Hnear).
  exists g. split; [exact Hg|]. intros lane Hin.
  apply (green_of_bound pre); [|now apply Hnear].
  unfold TrafficApi.clamped_greens in Hpre.
  destruct (TrafficApi.raw_green self avg) as [raw|e]; simpl in Hpre;
    [|discriminate].
  destruct (dict_for_get_in _ _ lane Hin _ _ Hpre) as (v & Hv & Hget).
  unfold green_of, dict_get_default. rewrite Hget.
  destruct (getitem raw lane); simpl in Hv; [|discriminate].
  inversion Hv. lia.
Qed.

(** X8: on the proportional path every configured lane's green time is at
    least [min_green - 1] and at most [max(min_green, max_green) + 1], in
    both controllers: clamping keeps the truncated share within the range
    and the redistribution moves it by at most one second. *)
Theorem green_times_near_range :
  (forall st avg,
     EdgeController.avg_densities st = Ok avg ->
     Qle_bool (Qsum (dict_values avg)) (inject_Z 0) = false ->
     exists g,
       EdgeController.compute_green_times st = Ok (g, avg)
       /\ forall lane,
            In lane (EdgeController.lanes (EdgeController.config st)) ->
            EdgeController.min_green
              (EdgeController.timing (EdgeController.config st)) - 1
            <= green_of g lane
            <= Z.max
                 (EdgeController.min_green
                    (EdgeController.timing (EdgeController.config st)))
                 (EdgeController.max_green
                    (EdgeController.timing (EdgeController.config st))) + 1)
  /\ (forall self sd avg,
        NoDup (TrafficApi.lanes self) ->
        TrafficApi.avg_density self sd = Ok avg ->
        num_leb (TrafficApi.total_density avg) (Int 0) = false ->
        exists g,
          TrafficApi.compute_green_times self sd = Ok g
          /\ forall lane,
               In lane (TrafficApi.lanes self) ->
               TrafficApi.min_green self - 1 <= green_of g lane
               <= Z.max (TrafficApi.min_green self)
                    (TrafficApi.max_green self) + 1).
Proof.
  split.
  - intros st avg Havg Hpos. exact (edge_green_bounds st avg Havg Hpos).
  - intros self sd avg. apply api_green_bounds.
Qed.

Lemma green_times_near_range_witness :
  (exists g,
     EdgeController.compute_green_times example_state
     = Ok (g, [("north", inject_Z 80); ("south", inject_Z 20);
               ("east", inject_Z 0); ("west", inject_Z 0)])
     /\ forall lane,
          In lane (EdgeController.lanes (EdgeController.config example_state)) ->
          EdgeController.min_green
            (EdgeController.timing (EdgeController.config example_state)) - 1
          <= green_of g lane
          <= Z.max
               (EdgeController.min_green
                  (EdgeController.timing (EdgeController.config example_state)))
               (EdgeController.max_green
                  (EdgeController.timing (EdgeController.config example_state)))
             + 1)
  /\ (exists g,
        TrafficApi.compute_green_times TrafficApi.init api_example_data = Ok g
        /\ forall lane,
             In lane (TrafficApi.lanes TrafficApi.init) ->
             TrafficApi.min_green TrafficApi.init - 1 <= green_of g lane
             <= Z.max (TrafficApi.min_green TrafficApi.init)
                  (TrafficApi.max_green TrafficApi.init) + 1).
Proof.
  split.
  - apply (proj1 green_times_near_range example_state); vm_compute;
      reflexivity.
  - apply (proj2 green_times_near_range TrafficApi.init api_example_data
             [("north", Float (inject_Z 80)); ("south", Float (inject_Z 20));
              ("east", Float (inject_Z 0)); ("west", Float (inject_Z 0))]).
    + repeat constructor; simpl; intuition discriminate.
    + vm_compute. reflexivity.
    + vm_compute. reflexivity.
Defined.

(** * Who receives the leftover seconds *)

Section Leftover.
Context {A : Type} (key : A -> Q).

Lemma insert_desc_sorted x l :
  StronglySorted (descending key) l -> StronglySorted (descending key) (insert_desc key x l).
Proof.
  induction l as [|y l IH]; simpl; intros Hs.
  - repeat constructor.
  - inversion Hs as [|? ? Hl Hy]; subst.
    destruct (Qltb (key x) (key y)) eqn:E.
    + apply Qltb_lt in E. constructor; [now apply IH|].
      apply (Permutation_Forall (x := x :: l)).
      * symmetry. apply insert_desc_perm.
      * constructor; [|exact Hy]. unfold descending. now apply Qlt_le_weak.
    + assert (Hxy : (key y <= key x)%Q).
      { apply Qnot_lt_le. intros Hlt. apply Qltb_lt in Hlt. congruence. }
      constructor; [exact Hs|]. constructor; [exact Hxy|].
      eapply Forall_impl; [|exact Hy].
      intros z Hz. unfold descending in *. now apply Qle_trans with (key y).
Qed.

Lemma sorted_desc_sorted l : StronglySorted (descending key) (sorted_desc key l).
Proof.
  induction l as [|x l IH]; simpl; [constructor|].
  now apply insert_desc_sorted.
Qed.

Lemma sorted_app_cross (l1 l2 : list A) u v :
  StronglySorted (descending key) (l1 ++ l2) -> In u l1 -> In v l2 -> descending key u v.
Proof.
  induction l1 as [|w l1 IH]; simpl; intros Hs Hu Hv; [contradiction|].
  inversion Hs as [|? ? Hl Hw]; subst.
  destruct Hu as [->|Hu]; [|now apply IH].
  rewrite Forall_forall in Hw. apply Hw. apply in_app_iff. now right.
Qed.
End Leftover.

Lemma firstn_In {A : Type} (x : A) n l : In x (firstn n l) -> In x l.
Proof.
  intros H. rewrite <- (firstn_skipn n l). apply in_app_iff. now left.
Qed.

Lemma skipn_In {A : Type} (x : A) n l : In x (skipn n l) -> In x l.
Proof.
  intros H. rewrite <- (firstn_skipn n l). apply in_app_iff. now right.
Qed.

Lemma dict_in_get {V : Type} (d : dict V) k v :
  NoDup (dict_keys d) -> In (k, v) d -> dict_get d k = Some v.
Proof.
  induction d as [|[k' v'] d IH]; simpl; intros Hnd Hin; [contradiction|].
  inversion Hnd as [|? ? Hnotin Hnd']; subst.
  destruct Hin as [Heq|Hin].
  - inversion Heq; subst. now rewrite String.eqb_refl.
  - destruct (String.eqb_spec k' k) as [->|Hne]; [|now apply IH].
    exfalso. apply Hnotin. change k with (fst (k, v)). now apply in_map.
Qed.

(** The loop adjusts exactly the first [min(|diff|, n)] lanes of its
    visiting order, each by one second in the direction of [diff]. *)
Lemma redistribute_prefix ks : NoDup ks ->
  forall g diff g',
    redistribute ks g diff = Ok g' ->
    let k := Nat.min (Z.abs_nat diff) (List.length ks) in
    let step := if 0 <? diff then 1 else -1 in
    forall lane,
      (In lane (firstn k ks) -> green_of g' lane = green_of g lane + step)
      /\ (~ In lane (firstn k ks) -> green_of g' lane = green_of g lane).
Proof.
  induction ks as [|k0 ks IH]; intros Hnd g diff g' H k step lane.
  - simpl in H. inversion H; subst. subst k. rewrite Nat.min_0_r. simpl.
    tauto.
  - cbn [redistribute] in H.
    destruct (Z.eqb_spec diff 0) as [->|Hne].
    { inversion H; subst. subst k. simpl. tauto. }
    unfold getitem in H. destruct (dict_get g k0) as [v|] eqn:Hv;
      simpl in H; [|discriminate].
    inversion Hnd as [|? ? Hnotin Hnd']; subst.
    set (adj := if 0 <? diff then 1 else -1) in *.
    assert (Hk : k = S (Nat.min (Z.abs_nat (diff - adj)) (List.length ks))).
    { subst k adj. cbn [List.length].
      destruct (Z.ltb_spec 0 diff); lia. }
    rewrite Hk. cbn [firstn].
    specialize (IH Hnd' _ _ _ H lane). cbv zeta in IH.
    set (k' := Nat.min (Z.abs_nat (diff - adj)) (List.length ks)) in *.
    destruct IH as [IHin IHout].
    assert (Hg1 : lane <> k0 ->
                  green_of (dict_set g k0 (v + adj)) lane = green_of g lane).
    { intros Hl. unfold green_of, dict_get_default.
      rewrite dict_get_set_other; auto. }
    split.
    + intros [<-|Hin].
      * assert (Hno : ~ In k0 (firstn k' ks))
          by (intros Hf; apply Hnotin; eapply firstn_In; eauto).
        rewrite (IHout Hno). unfold green_of, dict_get_default.
        rewrite dict_get_set_same, Hv. subst step adj. reflexivity.
      * assert (Hl : lane <> k0).
        { intros ->. apply Hnotin. eapply firstn_In; eauto. }
        rewrite (IHin Hin), (Hg1 Hl). f_equal.
        assert (Hpos : (0 < k')%nat)
          by (destruct k'; [simpl in Hin; contradiction|lia]).
        subst step k' adj.
        destruct (Z.ltb_spec 0 diff); destruct (Z.ltb_spec 0 (diff - 1));
          destruct (Z.ltb_spec 0 (diff - -1)); lia.
    + intros Hout.
      assert (Hl : lane <> k0) by (intros ->; apply Hout; now left).
      rewrite IHout by (intros Hf; apply Hout; now right). now apply Hg1.
Qed.

(** X9: on the proportional path of [ProportionalController] the seconds
    the redistribution adds or removes go to the lanes with the highest
    average density: a lane whose green time was adjusted has an average at
    least as large as any lane whose green time was left alone. *)
Theorem leftover_to_busiest :
  forall st avg,
    EdgeController.avg_densities st = Ok avg ->
    Qle_bool (Qsum (dict_values avg)) (inject_Z 0) = false ->
    exists pre g,
      EdgeController.rounded_greens (EdgeController.config st) avg = Ok pre
      /\ EdgeController.compute_green_times st = Ok (g, avg)
      /\ forall a b x y,
           dict_get avg a = Some x ->
           dict_get avg b = Some y ->
           green_of g a <> green_of pre a ->
           green_of g b = green_of pre b ->
           (y <= x)%Q.
Proof.
  intros st avg Havg Hpos.
  pose proof (avg_densities_keys _ _ Havg) as Hk.
  destruct (rounded_greens_ok (EdgeController.config st) avg Hk)
    as (pre & Hpre & Hkpre).
  exists pre. unfold EdgeController.compute_green_times.
  rewrite Havg. cbn [rbind]. rewrite Hpos, Hpre. cbn [rbind].
  set (diff := EdgeController.available (EdgeController.config st)
               - Zsum (dict_values pre)).
  destruct (Z.eqb_spec diff 0) as [E|E]; cbn [negb].
  { exists pre. repeat split; auto. intros a b x y _ _ Ha. congruence. }
  set (sorted := EdgeController.sorted_lanes avg).
  destruct (redistribute_ok (map fst sorted) pre diff) as [g Hg].
  { intros k Hin. rewrite Hkpre, <- Hk.
    eapply Permutation_in; [apply sorted_lanes_perm|exact Hin]. }
  exists g. rewrite Hg. cbn [rbind]. repeat split; auto.
  intros a b x y Hax Hby Ha Hb.
  assert (Hnd : NoDup (map fst sorted))
    by (eapply sorted_lanes_NoDup; eauto).
  assert (Hndk : NoDup (dict_keys avg))
    by (rewrite Hk; apply lane_keys_NoDup).
  pose proof (redistribute_prefix _ Hnd _ _ _ Hg) as Hpref. cbv zeta in Hpref.
  set (k := Nat.min (Z.abs_nat diff) (List.length (map fst sorted))) in *.
  assert (Hain : In a (firstn k (map fst sorted))).
  { destruct (in_dec string_dec a (firstn k (map fst sorted))); [assumption|].
    exfalso. apply Ha. now apply (proj2 (Hpref a)). }
  assert (Hbout : ~ In b (firstn k (map fst sorted))).
  { intros Hin. apply (proj1 (Hpref b)) in Hin.
    destruct (0 <? diff); lia. }
  assert (Hbin : In b (skipn k (map fst sorted))).
  { assert (Hb' : In b (map fst sorted)).
    { eapply Permutation_in; [symmetry; apply sorted_lanes_perm|].
      eapply dict_get_some_in; eauto. }
    rewrite <- (firstn_skipn k (map fst sorted)) in Hb'.
    apply in_app_iff in Hb' as [Hb'|Hb']; [contradiction|assumption]. }
  rewrite firstn_map in Hain. rewrite skipn_map in Hbin.
  apply in_map_iff in Hain as ([a' x'] & Hfa & Hpa).
  apply in_map_iff in Hbin as ([b' y'] & Hfb & Hpb).
  simpl in Hfa, Hfb. subst a' b'.
  assert (Hperm : Permutation sorted avg) by apply sorted_desc_perm.
  assert (Hx : x' = x).
  { assert (Hin : In (a, x') avg).
    { eapply Permutation_in; [exact Hperm|]. eapply firstn_In; eauto. }
    apply (dict_in_get _ _ _ Hndk) in Hin. congruence. }
  assert (Hy : y' = y).
  { assert (Hin : In (b, y') avg).
    { eapply Permutation_in; [exact Hperm|]. eapply skipn_In; eauto. }
    apply (dict_in_get _ _ _ Hndk) in Hin. congruence. }
  subst x' y'.
  pose proof (sorted_desc_sorted snd avg) as Hsorted.
  fold (EdgeController.sorted_lanes avg) in Hsorted. fold sorted in Hsorted.
  rewrite <- (firstn_skipn k sorted) in Hsorted.
  exact (sorted_app_cross snd _ _ (a, x) (b, y) Hsorted Hpa Hpb).
Qed.

Lemma leftover_to_busiest_witness :
  exists avg pre g,
    EdgeController.avg_densities rounding_state = Ok avg
    /\ EdgeController.rounded_greens
         (EdgeController.config rounding_state) avg = Ok pre
    /\ EdgeController.compute_green_times rounding_state = Ok (g, avg)
    /\ forall a b x y,
         dict_get avg a = Some x ->
         dict_get avg b = Some y ->
         green_of g a <> green_of pre a ->
         green_of g b = green_of pre b ->
         (y <= x)%Q.
Proof.
  destruct (EdgeController.avg_densities rounding_state) as [avg|e] eqn:Havg;
    [|vm_compute in Havg; discriminate].
  exists avg.
  destruct (leftover_to_busiest rounding_state avg Havg)
    as (pre & g & H1 & H2 & H3).
  - vm_compute in Havg. inversion Havg; subst avg. reflexivity.
  - exists pre, g. auto.
Defined.

(** * The averages the allocation is computed from *)

Section EdgeAverages.
Import EdgeController.

Lemma num_add_Q a b : (num_to_Q (num_add a b) == num_to_Q a + num_to_Q b)%Q.
Proof.
  destruct a, b; cbn [num_add num_to_Q]; try reflexivity.
  rewrite inject_Z_plus. reflexivity.
Qed.

Lemma inject_Z_succ n :
  (inject_Z (Z.of_nat (S n)) == inject_Z (Z.of_nat n) + 1)%Q.
Proof. rewrite Nat2Z.inj_succ, <- Z.add_1_r, inject_Z_plus. reflexivity. Qed.

(** [sum] of numbers between [lo] and [hi] lies between [len * lo] and
    [len * hi] above its start value. *)
Lemma py_sum_from_within lo hi xs : forall acc,
  Forall (number_within lo hi) xs ->
  exists s,
    py_sum_from acc xs = Ok s
    /\ (num_to_Q acc + lo * inject_Z (Z.of_nat (List.length xs))
        <= num_to_Q s)%Q
    /\ (num_to_Q s
        <= num_to_Q acc + hi * inject_Z (Z.of_nat (List.length xs)))%Q.
Proof.
  induction xs as [|x xs IH]; intros acc H.
  - exists acc. simpl. repeat split; unfold inject_Z; lra.
  - inversion H as [|? ? (n & -> & Hlo & Hhi) Hrest]; subst.
    destruct (IH (num_add acc n) Hrest) as (s & Hs & Hl & Hh).
    exists s. cbn [py_sum_from as_num rbind List.length].
    rewrite inject_Z_succ. rewrite num_add_Q in Hl, Hh.
    repeat split; [exact Hs| |]; nra.
Qed.

Lemma average_within lo hi rs :
  (lo <= 0)%Q -> (0 <= hi)%Q ->
  Forall (fun r => number_within lo hi (density r)) rs ->
  exists a, average rs = Ok a /\ (lo <= a)%Q /\ (a <= hi)%Q.
Proof.
  intros Hlo Hhi H. destruct rs as [|r rs].
  - exists (inject_Z 0). simpl. repeat split; unfold inject_Z; lra.
  - destruct (py_sum_from_within lo hi (map density (r :: rs)) (Int 0))
      as (s & Hs & Hl & Hh).
    { apply Forall_forall. intros v Hv.
      apply in_map_iff in Hv as (x & <- & Hx).
      rewrite Forall_forall in H. auto. }
    rewrite length_map in Hl, Hh. cbn [num_to_Q] in Hl, Hh.
    unfold average, py_sum. rewrite Hs. cbn [rbind].
    eexists. split; [reflexivity|].
    set (n := inject_Z (Z.of_nat (List.length (r :: rs)))) in *.
    assert (Hn : (0 < n)%Q).
    { subst n. rewrite <- (Zlt_Qlt 0). cbn [List.length]. lia. }
    split.
    + apply Qle_shift_div_l; [exact Hn|]. unfold inject_Z in Hl. lra.
    + apply Qle_shift_div_r; [exact Hn|]. unfold inject_Z in Hh. lra.
Qed.

Lemma avg_densities_within lo hi st :
  (lo <= 0)%Q -> (0 <= hi)%Q ->
  windows_satisfy (number_within lo hi) st ->
  exists avg,
    avg_densities st = Ok avg
    /\ forall lane a, dict_get avg lane = Some a -> (lo <= a)%Q /\ (a <= hi)%Q.
Proof.
  intros Hlo Hhi [Hkeys Hwin].
  assert (Hf : forall k, In k (lanes (config st)) ->
             exists a,
               (let* readings := getitem (sensor_data st) k in
                average readings) = Ok a
               /\ (lo <= a)%Q /\ (a <= hi)%Q).
  { intros k Hin. apply lane_keys_in in Hin. rewrite <- Hkeys in Hin.
    apply dict_in_get_some in Hin as [rs Hrs].
    unfold getitem. rewrite Hrs. cbn [rbind].
    apply average_within; eauto. }
  destruct (dict_for_ok (lanes (config st))
              (fun lane => let* readings := getitem (sensor_data st) lane in
                           average readings)) with (acc := @nil (string * Q))
    as [avg Havg].
  { intros k Hin. destruct (Hf k Hin) as (a & Ha & _). eauto. }
  exists avg. split; [exact Havg|].
  intros lane a Hget.
  assert (Hin : In lane (lanes (config st))).
  { apply lane_keys_in. rewrite <- (avg_densities_keys st avg Havg).
    eapply dict_get_some_in; eauto. }
  destruct (dict_for_get_in _ _ _ Hin _ _ Havg) as (v & Hv & Hgv).
  destruct (Hf lane Hin) as (a' & Ha' & Hb).
  assert (a = a') by congruence. now subst.
Qed.

(** [sum] raises nothing but [TypeError], and does so on any element that
    is not a number. *)
Lemma py_sum_from_cases xs : forall acc,
  (exists s, py_sum_from acc xs = Ok s)
  \/ py_sum_from acc xs = Raise TypeError.
Proof.
  induction xs as [|x xs IH]; intros acc; simpl; [eauto|].
  destruct x; simpl; auto.
Qed.

Lemma py_sum_from_bad xs v : forall acc,
  In v xs -> not_a_number v -> py_sum_from acc xs = Raise TypeError.
Proof.
  induction xs as [|x xs IH]; intros acc Hin Hbad; [contradiction|].
  simpl. destruct x as [n| |]; simpl; try reflexivity.
  destruct Hin as [<-|Hin]; [|now apply IH].
  exfalso. now apply (Hbad n).
Qed.

Lemma average_cases rs :
  (exists a, average rs = Ok a) \/ average rs = Raise TypeError.
Proof.
  destruct rs as [|r rs]; [simpl; eauto|].
  unfold average, py_sum.
  destruct (py_sum_from_cases (map density (r :: rs)) (Int 0)) as [[s ->]| ->];
    simpl; eauto.
Qed.

Lemma average_bad rs r :
  In r rs -> not_a_number (density r) -> average rs = Raise TypeError.
Proof.
  intros Hin Hbad. destruct rs as [|r0 rs]; [contradiction|].
  unfold average, py_sum.
  rewrite (py_sum_from_bad _ (density r)); auto.
  now apply in_map.
Qed.

(** A loop whose iterations can only raise [e] raises [e] as soon as one of
    them does. *)
Lemma dict_for_raise {V : Type} ks (f : string -> result V) e :
  (forall k, In k ks -> (exists v, f k = Ok v) \/ f k = Raise e) ->
  (exists k, In k ks /\ f k = Raise e) ->
  forall acc, dict_for ks f acc = Raise e.
Proof.
  induction ks as [|k ks IH]; intros Hall (k0 & Hin & Hk0) acc;
    [contradiction|].
  simpl. destruct (Hall k (or_introl eq_refl)) as [[v Hv]|Hr].
  - rewrite Hv. simpl. apply IH.
    + intros k' Hk'. apply Hall. now right.
    + destruct Hin as [->|Hin]; [congruence|eauto].
  - now rewrite Hr.
Qed.

Lemma avg_densities_bad st lane rs r :
  dict_keys (sensor_data st) = lane_keys (lanes (config st)) ->
  In lane (lanes (config st)) ->
  dict_get (sensor_data st) lane = Some rs ->
  In r rs -> not_a_number (density r) ->
  avg_densities st = Raise TypeError.
Proof.
  intros Hkeys Hlane Hget Hin Hbad. unfold avg_densities.
  apply dict_for_raise.
  - intros k Hk. apply lane_keys_in in Hk. rewrite <- Hkeys in Hk.
    apply dict_in_get_some in Hk as [rs' Hrs'].
    unfold getitem. rewrite Hrs'. cbn [rbind]. apply average_cases.
  - exists lane. split; [exact Hlane|].
    unfold getitem. rewrite Hget. cbn [rbind]. eapply average_bad; eauto.
Qed.
End EdgeAverages.

(** Averages after deliveries to a fresh controller. *)
Lemma ingest_averages_within cfg msgs lo hi :
  (lo <= 0)%Q -> (0 <= hi)%Q ->
  Forall (fun m => density_satisfies (number_within lo hi) (snd m)) msgs ->
  exists avg,
    EdgeController.avg_densities
      (EdgeController.ingest_all msgs (EdgeController.init cfg)) = Ok avg
    /\ dict_keys avg = lane_keys (EdgeController.lanes cfg)
    /\ forall lane a,
         dict_get avg lane = Some a -> (lo <= a)%Q /\ (a <= hi)%Q.
Proof.
  intros Hlo Hhi Hm.
  set (st := EdgeController.ingest_all msgs (EdgeController.init cfg)).
  assert (Hinv : windows_satisfy (number_within lo hi) st
                 /\ EdgeController.config st = cfg).
  { apply (ingest_all_invariant
             (fun s => windows_satisfy (number_within lo hi) s
                       /\ EdgeController.config s = cfg)
             (density_satisfies (number_within lo hi))); auto.
    - intros t data s Hd [Hw Hc]. split.
      + now apply on_message_windows.
      + destruct (on_message_frame t data s) as [Hc' _]. now rewrite Hc'.
    - split; [apply init_windows|reflexivity]. }
  destruct Hinv as [Hw Hc]. clearbody st.
  destruct (avg_densities_within lo hi st Hlo Hhi Hw) as (avg & Havg & Hb).
  exists avg. repeat split; try (eapply Hb; eassumption); auto.
  rewrite <- Hc. now apply avg_densities_keys.
Qed.



(** X11: a stored reading whose density is not a number makes
    [compute_green_times] raise [TypeError] for as long as it stays in
    its lane's window, and the control loop, which catches only
    [KeyboardInterrupt], ends at its next tick without publishing. *)
Theorem non_numeric_density_stops_loop :
  forall st lane r,
    dict_keys (EdgeController.sensor_data st)
    = lane_keys (EdgeController.lanes (EdgeController.config st)) ->
    In lane (EdgeController.lanes (EdgeController.config st)) ->
    In r (window st lane) ->
    not_a_number (EdgeController.density r) ->
    EdgeController.compute_green_times st = Raise TypeError
    /\ forall now rest,
         EdgeController.run_events (EdgeController.Tick now :: rest) st
         = Raise TypeError.
Proof.
  intros st lane r Hkeys Hlane Hin Hbad.
  assert (Havg : EdgeController.avg_densities st = Raise TypeError).
  { unfold window, dict_get_default in Hin.
    destruct (dict_get (EdgeController.sensor_data st) lane) as [rs|] eqn:Hrs;
      [|contradiction].
    eapply avg_densities_bad; eauto. }
  assert (Hg : EdgeController.compute_green_times st = Raise TypeError).
  { unfold EdgeController.compute_green_times. now rewrite Havg. }
  split; [exact Hg|].
  intros now rest. cbn [EdgeController.run_events].
  unfold EdgeController.control_loop_iteration. now rewrite Hg.
Qed.

Lemma non_numeric_density_stops_loop_witness :
  EdgeController.compute_green_times text_density_state = Raise TypeError
  /\ forall now rest,
       EdgeController.run_events (EdgeController.Tick now :: rest)
         text_density_state
       = Raise TypeError.
Proof.
  apply (non_numeric_density_stops_loop text_density_state "north"
           {| EdgeController.density := Str "high";
              EdgeController.queue := Num (Int 8);
              EdgeController.timestamp := Int 100 |}).
  - reflexivity.
  - vm_compute. auto.
  - vm_compute. auto.
  - intros n H. discriminate.
Defined.

(** * Rounding and clamping *)

Lemma round_half_even_floor q :
  Qfloor q <= round_half_even q <= Qfloor q + 1.
Proof.
  unfold round_half_even.
  destruct (Qcompare (q - inject_Z (Qfloor q)) (1 # 2)); [|lia|lia].
  destruct (Z.even (Qfloor q)); lia.
Qed.


(** Rounding never crosses an integer. *)
Lemma round_half_even_lower (z : Z) q :
  (inject_Z z <= q)%Q -> z <= round_half_even q.
Proof.
  intros H. apply Qfloor_resp_le in H. rewrite Qfloor_Z in H.
  pose proof (round_half_even_floor q). lia.
Qed.

Lemma round_half_even_upper (z : Z) q :
  (q <= inject_Z z)%Q -> round_half_even q <= z.
Proof.
  intros H. pose proof (Qfloor_resp_le _ _ H) as Hf. rewrite Qfloor_Z in Hf.
  pose proof (round_half_even_floor q) as Hr.
  destruct (Z.eq_dec (Qfloor q) z) as [E|E]; [|lia].
  pose proof (Qfloor_le q) as Hlo. rewrite E in Hlo.
  assert (Hq : (q - inject_Z (Qfloor q) < 1 # 2)%Q).
  { rewrite E. unfold inject_Z in *. lra. }
  unfold round_half_even.
  destruct (Qcompare (q - inject_Z (Qfloor q)) (1 # 2)) eqn:Ec; [|lia|].
  - apply Qeq_alt in Ec. rewrite Ec in Hq. discriminate.
  - apply Qgt_alt in Ec. exfalso. apply (Qlt_irrefl (1 # 2)).
    now apply Qlt_trans with (q - inject_Z (Qfloor q))%Q.
Qed.

Lemma pow10_pos (n : nat) : (0 < inject_Z (10 ^ Z.of_nat n))%Q.
Proof.
  rewrite <- (Zlt_Qlt 0). apply Z.pow_pos_nonneg; lia.
Qed.

(** [round(x, n)] stays between any two integers [x] lies between. *)
Lemma py_round_within (lo hi : Z) q n :
  (inject_Z lo <= q)%Q -> (q <= inject_Z hi)%Q ->
  (inject_Z lo <= py_round q n)%Q /\ (py_round q n <= inject_Z hi)%Q.
Proof.
  intros Hlo Hhi. unfold py_round.
  set (p := 10 ^ Z.of_nat n). pose proof (pow10_pos n) as Hp. fold p in Hp.
  split.
  - apply Qle_shift_div_l; [exact Hp|].
    rewrite <- inject_Z_mult, <- Zle_Qle.
    apply round_half_even_lower. rewrite inject_Z_mult.
    apply Qmult_le_compat_r; [exact Hlo|]. now apply Qlt_le_weak.
  - apply Qle_shift_div_r; [exact Hp|].
    rewrite <- inject_Z_mult, <- Zle_Qle.
    apply round_half_even_upper. rewrite inject_Z_mult.
    apply Qmult_le_compat_r; [exact Hhi|]. now apply Qlt_le_weak.
Qed.


(** [max(0, min(100, x))] is a percentage. *)
Lemma clamp_percent x :
  (0 <= num_to_Q (py_max (Int 0) (py_min (Int 100) x)))%Q
  /\ (num_to_Q (py_max (Int 0) (py_min (Int 100) x)) <= 100)%Q.
Proof.
  unfold py_max, py_min, num_ltb. cbn [num_to_Q].
  destruct (Qltb (num_to_Q x) (inject_Z 100)) eqn:Ehi.
  - apply Qltb_lt in Ehi.
    destruct (Qltb (inject_Z 0) (num_to_Q x)) eqn:Elo; cbn [num_to_Q].
    + apply Qltb_lt in Elo. unfold inject_Z in *. split; lra.
    + split; discriminate.
  - cbn [num_to_Q].
    destruct (Qltb (inject_Z 0) (inject_Z 100)); cbn [num_to_Q];
      split; discriminate.
Qed.

Lemma num_round_percent x n :
  (0 <= num_to_Q x)%Q -> (num_to_Q x <= 100)%Q ->
  (0 <= num_to_Q (num_round x n))%Q /\ (num_to_Q (num_round x n) <= 100)%Q.
Proof.
  destruct x as [z|q]; cbn [num_round num_to_Q]; [tauto|].
  intros Hlo Hhi. apply (py_round_within 0 100); assumption.
Qed.


Lemma sensor_message_density lane d q s ts :
  density_satisfies (number_within 0 100) (sensor_message lane d q s ts)
  <-> (0 <= num_to_Q d)%Q /\ (num_to_Q d <= 100)%Q.
Proof.
  unfold density_satisfies, sensor_message. cbn [dict_get String.eqb Ascii.eqb Bool.eqb].
  split.
  - intros H. destruct (H (Num d) eq_refl) as (n & Hn & Hb).
    inversion Hn; subst. exact Hb.
  - intros Hb v Hv. inversion Hv; subst. exists d. tauto.
Qed.

Lemma loss_of_consecutive n : forall p,
  loss_of p (consecutive (p + 1) n) = 0.
Proof.
  induction n as [|n IH]; intros p; [reflexivity|].
  rewrite consecutive_cons. cbn [loss_of]. rewrite IH.
  unfold loss_step. rewrite Z.eqb_refl. cbn [negb]. rewrite andb_false_r. lia.
Qed.

(** * The sensors *)

Section Sensors.
Import VirtualSensor.

Lemma generate_realistic_density_percent cfg w :
  (0 <= num_to_Q (generate_realistic_density cfg w))%Q
  /\ (num_to_Q (generate_realistic_density cfg w) <= 100)%Q.
Proof. unfold generate_realistic_density. apply clamp_percent. Qed.


Lemma publish_loop_spec cycles : forall world i self,
  let r := publish_loop cycles world i self in
  VirtualSensor.config (fst r) = VirtualSensor.config self
  /\ lane (fst r) = lane self
  /\ sequence (fst r) = sequence self + Z.of_nat cycles
  /\ List.length (snd r) = cycles
  /\ Forall2 (fun m s => reading_for (lane self) s (snd m)) (snd r)
       (consecutive (sequence self) cycles)
  /\ Forall (fun m =>
               fst m = EdgeController.density_topic "intersection_1" (lane self)
               /\ density_satisfies (number_within 0 100) (snd m))
       (snd r).
Proof.
  induction cycles as [|n IH]; intros world i self.
  - cbn. repeat split; auto; try constructor. lia.
  - cbn [publish_loop]. cbv zeta.
    set (p := publish_density self (world i)).
    specialize (IH world (S i) (fst (fst p))). cbv zeta in IH.
    destruct IH as (Hc & Hl & Hs & Hn & Hr & Hd).
    assert (Hp1 : lane (fst (fst p)) = lane self) by reflexivity.
    assert (Hp2 : sequence (fst (fst p)) = sequence self + 1) by reflexivity.
    cbn [fst snd]. rewrite Hp1 in *. rewrite Hp2 in *.
    repeat split.
    + exact Hc.
    + exact Hl.
    + rewrite Hs. lia.
    + cbn [List.length]. now rewrite Hn.
    + rewrite consecutive_cons. constructor; [|exact Hr].
      subst p. cbn [publish_density fst snd]. apply sensor_message_reading.
    + constructor; [|exact Hd]. subst p. cbn [publish_density fst snd].
      split; [reflexivity|].
      apply sensor_message_density. apply num_round_percent;
        apply generate_realistic_density_percent.
Qed.
End Sensors.




(** X14: the readings of one [VirtualSensor.run], delivered in order to a
    fresh [ProportionalController] that has the sensor's lane configured,
    with any receipt times, are all counted and none is reported lost:
    [total_messages] is their number, [lost_messages] is 0, and every lane
    average is a percentage between 0 and 100.  When the controller's
    [intersection_id] is the sensor's hard-coded [intersection_1], every
    reading is published on a topic [on_connect] subscribes to. *)
Theorem sensor_run_no_loss :
  forall cfg lane connected duration world self published ccfg msgs,
    VirtualSensor.run connected duration world (VirtualSensor.init cfg lane)
    = Ok (self, published) ->
    In lane (EdgeController.lanes ccfg) ->
    map snd msgs = map snd published ->
    let st := EdgeController.ingest_all msgs (EdgeController.init ccfg) in
    EdgeController.total_messages (EdgeController.metrics st)
    = Z.of_nat (List.length published)
    /\ EdgeController.lost_messages (EdgeController.metrics st) = Int 0
    /\ (exists avg,
          EdgeController.avg_densities st = Ok avg
          /\ forall l a,
               dict_get avg l = Some a -> (0 <= a)%Q /\ (a <= 100)%Q)
    /\ (EdgeController.intersection_id ccfg = "intersection_1" ->
        Forall (fun m => In (fst m) (map fst (EdgeController.on_connect ccfg)))
          published).
Proof.
  intros cfg lane connected duration world self published ccfg msgs
    Hrun Hlane Hmsgs st.
  assert (Hpub : exists n,
             List.length published = n
             /\ Forall2 (fun m s => reading_for lane s (snd m)) published
                  (consecutive 0 n)
             /\ Forall (fun m =>
                          density_satisfies (number_within 0 100) (snd m))
                  published
             /\ Forall (fun m =>
                          fst m
                          = EdgeController.density_topic "intersection_1" lane)
                  published).
  { unfold VirtualSensor.run in Hrun. destruct connected; cbn in Hrun.
    - destruct (floordiv duration (VirtualSensor.publish_interval cfg))
        as [cycles|e]; cbn in Hrun; [|discriminate].
      destruct (publish_loop_spec (Z.to_nat cycles) world 0%nat
                  (VirtualSensor.init cfg lane))
        as (_ & _ & _ & Hn & Hr & Hd).
      rewrite (surjective_pairing (VirtualSensor.publish_loop _ _ _ _))
        in Hrun.
      inversion Hrun; subst.
      exists (Z.to_nat cycles). cbn in Hr, Hd. repeat split; auto.
      + eapply Forall_impl; [|exact Hd]. now intros m [_ H].
      + eapply Forall_impl; [|exact Hd]. now intros m [H _].
    - inversion Hrun; subst. exists 0%nat.
      repeat split; constructor. }
  destruct Hpub as (n & Hn & Hr & Hd & Htopic).
  assert (Hr' : Forall2 (fun m s => reading_for lane s (snd m)) msgs
                  (consecutive 0 n)).
  { clear - Hr Hmsgs. revert msgs Hmsgs.
    induction Hr as [|p s published seqs Hp _ IH]; intros msgs Hmsgs.
    - destruct msgs; [constructor|discriminate].
    - destruct msgs as [|m msgs]; [discriminate|].
      cbn [map] in Hmsgs. inversion Hmsgs as [[Hm Hrest]].
      constructor; [now rewrite Hm|now apply IH]. }
  assert (Hd' : Forall (fun m =>
                          density_satisfies (number_within 0 100) (snd m))
                  msgs).
  { clear - Hd Hmsgs. revert msgs Hmsgs.
    induction Hd as [|p published Hp _ IH]; intros msgs Hmsgs.
    - destruct msgs; [constructor|discriminate].
    - destruct msgs as [|m msgs]; [discriminate|].
      cbn [map] in Hmsgs. inversion Hmsgs as [[Hm Hrest]].
      constructor; [now rewrite Hm|now apply IH]. }
  assert (Hlen : List.length msgs = List.length published).
  { rewrite <- (length_map snd msgs), Hmsgs. apply length_map. }
  destruct (init_tracks ccfg lane Hlane) as (Hlast & Hsd & Hlost).
  destruct (ingest_trace lane msgs (consecutive 0 n) Hr'
              (EdgeController.init ccfg) (-1) 0 Hlast Hsd Hlost)
    as (_ & Hl & Htot & _).
  fold st in Hl, Htot.
  split; [|split; [|split]].
  - rewrite Htot, Hlen. cbn. lia.
  - rewrite Hl. change 0 with (-1 + 1) at 2.
    now rewrite loss_of_consecutive.
  - destruct (ingest_averages_within ccfg msgs 0 100) as (avg & Ha & _ & Hb);
      [discriminate|discriminate|exact Hd'|].
    exists avg. split; [exact Ha|exact Hb].
  - intros Hid. eapply Forall_impl; [|exact Htopic].
    intros m ->. unfold EdgeController.on_connect. rewrite map_map. cbn [fst].
    rewrite Hid. apply in_map_iff. exists lane. split; [reflexivity|exact Hlane].
Qed.

Lemma sensor_run_no_loss_witness :
  let run := VirtualSensor.publish_loop 2 example_world 0
               (VirtualSensor.init example_sensor_config "north") in
  let msgs := map (fun m => (inject_Z 100, snd m)) (snd run) in
  let st := EdgeController.ingest_all msgs
              (EdgeController.init example_config) in
  EdgeController.total_messages (EdgeController.metrics st)
  = Z.of_nat (List.length (snd run))
  /\ EdgeController.lost_messages (EdgeController.metrics st) = Int 0
  /\ (exists avg,
        EdgeController.avg_densities st = Ok avg
        /\ forall l a, dict_get avg l = Some a -> (0 <= a)%Q /\ (a <= 100)%Q)
  /\ (EdgeController.intersection_id example_config = "intersection_1" ->
      Forall (fun m =>
                In (fst m) (map fst (EdgeController.on_connect example_config)))
        (snd run)).
Proof.
  intros run msgs.
  apply (sensor_run_no_loss example_sensor_config "north" true 4
           example_world (fst run) (snd run) example_config msgs).
  - reflexivity.
  - cbn. auto.
  - subst msgs. rewrite map_map. reflexivity.
Defined.

(** X15: whatever the clock and the random draws (and however far the
    smoothed value has drifted), a reading published by the backend's
    [VirtualSensor.publish] carries the sensor's lane and counter, a
    [density_pct] between 0 and 100 and a [queue_len] between 0 and 10;
    the counter then advances by one. *)
Theorem api_sensor_reading_in_range :
  forall self w,
    let published := ApiSensor.publish self w in
    exists pct queue,
      snd (snd published)
      = sensor_message (ApiSensor.lane self) pct queue
          (ApiSensor.seq self) (Float (ApiSensor.time w))
      /\ (0 <= num_to_Q pct)%Q /\ (num_to_Q pct <= 100)%Q
      /\ 0 <= queue <= 10
      /\ ApiSensor.seq (fst published) = ApiSensor.seq self + 1
      /\ ApiSensor.lane (fst published) = ApiSensor.lane self.
Proof.
  intros self w published.
  set (pct := snd (ApiSensor.generate_density self w)).
  assert (Hpct : (0 <= num_to_Q pct)%Q /\ (num_to_Q pct <= 100)%Q).
  { subst pct. cbn [ApiSensor.generate_density snd].
    apply num_round_percent; apply clamp_percent. }
  destruct Hpct as [Hlo Hhi].
  exists pct, (py_int (Float (num_to_Q pct / inject_Z 10))).
  subst published. cbn [ApiSensor.publish fst snd ApiSensor.generate_density
                         ApiSensor.lane ApiSensor.seq].
  split; [reflexivity|].
  split; [exact Hlo|]. split; [exact Hhi|].
  split; [|split; reflexivity].
  cbn [py_int]. split.
  - apply Qtrunc_lower. apply Qle_shift_div_l; [reflexivity|].
    unfold inject_Z. lra.
  - apply Qtrunc_upper. apply Qle_shift_div_r; [reflexivity|].
    unfold inject_Z. lra.
Qed.

(** * The backend's message handler *)

Section Backend.
Import ApiBackend.
Local Open Scope backend_scope.

Lemma deque_append_length {A : Type} n (d : list A) x :
  List.length (deque_append n d x) = Nat.min n (S (List.length d)).
Proof.
  unfold deque_append. rewrite length_skipn, length_app. simpl. lia.
Qed.

Lemma key_eqb_refl k : key_eqb k k = true.
Proof.
  unfold key_eqb. destruct k as [n|s|]; simpl; try reflexivity.
  - unfold num_eqb. rewrite negb_involutive. apply Qeq_bool_iff. reflexivity.
  - now rewrite String.eqb_refl.
Qed.

Lemma key_eqb_Str k s : key_eqb k (Str s) = true <-> k = Str s.
Proof.
  unfold key_eqb. destruct k as [n|t|]; simpl; split; try discriminate.
  - rewrite negb_involutive. intros H. apply String.eqb_eq in H. now subst.
  - intros H. inversion H. rewrite negb_involutive. apply String.eqb_refl.
Qed.

Lemma vdict_get_set_same {V : Type} (d : vdict V) k v :
  vdict_get (vdict_set d k v) k = Some v.
Proof.
  induction d as [|[k0 v0] d IH]; simpl.
  - now rewrite key_eqb_refl.
  - destruct (key_eqb k0 k) eqn:E; simpl; now rewrite E.
Qed.

Lemma vdict_get_set_other {V : Type} (d : vdict V) a b v :
  a <> b ->
  vdict_get (vdict_set d (Str a) v) (Str b) = vdict_get d (Str b).
Proof.
  intros Hne.
  assert (Hab : key_eqb (Str a) (Str b) = false).
  { unfold key_eqb. simpl. rewrite negb_involutive.
    now apply String.eqb_neq. }
  induction d as [|[k0 v0] d IH]; simpl.
  - now rewrite Hab.
  - destruct (key_eqb k0 (Str a)) eqn:E; simpl.
    + apply key_eqb_Str in E. subst k0. now rewrite Hab.
    + now rewrite IH.
Qed.

(** Assigning to a key removes none. *)
Lemma vdict_set_keeps {V : Type} (d : vdict V) k v k' :
  vdict_get d k' <> None -> vdict_get (vdict_set d k v) k' <> None.
Proof.
  induction d as [|[k0 v0] d IH]; simpl; [congruence|].
  destruct (key_eqb k0 k) eqn:E; simpl;
    destruct (key_eqb k0 k'); auto; discriminate.
Qed.

Lemma dict_keys_four {V : Type} (d : dict V) :
  dict_keys d = four_lanes ->
  exists n s e w,
    d = [("north", n); ("south", s); ("east", e); ("west", w)].
Proof.
  unfold four_lanes, dict_keys. intros H.
  destruct d as [|[k1 n] [|[k2 s] [|[k3 e] [|[k4 w] [|]]]]];
    try discriminate.
  simpl in H. inversion H; subst. eauto.
Qed.

Lemma four_dict_get {V : Type} (P : V -> Prop) n s e w :
  P n -> P s -> P e -> P w ->
  forall lane l,
    dict_get [("north", n); ("south", s); ("east", e); ("west", w)] lane
    = Some l ->
    P l.
Proof.
  intros Hn Hs He Hw lane l. cbn [dict_get].
  repeat (destruct (String.eqb _ lane);
          [intros E; inversion E; subst; assumption|]).
  discriminate.
Qed.

Lemma dict_set_known_keys {V : Type} (d : dict V) k v samples :
  dict_get d k = Some samples ->
  dict_keys (dict_set d k v) = dict_keys d.
Proof.
  intros H. induction d as [|[k0 v0] d IH]; simpl in *; [discriminate|].
  destruct (String.eqb k0 k); simpl; [reflexivity|]. f_equal. now apply IH.
Qed.

Ltac conjs := repeat match goal with |- _ /\ _ => split end.

Lemma density_branch_effect w payload b :
  let lane := dict_get_default payload "lane" Null in
  let density := dict_get_default payload "density_pct" (Num (Int 0)) in
  let r := density_branch w payload b in
  let c := current_state b in
  let c' := current_state (snd r) in
  let m := metrics_log b in
  let m' := metrics_log (snd r) in
  densities c' = vdict_set (densities c) lane density
  /\ green_times c' = green_times c
  /\ signals c' = signals c
  /\ cycle_count c' = cycle_count c
  /\ timestamp c' = timestamp c
  /\ messages_received c' = messages_received c + 1
  /\ timestamps m' = timestamps m
  /\ density_log m' = density_log m
  /\ green_log m' = green_log m
  /\ (latencies m' = latencies m
      \/ exists x, latencies m' = deque_append 100 (latencies m) x)
  /\ ((sensor_data (snd r) = sensor_data b /\ fst r <> Ok tt)
      \/ exists l samples,
           lane = Str l
           /\ dict_get (sensor_data b) l = Some samples
           /\ fst r = Ok tt
           /\ sensor_data (snd r)
              = dict_set (sensor_data b) l
                  (deque_append 30 samples
                     {| TrafficApi.density := density;
                        TrafficApi.ts := t_sample w |})).
Proof.
  intros lane density r c c' m m'. subst r c' m'.
  unfold density_branch. fold lane density.
  unfold bind, update_state, update_log, modify, lift, reads, ret.
  cbn [fst snd].
  destruct (dict_get payload "ts") as [[n| |]|]; cbn;
    try (conjs; auto; left; split; [reflexivity|discriminate]).
  - destruct lane as [x|l|]; cbn;
      try (conjs; eauto; left; split; [reflexivity|discriminate]).
    unfold getitem.
    destruct (dict_get (sensor_data b) l) as [samples|] eqn:Hs; cbn.
    + conjs; eauto. right. exists l, samples. auto.
    + conjs; eauto. left; split; [reflexivity|discriminate].
  - destruct lane as [x|l|]; cbn;
      try (conjs; eauto; left; split; [reflexivity|discriminate]).
    unfold getitem.
    destruct (dict_get (sensor_data b) l) as [samples|] eqn:Hs; cbn.
    + conjs; eauto. right. exists l, samples. auto.
    + conjs; eauto. left; split; [reflexivity|discriminate].
Qed.

Lemma bind_modify_run {B : Type} f (k : unit -> M B) b :
  bind (modify f) k b = k tt (f b).
Proof. reflexivity. Qed.

Lemma bind_lift_run {A B : Type} (r : result A) (k : A -> M B) b :
  bind (lift r) k b
  = match r with
    | Ok a => k a b
    | Raise e => (Raise e, b)
    end.
Proof. destruct r; reflexivity. Qed.

Lemma bind_reads_run {A B : Type} (f : Backend -> result A) (k : A -> M B) b :
  bind (reads f) k b
  = match f b with
    | Ok a => k a b
    | Raise e => (Raise e, b)
    end.
Proof. unfold bind, reads. destruct (f b); reflexivity. Qed.

Lemma bind_run_ok {A B : Type} (m : M A) (k : A -> M B) b a b1 :
  m b = (Ok a, b1) -> bind m k b = k a b1.
Proof. intros H. unfold bind. now rewrite H. Qed.

Lemma bind_run_raised {A B : Type} (m : M A) (k : A -> M B) b e b1 :
  m b = (Raise e, b1) -> bind m k b = (Raise e, b1).
Proof. intros H. unfold bind. now rewrite H. Qed.

Lemma apply_schedule_cons phase rest b :
  apply_schedule (phase :: rest) b
  = let lane := dict_get_default phase "lane" Null in
    let green := dict_get_default phase "green" (Num (Int 10)) in
    let b1 := set_current_state
                (set_green_time lane green (current_state b)) b in
    match py_gt0 green with
    | Ok positive =>
        apply_schedule rest
          (set_current_state
             (set_signal lane (if positive then "GREEN" else "RED")
                (current_state b1)) b1)
    | Raise e => (Raise e, b1)
    end.
Proof.
  cbn [apply_schedule]. cbv zeta. unfold update_state.
  rewrite bind_modify_run, bind_lift_run.
  destruct (py_gt0 _); [|reflexivity].
  now rewrite bind_modify_run.
Qed.

Lemma apply_schedule_effect schedule : forall b,
  let r := apply_schedule schedule b in
  let c := current_state b in
  let c' := current_state (snd r) in
  metrics_log (snd r) = metrics_log b
  /\ sensor_data (snd r) = sensor_data b
  /\ densities c' = densities c
  /\ cycle_count c' = cycle_count c
  /\ timestamp c' = timestamp c
  /\ messages_received c' = messages_received c
  /\ (forall k, vdict_get (green_times c) k <> None ->
                vdict_get (green_times c') k <> None).
Proof.
  induction schedule as [|phase rest IH]; intros b.
  - cbn. conjs; auto.
  - rewrite apply_schedule_cons. cbv zeta.
    set (lane := dict_get_default phase "lane" Null).
    set (green := dict_get_default phase "green" (Num (Int 10))).
    destruct (py_gt0 green) as [positive|e].
    + match goal with
      | |- context [apply_schedule rest ?s] =>
          specialize (IH s); set (b2 := s) in *
      end.
      cbv zeta in IH.
      destruct IH as (Hm & Hs & Hd & Hc & Ht & Hr & Hg).
      rewrite Hm, Hs, Hd, Hc, Ht, Hr. cbn. conjs; auto.
      intros k Hk. apply Hg. cbn. now apply vdict_set_keeps.
    + cbn. conjs; auto. intros k Hk. now apply vdict_set_keeps.
Qed.

Lemma log_lanes_run b ts lat dn ds de dw gn gs ge gw xn xs xe xw yn ys ye yw :
  metrics_log b
  = {| timestamps := ts;
       density_log := [("north", dn); ("south", ds); ("east", de);
                       ("west", dw)];
       green_log := [("north", gn); ("south", gs); ("east", ge);
                     ("west", gw)];
       latencies := lat |} ->
  vdict_get (densities (current_state b)) (Str "north") = Some xn ->
  vdict_get (densities (current_state b)) (Str "south") = Some xs ->
  vdict_get (densities (current_state b)) (Str "east") = Some xe ->
  vdict_get (densities (current_state b)) (Str "west") = Some xw ->
  vdict_get (green_times (current_state b)) (Str "north") = Some yn ->
  vdict_get (green_times (current_state b)) (Str "south") = Some ys ->
  vdict_get (green_times (current_state b)) (Str "east") = Some ye ->
  vdict_get (green_times (current_state b)) (Str "west") = Some yw ->
  log_lanes four_lanes b
  = (Ok tt,
     set_metrics_log
       {| timestamps := ts;
          density_log := [("north", deque_append 100 dn xn);
                          ("south", deque_append 100 ds xs);
                          ("east", deque_append 100 de xe);
                          ("west", deque_append 100 dw xw)];
          green_log := [("north", deque_append 100 gn yn);
                        ("south", deque_append 100 gs ys);
                        ("east", deque_append 100 ge ye);
                        ("west", deque_append 100 gw yw)];
          latencies := lat |} b).
Proof.
  destruct b as [c m sd]. cbn [metrics_log current_state].
  intros -> Hxn Hxs Hxe Hxw Hyn Hys Hye Hyw.
  unfold four_lanes, log_lanes, log_lane, bind, reads, update_log, modify,
    vgetitem, getitem.
  cbn. rewrite Hxn. cbn. rewrite Hyn. cbn. rewrite Hxs. cbn. rewrite Hys.
  cbn. rewrite Hxe. cbn. rewrite Hye. cbn. rewrite Hxw. cbn. rewrite Hyw.
  cbn. reflexivity.
Qed.

(** [backend_ok] looks at the per-lane keys, the samples and the logs
    only. *)
Lemma backend_ok_frame b b' :
  sensor_data b' = sensor_data b ->
  metrics_log b' = metrics_log b ->
  (forall k, vdict_get (densities (current_state b)) k <> None ->
             vdict_get (densities (current_state b')) k <> None) ->
  (forall k, vdict_get (green_times (current_state b)) k <> None ->
             vdict_get (green_times (current_state b')) k <> None) ->
  backend_ok b -> backend_ok b'.
Proof.
  intros Hs Hm Hd Hg (H1 & H2 & H3 & H4 & H5 & H6 & H7 & H8 & H9).
  unfold backend_ok. rewrite Hs, Hm. conjs; auto.
  intros lane Hin. destruct (H4 lane Hin). split; auto.
Qed.

Lemma backend_ok_stamp t b :
  backend_ok b ->
  backend_ok (set_current_state (set_timestamp t (current_state b)) b).
Proof. apply backend_ok_frame; auto. Qed.

Lemma stamp_after_ok (m : M unit) t b :
  backend_ok (snd (m b)) ->
  backend_ok (snd (bind m (fun _ => update_state (set_timestamp t)) b)).
Proof.
  unfold bind. destruct (m b) as [[u|e] b1]; cbn [snd]; [|auto].
  apply backend_ok_stamp.
Qed.

Lemma density_branch_ok w payload b :
  backend_ok b -> backend_ok (snd (density_branch w payload b)).
Proof.
  intros (H1 & H2 & H3 & H4 & H5 & H6 & H7 & H8 & H9).
  destruct (density_branch_effect w payload b)
    as (Hd & Hg & _ & _ & _ & _ & Hts & Hdl & Hgl & Hlat & Hsd).
  set (b' := snd (density_branch w payload b)) in *.
  unfold backend_ok. rewrite Hts, Hdl, Hgl, Hd, Hg.
  assert (Hkeys : dict_keys (sensor_data b') = four_lanes
                  /\ forall lane samples,
                       dict_get (sensor_data b') lane = Some samples ->
                       (List.length samples <= 30)%nat).
  { destruct Hsd as [[-> _]|(l & samples & _ & Hget & _ & ->)]; [auto|].
    split.
    - erewrite dict_set_known_keys; eauto.
    - intros lane s' Hs'. destruct (string_dec l lane) as [->|Hne].
      + rewrite dict_get_set_same in Hs'. inversion Hs'; subst.
        rewrite deque_append_length. lia.
      + rewrite dict_get_set_other in Hs' by assumption. eauto. }
  destruct Hkeys as [Hk Hb].
  conjs; auto.
  - intros lane Hin. destruct (H4 lane Hin).
    split; [now apply vdict_set_keeps|assumption].
  - destruct Hlat as [->|[x ->]]; [assumption|].
    rewrite deque_append_length. lia.
Qed.

(** The logging that ends the schedule branch succeeds on a state that
    satisfies [backend_ok], and adds one row. *)
Lemma log_after_schedule t b :
  backend_ok b ->
  exists m,
    log_lanes four_lanes
      (set_metrics_log (append_timestamp t (metrics_log b)) b)
    = (Ok tt, set_metrics_log m b)
    /\ timestamps m = deque_append 100 (timestamps (metrics_log b)) t
    /\ latencies m = latencies (metrics_log b)
    /\ backend_ok (set_metrics_log m b).
Proof.
  intros (H1 & H2 & H3 & H4 & H5 & H6 & H7 & H8 & H9).
  destruct (dict_keys_four _ H2) as (dn & ds & de & dw & Hdl).
  destruct (dict_keys_four _ H3) as (gn & gs & ge & gw & Hgl).
  destruct (H4 "north") as [Hxn Hyn]; [unfold four_lanes; simpl; auto|].
  destruct (H4 "south") as [Hxs Hys]; [unfold four_lanes; simpl; auto|].
  destruct (H4 "east") as [Hxe Hye]; [unfold four_lanes; simpl; auto|].
  destruct (H4 "west") as [Hxw Hyw]; [unfold four_lanes; simpl; auto|].
  destruct (vdict_get (densities (current_state b)) (Str "north"))
    as [xn|] eqn:Exn; [|congruence].
  destruct (vdict_get (densities (current_state b)) (Str "south"))
    as [xs|] eqn:Exs; [|congruence].
  destruct (vdict_get (densities (current_state b)) (Str "east"))
    as [xe|] eqn:Exe; [|congruence].
  destruct (vdict_get (densities (current_state b)) (Str "west"))
    as [xw|] eqn:Exw; [|congruence].
  destruct (vdict_get (green_times (current_state b)) (Str "north"))
    as [yn|] eqn:Eyn; [|congruence].
  destruct (vdict_get (green_times (current_state b)) (Str "south"))
    as [ys|] eqn:Eys; [|congruence].
  destruct (vdict_get (green_times (current_state b)) (Str "east"))
    as [ye|] eqn:Eye; [|congruence].
  destruct (vdict_get (green_times (current_state b)) (Str "west"))
    as [yw|] eqn:Eyw; [|congruence].
  set (b2 := set_metrics_log (append_timestamp t (metrics_log b)) b).
  rewrite (log_lanes_run b2 (deque_append 100 (timestamps (metrics_log b)) t)
             (latencies (metrics_log b))
             dn ds de dw gn gs ge gw xn xs xe xw yn ys ye yw);
    try assumption.
  - eexists. split; [reflexivity|].
    cbn [timestamps latencies]. split; [reflexivity|].
    split; [reflexivity|].
    unfold backend_ok.
    cbn [set_metrics_log metrics_log current_state sensor_data timestamps
         density_log green_log latencies dict_keys map fst].
    assert (Hlen : forall l : list value,
              List.length l = List.length (timestamps (metrics_log b)) ->
              forall x,
                List.length (deque_append 100 l x)
                = List.length (deque_append 100
                                 (timestamps (metrics_log b)) t)).
    { intros l Hl x. rewrite !deque_append_length. now rewrite Hl. }
    conjs; auto.
    + rewrite deque_append_length. lia.
    + apply four_dict_get; apply Hlen.
      * apply (H8 "north"). now rewrite Hdl.
      * apply (H8 "south"). now rewrite Hdl.
      * apply (H8 "east"). now rewrite Hdl.
      * apply (H8 "west"). now rewrite Hdl.
    + apply four_dict_get; apply Hlen.
      * apply (H9 "north"). now rewrite Hgl.
      * apply (H9 "south"). now rewrite Hgl.
      * apply (H9 "east"). now rewrite Hgl.
      * apply (H9 "west"). now rewrite Hgl.
  - subst b2. cbn. unfold append_timestamp. now rewrite Hdl, Hgl.
Qed.

(** The schedule branch, step by step: an exception can only come from
    the loop over the phases. *)
Lemma schedule_branch_run w payload schedule b :
  backend_ok b ->
  let b0 := set_current_state
              (set_cycle_count
                 (dict_get_default payload "cycle_count" (Num (Int 0)))
                 (current_state b)) b in
  let r := apply_schedule schedule b0 in
  match fst r with
  | Ok _ =>
      exists m,
        schedule_branch w payload schedule b
        = (Ok tt, set_metrics_log m (snd r))
        /\ timestamps m
           = deque_append 100 (timestamps (metrics_log b)) (isoformat w)
        /\ latencies m = latencies (metrics_log b)
        /\ backend_ok (set_metrics_log m (snd r))
  | Raise e =>
      schedule_branch w payload schedule b = (Raise e, snd r)
      /\ backend_ok (snd r)
  end.
Proof.
  intros Hok b0 r.
  assert (Hok0 : backend_ok b0) by (revert Hok; apply backend_ok_frame; auto).
  destruct (apply_schedule_effect schedule b0)
    as (Hm & Hs & Hd & _ & _ & _ & Hg).
  fold r in Hm, Hs, Hd, Hg.
  assert (Hok1 : backend_ok (snd r)).
  { revert Hok0. apply backend_ok_frame; auto. now rewrite Hd. }
  unfold schedule_branch, update_state, update_log.
  rewrite bind_modify_run. fold b0.
  destruct r as [[u|e] b1] eqn:Hr; cbn [fst snd] in *.
  - rewrite (bind_run_ok _ _ _ _ _ Hr), bind_modify_run.
    destruct (log_after_schedule (isoformat w) b1 Hok1)
      as (m & Hrun & Hts & Hlat & Hokm).
    exists m. rewrite Hrun. rewrite Hm in Hts, Hlat. auto.
  - rewrite (bind_run_raised _ _ _ _ _ Hr). auto.
Qed.

Lemma schedule_branch_ok w payload schedule b :
  backend_ok b -> backend_ok (snd (schedule_branch w payload schedule b)).
Proof.
  intros Hok. pose proof (schedule_branch_run w payload schedule b Hok) as H.
  cbv zeta in H.
  destruct (fst (apply_schedule schedule _)).
  - destruct H as (m & -> & _ & _ & Hokm). exact Hokm.
  - destruct H as [-> Hok']. exact Hok'.
Qed.

Lemma on_mqtt_message_ok w payload b :
  backend_ok b -> backend_ok (on_mqtt_message w payload b).
Proof.
  intros Hok. unfold on_mqtt_message, on_mqtt_message_body.
  apply stamp_after_ok.
  destruct (dict_get (fields payload) "density_pct").
  - now apply density_branch_ok.
  - destruct (phase_schedule payload).
    + now apply schedule_branch_ok.
    + exact Hok.
Qed.

Lemma init_ok : backend_ok init.
Proof.
  unfold backend_ok, init.
  cbn [metrics_log current_state sensor_data timestamps density_log
       green_log latencies densities green_times dict_keys map fst
       List.length].
  conjs; auto; try lia.
  - intros lane [<-|[<-|[<-|[<-|[]]]]]; cbn; split; discriminate.
  - apply four_dict_get; simpl; lia.
  - apply four_dict_get; reflexivity.
  - apply four_dict_get; reflexivity.
Qed.

Lemma deliver_all_ok msgs : forall b,
  backend_ok b -> backend_ok (deliver_all msgs b).
Proof.
  induction msgs as [|m msgs IH]; intros b Hok; [exact Hok|].
  cbn. apply IH. now apply on_mqtt_message_ok.
Qed.
End Backend.

(** X16: in every state the backend's handler reaches from the initial
    globals, whatever the payloads, the logs stay within their capacity:
    at most 100 latency samples and 100 history rows, and at most 30
    samples for each of the four lanes, which remain the only keys of
    [sensor_data]. *)
Theorem backend_logs_bounded :
  forall msgs,
    let b := ApiBackend.deliver_all msgs ApiBackend.init in
    (List.length (ApiBackend.latencies (ApiBackend.metrics_log b)) <= 100)%nat
    /\ (List.length (ApiBackend.timestamps (ApiBackend.metrics_log b))
        <= 100)%nat
    /\ dict_keys (ApiBackend.sensor_data b) = four_lanes
    /\ forall lane samples,
         dict_get (ApiBackend.sensor_data b) lane = Some samples ->
         (List.length samples <= 30)%nat.
Proof.
  intros msgs b.
  destruct (deliver_all_ok msgs ApiBackend.init init_ok)
    as (H1 & _ & _ & _ & H5 & H6 & H7 & _).
  fold b in H1, H5, H6, H7. auto.
Qed.

(** X17: [get_history] answers 401 without the right key; with it, in
    every state the handler reaches from the initial globals, it raises
    nothing and returns the density and green-time logs of exactly the
    four lanes, each as long as the list of timestamps: the rows of the
    history stay aligned whatever payloads arrived. *)
Theorem history_rows_aligned :
  forall msgs header api_key,
    let b := ApiBackend.deliver_all msgs ApiBackend.init in
    (ApiBackend.validate_api_key header api_key = false ->
     ApiBackend.get_history header api_key b = Ok ApiBackend.Unauthorized)
    /\ (ApiBackend.validate_api_key header api_key = true ->
        exists h,
          ApiBackend.get_history header api_key b = Ok (ApiBackend.Json h)
          /\ dict_keys (ApiBackend.hist_densities h) = four_lanes
          /\ dict_keys (ApiBackend.hist_green_times h) = four_lanes
          /\ (forall lane l,
                dict_get (ApiBackend.hist_densities h) lane = Some l ->
                List.length l = List.length (ApiBackend.hist_timestamps h))
          /\ (forall lane l,
                dict_get (ApiBackend.hist_green_times h) lane = Some l ->
                List.length l = List.length (ApiBackend.hist_timestamps h))).
Proof.
  intros msgs header api_key b.
  unfold ApiBackend.get_history. split; intros Hv; rewrite Hv; cbn [negb].
  - reflexivity.
  - destruct (deliver_all_ok msgs ApiBackend.init init_ok)
      as (_ & H2 & H3 & _ & _ & _ & _ & H8 & H9).
    fold b in H2, H3, H8, H9.
    destruct (dict_keys_four _ H2) as (dn & ds & de & dw & Hdl).
    destruct (dict_keys_four _ H3) as (gn & gs & ge & gw & Hgl).
    rewrite Hdl, Hgl in *. unfold four_lanes. cbn.
    eexists. split; [reflexivity|]. cbn.
    split; [reflexivity|]. split; [reflexivity|]. split; assumption.
Qed.

Lemma history_rows_aligned_witness :
  exists h,
    ApiBackend.get_history (Some "secret") "secret"
      (ApiBackend.deliver_all example_deliveries ApiBackend.init)
    = Ok (ApiBackend.Json h)
    /\ dict_keys (ApiBackend.hist_densities h) = four_lanes
    /\ dict_keys (ApiBackend.hist_green_times h) = four_lanes
    /\ (forall lane l,
          dict_get (ApiBackend.hist_densities h) lane = Some l ->
          List.length l = List.length (ApiBackend.hist_timestamps h))
    /\ (forall lane l,
          dict_get (ApiBackend.hist_green_times h) lane = Some l ->
          List.length l = List.length (ApiBackend.hist_timestamps h)).
Proof.
  apply (history_rows_aligned example_deliveries (Some "secret") "secret").
  reflexivity.
Defined.



(** * The latency statistics of [get_history] *)






(** * Schedules received by the backend *)

Section BackendSchedule.
Import ApiBackend.

Lemma num_ltb_Int a b : num_ltb (Int a) (Int b) = (a <? b).
Proof.
  unfold num_ltb, Qltb, Qle_bool. simpl. rewrite !Z.mul_1_r.
  now rewrite Z.ltb_antisym.
Qed.

Lemma apply_schedule_phases phases : forall b,
  let r :=
    apply_schedule
      (map (fun p =>
              [("lane", Str (TrafficApi.phase_lane p));
               ("green", Num (Int (TrafficApi.phase_green p)));
               ("yellow", Num (Int (TrafficApi.phase_yellow p)))])
         phases) b in
  let c := current_state b in
  let c' := current_state (snd r) in
  fst r = Ok tt
  /\ (forall a, ~ In a (map TrafficApi.phase_lane phases) ->
        vdict_get (green_times c') (Str a) = vdict_get (green_times c) (Str a)
        /\ vdict_get (signals c') (Str a) = vdict_get (signals c) (Str a))
  /\ (NoDup (map TrafficApi.phase_lane phases) ->
      forall p, In p phases ->
        vdict_get (green_times c') (Str (TrafficApi.phase_lane p))
        = Some (Num (Int (TrafficApi.phase_green p)))
        /\ vdict_get (signals c') (Str (TrafficApi.phase_lane p))
           = Some (if 0 <? TrafficApi.phase_green p then "GREEN" else "RED")).
Proof.
  induction phases as [|p phases IH]; intros b.
  - cbn. split; [reflexivity|]. split; [auto|]. intros _ q [].
  - cbn [map]. rewrite apply_schedule_cons. cbv zeta.
    change (dict_get_default _ "lane" Null)
      with (Str (TrafficApi.phase_lane p)).
    change (dict_get_default _ "green" (Num (Int 10)))
      with (Num (Int (TrafficApi.phase_green p))).
    unfold py_gt0. cbn [as_num rbind]. rewrite num_ltb_Int.
    match goal with
    | |- context [apply_schedule _ ?s] => set (b2 := s)
    end.
    specialize (IH b2). cbv zeta in IH. destruct IH as (Hok & Hother & Hin).
    assert (Hb2g : vdict_get (green_times (current_state b2))
                     (Str (TrafficApi.phase_lane p))
                   = Some (Num (Int (TrafficApi.phase_green p))))
      by (subst b2; cbn; apply vdict_get_set_same).
    assert (Hb2s : vdict_get (signals (current_state b2))
                     (Str (TrafficApi.phase_lane p))
                   = Some (if 0 <? TrafficApi.phase_green p
                           then "GREEN" else "RED"))
      by (subst b2; cbn; apply vdict_get_set_same).
    split; [exact Hok|]. split.
    + intros a Ha.
      assert (Hne : TrafficApi.phase_lane p <> a)
        by (intros E; apply Ha; now left).
      destruct (Hother a) as [Hg Hs];
        [intros Hin'; apply Ha; now right|].
      rewrite Hg, Hs. subst b2. cbn.
      split; now apply vdict_get_set_other.
    + intros Hnd q [<-|Hq].
      * inversion Hnd as [|? ? Hnotin _]; subst.
        destruct (Hother _ Hnotin) as [Hg Hs]. now rewrite Hg, Hs.
      * inversion Hnd; subst. now apply Hin.
Qed.

(** What the delivery of a schedule with distinct lanes does to a state
    that satisfies [backend_ok]. *)
Lemma schedule_delivery w message b :
  backend_ok b ->
  NoDup (map TrafficApi.phase_lane (TrafficApi.msg_phase_schedule message)) ->
  let b' := on_mqtt_message w (schedule_payload message) b in
  let c' := current_state b' in
  on_mqtt_message_error w (schedule_payload message) b = None
  /\ cycle_count c' = Num (Int (TrafficApi.msg_cycle_count message))
  /\ (forall p, In p (TrafficApi.msg_phase_schedule message) ->
        vdict_get (green_times c') (Str (TrafficApi.phase_lane p))
        = Some (Num (Int (TrafficApi.phase_green p)))
        /\ vdict_get (signals c') (Str (TrafficApi.phase_lane p))
           = Some (if 0 <? TrafficApi.phase_green p then "GREEN" else "RED"))
  /\ timestamp c' = Float (t_stamp w)
  /\ timestamps (metrics_log b')
     = deque_append 100 (timestamps (metrics_log b)) (isoformat w)
  /\ sensor_data b' = sensor_data b
  /\ backend_ok b'.
Proof.
  intros Hok Hnd b' c'. subst c' b'.
  unfold on_mqtt_message, on_mqtt_message_error, on_mqtt_message_body.
  change (dict_get (fields (schedule_payload message)) "density_pct")
    with (@None value).
  cbn [schedule_payload phase_schedule fields].
  set (payload := [("intersection_id", _); _; _; _; _]).
  pose proof (schedule_branch_run w payload
                (map (fun p =>
                        [("lane", Str (TrafficApi.phase_lane p));
                         ("green", Num (Int (TrafficApi.phase_green p)));
                         ("yellow", Num (Int (TrafficApi.phase_yellow p)))])
                   (TrafficApi.msg_phase_schedule message)) b Hok) as Hrun.
  cbv zeta in Hrun.
  change (dict_get_default payload "cycle_count" (Num (Int 0)))
    with (Num (Int (TrafficApi.msg_cycle_count message))) in Hrun.
  set (b0 := set_current_state _ b) in Hrun.
  destruct (apply_schedule_phases (TrafficApi.msg_phase_schedule message) b0)
    as (Hfst & _ & Hin).
  destruct (apply_schedule_effect
              (map (fun p =>
                      [("lane", Str (TrafficApi.phase_lane p));
                       ("green", Num (Int (TrafficApi.phase_green p)));
                       ("yellow", Num (Int (TrafficApi.phase_yellow p)))])
                 (TrafficApi.msg_phase_schedule message)) b0)
    as (_ & Hsd & _ & Hcc & _).
  rewrite Hfst in Hrun. destruct Hrun as (m & Hrun & Hts & _ & Hokm).
  rewrite (bind_run_ok _ _ _ _ _ Hrun).
  unfold update_state, modify. cbn [fst snd current_state set_current_state
    set_timestamp cycle_count green_times signals timestamp metrics_log
    set_metrics_log sensor_data].
  split; [reflexivity|]. split; [exact Hcc|]. split; [now apply Hin|].
  split; [reflexivity|]. split; [exact Hts|]. split; [exact Hsd|].
  revert Hokm. apply backend_ok_frame; auto.
Qed.
End BackendSchedule.

Section BackendController.
Import TrafficApi.

Lemma api_green_lower self sd g :
  NoDup (lanes self) ->
  compute_green_times self sd = Ok g ->
  forall lane, In lane (lanes self) -> min_green self - 1 <= green_of g lane.
Proof.
  intros Hnd Hc lane Hin.
  pose proof Hc as Hc'. unfold compute_green_times in Hc'.
  destruct (avg_density self sd) as [avg|e] eqn:Havg; cbn [rbind] in Hc';
    [|discriminate].
  destruct (num_leb (total_density avg) (Int 0)) eqn:Hle.
  - inversion Hc'; subst. rewrite green_of_comp by assumption. lia.
  - destruct (api_green_bounds self sd avg Hnd Havg Hle) as (g' & Hg' & Hb).
    assert (g' = g) by congruence. subst g'.
    specialize (Hb lane Hin). lia.
Qed.

(** What a successful [publish_schedule] publishes. *)
Lemma publish_schedule_phases now self sd self' message :
  publish_schedule now self sd = Ok (self', message) ->
  exists g,
    compute_green_times self sd = Ok g
    /\ msg_cycle_count message = cycle_count self
    /\ cycle_count self' = cycle_count self + 1
    /\ map phase_lane (msg_phase_schedule message) = lanes self
    /\ forall p, In p (msg_phase_schedule message) ->
         green_of g (phase_lane p) = phase_green p.
Proof.
  unfold publish_schedule. intros H.
  destruct (compute_green_times self sd) as [g|e]; cbn [rbind] in H;
    [|discriminate].
  match type of H with
  | context [list_for ?xs ?f] =>
      destruct (list_for xs f) as [phases|e] eqn:Hp
  end; cbn [rbind] in H; [|discriminate].
  inversion H; subst. cbn. exists g. repeat split.
  - rewrite <- (map_id (lanes self)).
    refine (list_for_map _ _ _ _ _ _ Hp).
    intros x y Hy. destruct (getitem g x); cbn in Hy; [|discriminate].
    now inversion Hy.
  - intros p Hin. apply list_for_In in Hp.
    clear - Hp Hin. induction Hp as [|x y xs ys Hxy _ IH]; [contradiction|].
    destruct Hin as [<-|Hin]; [|now apply IH].
    unfold getitem in Hxy.
    destruct (dict_get g x) as [v|] eqn:E; cbn in Hxy; [|discriminate].
    inversion Hxy; subst. cbn. unfold green_of, dict_get_default.
    now rewrite E.
Qed.


End BackendController.





(** X20: when the backend receives a schedule whose phases name distinct
    lanes, in any state the handler reaches from the initial globals, the
    handler raises nothing: [cycle_count] becomes the schedule's, each
    phase's lane gets the phase's green time and the signal GREEN when
    that green time is positive and RED otherwise, one history row is
    appended, the timestamp is refreshed and the samples are untouched. *)
Theorem schedule_applied :
  forall msgs w message,
    NoDup (map TrafficApi.phase_lane
             (TrafficApi.msg_phase_schedule message)) ->
    let b := ApiBackend.deliver_all msgs ApiBackend.init in
    let b' :=
      ApiBackend.on_mqtt_message w (ApiBackend.schedule_payload message) b in
    let c' := ApiBackend.current_state b' in
    ApiBackend.on_mqtt_message_error w (ApiBackend.schedule_payload message) b
    = None
    /\ ApiBackend.cycle_count c'
       = Num (Int (TrafficApi.msg_cycle_count message))
    /\ (forall p, In p (TrafficApi.msg_phase_schedule message) ->
          ApiBackend.vdict_get (ApiBackend.green_times c')
            (Str (TrafficApi.phase_lane p))
          = Some (Num (Int (TrafficApi.phase_green p)))
          /\ ApiBackend.vdict_get (ApiBackend.signals c')
               (Str (TrafficApi.phase_lane p))
             = Some (if 0 <? TrafficApi.phase_green p
                     then "GREEN" else "RED"))
    /\ ApiBackend.timestamp c' = Float (ApiBackend.t_stamp w)
    /\ ApiBackend.timestamps (ApiBackend.metrics_log b')
       = ApiBackend.deque_append 100
           (ApiBackend.timestamps (ApiBackend.metrics_log b))
           (ApiBackend.isoformat w)
    /\ ApiBackend.sensor_data b' = ApiBackend.sensor_data b.
Proof.
  intros msgs w message Hnd b b' c'.
  destruct (schedule_delivery w message b
              (deliver_all_ok msgs ApiBackend.init init_ok) Hnd)
    as (H1 & H2 & H3 & H4 & H5 & H6 & _).
  repeat split; auto; now apply H3.
Qed.

Lemma schedule_applied_witness :
  let b := ApiBackend.deliver_all example_deliveries ApiBackend.init in
  let b' :=
    ApiBackend.on_mqtt_message example_backend_world
      (ApiBackend.schedule_payload example_schedule) b in
  let c' := ApiBackend.current_state b' in
  ApiBackend.on_mqtt_message_error example_backend_world
    (ApiBackend.schedule_payload example_schedule) b
  = None
  /\ ApiBackend.cycle_count c'
     = Num (Int (TrafficApi.msg_cycle_count example_schedule))
  /\ (forall p, In p (TrafficApi.msg_phase_schedule example_schedule) ->
        ApiBackend.vdict_get (ApiBackend.green_times c')
          (Str (TrafficApi.phase_lane p))
        = Some (Num (Int (TrafficApi.phase_green p)))
        /\ ApiBackend.vdict_get (ApiBackend.signals c')
             (Str (TrafficApi.phase_lane p))
           = Some (if 0 <? TrafficApi.phase_green p then "GREEN" else "RED"))
  /\ ApiBackend.timestamp c'
     = Float (ApiBackend.t_stamp example_backend_world)
  /\ ApiBackend.timestamps (ApiBackend.metrics_log b')
     = ApiBackend.deque_append 100
         (ApiBackend.timestamps (ApiBackend.metrics_log b))
         (ApiBackend.isoformat example_backend_world)
  /\ ApiBackend.sensor_data b' = ApiBackend.sensor_data b.
Proof.
  apply (schedule_applied example_deliveries example_backend_world
           example_schedule).
  cbn. repeat constructor; cbn; intuition discriminate.
Defined.

(** X21: when the backend receives the schedule its own
    [AdaptiveController] (four lanes, [min_green] above 1) has just
    published from the backend's samples, all four signals of
    [current_state] read GREEN at once: every green time is at least
    [min_green - 1], hence positive, and the handler marks every lane
    with a positive green time GREEN. *)
Theorem own_schedule_all_green :
  forall msgs now self self' message w,
    TrafficApi.lanes self = four_lanes ->
    1 < TrafficApi.min_green self ->
    let b := ApiBackend.deliver_all msgs ApiBackend.init in
    TrafficApi.publish_schedule now self (ApiBackend.sensor_data b)
    = Ok (self', message) ->
    let b' :=
      ApiBackend.on_mqtt_message w (ApiBackend.schedule_payload message) b in
    ApiBackend.on_mqtt_message_error w (ApiBackend.schedule_payload message) b
    = None
    /\ forall lane,
         In lane four_lanes ->
         ApiBackend.vdict_get
           (ApiBackend.signals (ApiBackend.current_state b')) (Str lane)
         = Some "GREEN".
Proof.
  intros msgs now self self' message w Hlanes Hmin b Hpub b'.
  destruct (publish_schedule_phases _ _ _ _ _ Hpub)
    as (g & Hg & _ & _ & Hmap & Hgreen).
  assert (Hnd : NoDup (TrafficApi.lanes self)).
  { rewrite Hlanes. unfold four_lanes.
    repeat constructor; cbn; intuition discriminate. }
  destruct (schedule_delivery w message b
              (deliver_all_ok msgs ApiBackend.init init_ok))
    as (H1 & _ & H3 & _).
  { now rewrite Hmap. }
  split; [exact H1|].
  intros lane Hin. rewrite <- Hlanes, <- Hmap in Hin.
  apply in_map_iff in Hin as (p & <- & Hp).
  destruct (H3 p Hp) as [_ Hs]. fold b' in Hs. rewrite Hs.
  assert (Hpos : 0 < TrafficApi.phase_green p).
  { rewrite <- (Hgreen p Hp).
    assert (Hl : In (TrafficApi.phase_lane p) (TrafficApi.lanes self)).
    { rewrite <- Hmap. now apply in_map. }
    pose proof (api_green_lower self _ g Hnd Hg _ Hl). lia. }
  apply Z.ltb_lt in Hpos. now rewrite Hpos.
Qed.

Lemma own_schedule_all_green_witness :
  let b := ApiBackend.deliver_all example_deliveries ApiBackend.init in
  exists self' message,
    TrafficApi.publish_schedule (inject_Z 160) TrafficApi.init
      (ApiBackend.sensor_data b)
    = Ok (self', message)
    /\ ApiBackend.on_mqtt_message_error example_backend_world
         (ApiBackend.schedule_payload message) b
       = None
    /\ forall lane,
         In lane four_lanes ->
         ApiBackend.vdict_get
           (ApiBackend.signals
              (ApiBackend.current_state
                 (ApiBackend.on_mqtt_message example_backend_world
                    (ApiBackend.schedule_payload message) b)))
           (Str lane)
         = Some "GREEN".
Proof.
  intros b.
  destruct (TrafficApi.publish_schedule (inject_Z 160) TrafficApi.init
              (ApiBackend.sensor_data b))
    as [[self' message]|e] eqn:Hpub; [|vm_compute in Hpub; discriminate].
  exists self', message. split; [reflexivity|].
  apply (own_schedule_all_green example_deliveries (inject_Z 160)
           TrafficApi.init self' message example_backend_world).
  - reflexivity.
  - reflexivity.
  - exact Hpub.
Defined.



(** * The CSV log *)

Section CsvLog.
Import EdgeController.



End CsvLog.



(** * The dashboard's message handler *)

Section DashboardFacts.
Import Dashboard.
Local Open Scope dashboard_scope.

Ltac conjs := repeat match goal with |- _ /\ _ => split end.

Lemma dash_bind_modify {B : Type} f (k : unit -> M B) d :
  bind (modify f) k d = k tt (f d).
Proof. reflexivity. Qed.

Lemma dash_bind_ok {A B : Type} (m : M A) (k : A -> M B) d a d1 :
  m d = (Ok a, d1) -> bind m k d = k a d1.
Proof. intros H. unfold bind. now rewrite H. Qed.

Lemma dash_bind_raised {A B : Type} (m : M A) (k : A -> M B) d e d1 :
  m d = (Raise e, d1) -> bind m k d = (Raise e, d1).
Proof. intros H. unfold bind. now rewrite H. Qed.

Lemma dash_bind_reads {A B : Type} (f : Globals -> result A) (k : A -> M B) d :
  bind (reads f) k d
  = match f d with
    | Ok a => k a d
    | Raise e => (Raise e, d)
    end.
Proof. unfold bind, reads. destruct (f d); reflexivity. Qed.

Lemma vdict_set_present_keys {V : Type} (d : ApiBackend.vdict V) k v :
  ApiBackend.vdict_get d k <> None ->
  map fst (ApiBackend.vdict_set d k v) = map fst d.
Proof.
  induction d as [|[k0 v0] d IH]; simpl; [congruence|].
  destruct (ApiBackend.key_eqb k0 k); simpl; [reflexivity|].
  intros H. f_equal. now apply IH.
Qed.

Lemma vdict_key_present {V : Type} (d : ApiBackend.vdict V) k :
  In k (map fst d) -> ApiBackend.vdict_get d k <> None.
Proof.
  induction d as [|[k0 v0] d IH]; simpl; [tauto|].
  intros [->|Hin].
  - now rewrite key_eqb_refl.
  - destruct (ApiBackend.key_eqb k0 k); [discriminate|auto].
Qed.

Lemma dash_density_branch_effect w payload d :
  let r := density_branch w payload d in
  let c := current_state d in
  let c' := current_state (snd r) in
  let m := metrics_log d in
  let m' := metrics_log (snd r) in
  green_times c' = green_times c
  /\ signals c' = signals c
  /\ (forall k, ApiBackend.vdict_get (densities c) k <> None ->
                ApiBackend.vdict_get (densities c') k <> None)
  /\ timestamps m' = timestamps m
  /\ density_log m' = density_log m
  /\ green_log m' = green_log m
  /\ (latencies m' = latencies m
      \/ exists x, latencies m' = ApiBackend.deque_append 100 (latencies m) x)
  /\ (sensor_history (snd r) = sensor_history d
      \/ exists l entries x,
           dict_get (sensor_history d) l = Some entries
           /\ sensor_history (snd r)
              = dict_set (sensor_history d) l
                  (ApiBackend.deque_append 60 entries x)).
Proof.
  intros r c c' m m'. subst r c' m'.
  unfold density_branch, getitem.
  unfold bind, update_state, update_log, modify, lift, reads, ret.
  cbn [fst snd].
  destruct (dict_get payload "lane") as [lane|]; cbn;
    [|conjs; auto].
  destruct (dict_get payload "density_pct") as [density|]; cbn;
    [|conjs; auto].
  assert (Hkeep : forall k,
            ApiBackend.vdict_get (densities c) k <> None ->
            ApiBackend.vdict_get
              (ApiBackend.vdict_set (densities c) lane density) k <> None)
    by (intros k; apply vdict_set_keeps).
  destruct (dict_get payload "ts") as [[n| |]|]; cbn;
    try (conjs; auto; fail).
  - destruct lane as [x|l|]; cbn; try (conjs; eauto; fail).
    unfold getitem.
    destruct (dict_get (sensor_history d) l) as [entries|] eqn:Hs; cbn.
    + conjs; eauto. right. exists l, entries. eexists.
      split; [exact Hs|reflexivity].
    + conjs; eauto.
  - destruct lane as [x|l|]; cbn; try (conjs; eauto; fail).
    unfold getitem.
    destruct (dict_get (sensor_history d) l) as [entries|] eqn:Hs; cbn.
    + conjs; eauto. right. exists l, entries. eexists.
      split; [exact Hs|reflexivity].
    + conjs; eauto.
Qed.

Lemma dash_apply_schedule_effect schedule : forall d,
  let r := apply_schedule schedule d in
  let c := current_state d in
  let c' := current_state (snd r) in
  fst r = Ok tt
  /\ metrics_log (snd r) = metrics_log d
  /\ sensor_history (snd r) = sensor_history d
  /\ densities c' = densities c
  /\ signals c' = signals c
  /\ cycle_count c' = cycle_count c
  /\ (forall k, ApiBackend.vdict_get (green_times c) k <> None ->
                ApiBackend.vdict_get (green_times c') k <> None).
Proof.
  induction schedule as [|phase rest IH]; intros d.
  - cbn. conjs; auto.
  - cbn [apply_schedule]. cbv zeta. unfold update_state.
    rewrite dash_bind_modify.
    match goal with
    | |- context [apply_schedule rest ?s] => specialize (IH s); set (d1 := s) in *
    end.
    cbv zeta in IH. destruct IH as (Hf & Hm & Hs & Hd & Hsig & Hc & Hg).
    rewrite Hf, Hm, Hs, Hd, Hsig, Hc. cbn. conjs; auto.
    intros k Hk. apply Hg. cbn. now apply vdict_set_keeps.
Qed.

Lemma update_signals_cons lane rest d :
  update_signals (lane :: rest) d
  = match ApiBackend.vgetitem (green_times (current_state d)) lane with
    | Ok green =>
        match ApiBackend.py_gt0 green with
        | Ok positive =>
            update_signals rest
              (set_current_state
                 (set_signal lane (if positive then "GREEN" else "RED")
                    (current_state d)) d)
        | Raise e => (Raise e, d)
        end
    | Raise e => (Raise e, d)
    end.
Proof.
  cbn [update_signals]. unfold bind at 1. unfold reads at 1.
  destruct (ApiBackend.vgetitem _ lane) as [green|e]; [|reflexivity].
  unfold bind at 1. unfold lift at 1.
  destruct (ApiBackend.py_gt0 green) as [positive|e]; [|reflexivity].
  unfold update_state. now rewrite dash_bind_modify.
Qed.

Lemma update_signals_effect lanes : forall d,
  (forall k, In k lanes ->
     ApiBackend.vdict_get (signals (current_state d)) k <> None) ->
  let r := update_signals lanes d in
  let c := current_state d in
  let c' := current_state (snd r) in
  metrics_log (snd r) = metrics_log d
  /\ sensor_history (snd r) = sensor_history d
  /\ densities c' = densities c
  /\ green_times c' = green_times c
  /\ cycle_count c' = cycle_count c
  /\ map fst (signals c') = map fst (signals c).
Proof.
  induction lanes as [|lane rest IH]; intros d Hkeys; cbv zeta.
  - cbn. conjs; auto.
  - rewrite update_signals_cons.
    destruct (ApiBackend.vgetitem _ lane) as [green|e];
      [|cbn; conjs; auto].
    destruct (ApiBackend.py_gt0 green) as [positive|e];
      [|cbn; conjs; auto].
    match goal with
    | |- context [update_signals rest ?s] => specialize (IH s); set (d1 := s) in *
    end.
    cbv zeta in IH. destruct IH as (Hm & Hs & Hd & Hg & Hc & Hk).
    { intros k Hin. subst d1. cbn. apply vdict_set_keeps.
      apply Hkeys. now right. }
    rewrite Hm, Hs, Hd, Hg, Hc, Hk. subst d1. cbn. conjs; auto.
    apply vdict_set_present_keys. apply Hkeys. now left.
Qed.

(** After a loop over distinct lane names that raised nothing, each of
    them shows GREEN exactly when its green time is positive. *)
Lemma update_signals_result names : NoDup names -> forall d,
  let r := update_signals (map Str names) d in
  fst r = Ok tt ->
  (forall a, ~ In a names ->
     ApiBackend.vdict_get (signals (current_state (snd r))) (Str a)
     = ApiBackend.vdict_get (signals (current_state d)) (Str a))
  /\ forall a, In a names ->
       exists g,
         ApiBackend.vdict_get (green_times (current_state d)) (Str a)
         = Some (Num g)
         /\ ApiBackend.vdict_get (signals (current_state (snd r))) (Str a)
            = Some (if num_ltb (Int 0) g then "GREEN" else "RED").
Proof.
  induction 1 as [|a names Hnotin Hnd IH]; intros d; cbv zeta.
  - cbn. intros _. split; [auto|intros a []].
  - cbn [map]. rewrite update_signals_cons. unfold ApiBackend.vgetitem.
    destruct (ApiBackend.vdict_get (green_times (current_state d)) (Str a))
      as [green|] eqn:Hgreen; [|cbn; discriminate].
    unfold ApiBackend.py_gt0.
    destruct green as [g|s|]; cbn [as_num rbind]; try (cbn; discriminate).
    match goal with
    | |- context [update_signals _ ?s] => specialize (IH s); set (d1 := s) in *
    end.
    cbv zeta in IH. intros Hok. destruct (IH Hok) as [Hother Hin].
    split.
    + intros b Hb. rewrite Hother by (intros Hin'; apply Hb; now right).
      subst d1. cbn. apply vdict_get_set_other.
      intros ->. apply Hb. now left.
    + intros b [<-|Hb].
      * exists g. split; [exact Hgreen|].
        rewrite (Hother a Hnotin). subst d1. cbn.
        apply vdict_get_set_same.
      * destruct (Hin b Hb) as (g' & Hg' & Hs'). exists g'.
        split; [exact Hg'|exact Hs'].
Qed.

Lemma dash_log_lanes_run d ts lat dn ds de dw gn gs ge gw
    xn xs xe xw yn ys ye yw :
  metrics_log d
  = {| timestamps := ts;
       density_log := [("north", dn); ("south", ds); ("east", de);
                       ("west", dw)];
       green_log := [("north", gn); ("south", gs); ("east", ge);
                     ("west", gw)];
       latencies := lat |} ->
  ApiBackend.vdict_get (densities (current_state d)) (Str "north") = Some xn ->
  ApiBackend.vdict_get (densities (current_state d)) (Str "south") = Some xs ->
  ApiBackend.vdict_get (densities (current_state d)) (Str "east") = Some xe ->
  ApiBackend.vdict_get (densities (current_state d)) (Str "west") = Some xw ->
  ApiBackend.vdict_get (green_times (current_state d)) (Str "north")
  = Some yn ->
  ApiBackend.vdict_get (green_times (current_state d)) (Str "south")
  = Some ys ->
  ApiBackend.vdict_get (green_times (current_state d)) (Str "east")
  = Some ye ->
  ApiBackend.vdict_get (green_times (current_state d)) (Str "west")
  = Some yw ->
  log_lanes four_lanes d
  = (Ok tt,
     set_metrics_log
       {| timestamps := ts;
          density_log := [("north", ApiBackend.deque_append 60 dn xn);
                          ("south", ApiBackend.deque_append 60 ds xs);
                          ("east", ApiBackend.deque_append 60 de xe);
                          ("west", ApiBackend.deque_append 60 dw xw)];
          green_log := [("north", ApiBackend.deque_append 60 gn yn);
                        ("south", ApiBackend.deque_append 60 gs ys);
                        ("east", ApiBackend.deque_append 60 ge ye);
                        ("west", ApiBackend.deque_append 60 gw yw)];
          latencies := lat |} d).
Proof.
  destruct d as [c m sh]. cbn [metrics_log current_state].
  intros -> Hxn Hxs Hxe Hxw Hyn Hys Hye Hyw.
  unfold four_lanes, log_lanes, log_lane, bind, reads, update_log, modify,
    ApiBackend.vgetitem, getitem.
  cbn. rewrite Hxn. cbn. rewrite Hyn. cbn. rewrite Hxs. cbn. rewrite Hys.
  cbn. rewrite Hxe. cbn. rewrite Hye. cbn. rewrite Hxw. cbn. rewrite Hyw.
  cbn. reflexivity.
Qed.

Lemma dashboard_ok_frame d d' :
  sensor_history d' = sensor_history d ->
  metrics_log d' = metrics_log d ->
  map fst (signals (current_state d')) = map fst (signals (current_state d)) ->
  (forall k, ApiBackend.vdict_get (densities (current_state d)) k <> None ->
             ApiBackend.vdict_get (densities (current_state d')) k <> None) ->
  (forall k, ApiBackend.vdict_get (green_times (current_state d)) k <> None ->
             ApiBackend.vdict_get (green_times (current_state d')) k <> None) ->
  dashboard_ok d -> dashboard_ok d'.
Proof.
  intros Hs Hm Hsig Hd Hg (H1 & H2 & H3 & H4 & H5 & H6 & H7 & H8 & H9 & H10).
  unfold dashboard_ok. rewrite Hs, Hm, Hsig. conjs; auto.
  intros lane Hin. destruct (H5 lane Hin). split; auto.
Qed.

Lemma dash_stamp_after_ok (m : M unit) t d :
  dashboard_ok (snd (m d)) ->
  dashboard_ok (snd (bind m (fun _ => update_state (set_timestamp t)) d)).
Proof.
  unfold bind. destruct (m d) as [[u|e] d1]; cbn [snd]; [|auto].
  apply dashboard_ok_frame; auto.
Qed.

Lemma dash_density_branch_ok w payload d :
  dashboard_ok d -> dashboard_ok (snd (density_branch w payload d)).
Proof.
  intros (H1 & H2 & H3 & H4 & H5 & H6 & H7 & H8 & H9 & H10).
  destruct (dash_density_branch_effect w payload d)
    as (Hg & Hsig & Hd & Hts & Hdl & Hgl & Hlat & Hsh).
  set (d' := snd (density_branch w payload d)) in *.
  unfold dashboard_ok. rewrite Hts, Hdl, Hgl, Hg, Hsig.
  assert (Hkeys : dict_keys (sensor_history d') = four_lanes
                  /\ forall lane entries,
                       dict_get (sensor_history d') lane = Some entries ->
                       (List.length entries <= 60)%nat).
  { destruct Hsh as [->|(l & entries & x & Hget & ->)]; [auto|].
    split.
    - erewrite dict_set_known_keys; eauto.
    - intros lane s' Hs'. destruct (string_dec l lane) as [->|Hne].
      + rewrite dict_get_set_same in Hs'. inversion Hs'; subst.
        rewrite deque_append_length. lia.
      + rewrite dict_get_set_other in Hs' by assumption. eauto. }
  destruct Hkeys as [Hk Hb].
  conjs; auto.
  - intros lane Hin. destruct (H5 lane Hin). split; auto.
  - destruct Hlat as [->|[x ->]]; [assumption|].
    rewrite deque_append_length. lia.
Qed.

Lemma dash_log_after_schedule t d :
  dashboard_ok d ->
  exists m,
    log_lanes four_lanes
      (set_metrics_log (append_timestamp t (metrics_log d)) d)
    = (Ok tt, set_metrics_log m d)
    /\ timestamps m = ApiBackend.deque_append 60 (timestamps (metrics_log d)) t
    /\ dashboard_ok (set_metrics_log m d).
Proof.
  intros (H1 & H2 & H3 & H4 & H5 & H6 & H7 & H8 & H9 & H10).
  destruct (dict_keys_four _ H2) as (dn & ds & de & dw & Hdl).
  destruct (dict_keys_four _ H3) as (gn & gs & ge & gw & Hgl).
  destruct (H5 "north") as [Hxn Hyn]; [unfold four_lanes; simpl; auto|].
  destruct (H5 "south") as [Hxs Hys]; [unfold four_lanes; simpl; auto|].
  destruct (H5 "east") as [Hxe Hye]; [unfold four_lanes; simpl; auto|].
  destruct (H5 "west") as [Hxw Hyw]; [unfold four_lanes; simpl; auto|].
  destruct (ApiBackend.vdict_get (densities (current_state d)) (Str "north"))
    as [xn|] eqn:Exn; [|congruence].
  destruct (ApiBackend.vdict_get (densities (current_state d)) (Str "south"))
    as [xs|] eqn:Exs; [|congruence].
  destruct (ApiBackend.vdict_get (densities (current_state d)) (Str "east"))
    as [xe|] eqn:Exe; [|congruence].
  destruct (ApiBackend.vdict_get (densities (current_state d)) (Str "west"))
    as [xw|] eqn:Exw; [|congruence].
  destruct (ApiBackend.vdict_get (green_times (current_state d)) (Str "north"))
    as [yn|] eqn:Eyn; [|congruence].
  destruct (ApiBackend.vdict_get (green_times (current_state d)) (Str "south"))
    as [ys|] eqn:Eys; [|congruence].
  destruct (ApiBackend.vdict_get (green_times (current_state d)) (Str "east"))
    as [ye|] eqn:Eye; [|congruence].
  destruct (ApiBackend.vdict_get (green_times (current_state d)) (Str "west"))
    as [yw|] eqn:Eyw; [|congruence].
  set (d2 := set_metrics_log (append_timestamp t (metrics_log d)) d).
  rewrite (dash_log_lanes_run d2
             (ApiBackend.deque_append 60 (timestamps (metrics_log d)) t)
             (latencies (metrics_log d))
             dn ds de dw gn gs ge gw xn xs xe xw yn ys ye yw);
    try assumption.
  - eexists. split; [reflexivity|].
    cbn [timestamps latencies]. split; [reflexivity|].
    unfold dashboard_ok.
    cbn [set_metrics_log metrics_log current_state sensor_history timestamps
         density_log green_log latencies dict_keys map fst].
    assert (Hlen : forall l : list value,
              List.length l = List.length (timestamps (metrics_log d)) ->
              forall x,
                List.length (ApiBackend.deque_append 60 l x)
                = List.length (ApiBackend.deque_append 60
                                 (timestamps (metrics_log d)) t)).
    { intros l Hl x. rewrite !deque_append_length. now rewrite Hl. }
    conjs; auto.
    + rewrite deque_append_length. lia.
    + apply four_dict_get; apply Hlen.
      * apply (H9 "north"). now rewrite Hdl.
      * apply (H9 "south"). now rewrite Hdl.
      * apply (H9 "east"). now rewrite Hdl.
      * apply (H9 "west"). now rewrite Hdl.
    + apply four_dict_get; apply Hlen.
      * apply (H10 "north"). now rewrite Hgl.
      * apply (H10 "south"). now rewrite Hgl.
      * apply (H10 "east"). now rewrite Hgl.
      * apply (H10 "west"). now rewrite Hgl.
  - subst d2. cbn. unfold append_timestamp. now rewrite Hdl, Hgl.
Qed.

(** The schedule branch, step by step: an exception can only come from
    the loop over the signals. *)
Lemma dash_schedule_branch_run w payload schedule d :
  dashboard_ok d ->
  let d0 := set_current_state
              (set_cycle_count
                 (dict_get_default payload "cycle_count" (Num (Int 0)))
                 (current_state d)) d in
  let d1 := snd (apply_schedule schedule d0) in
  let r := update_signals (map Str four_lanes) d1 in
  dashboard_ok d1
  /\ match fst r with
     | Ok _ =>
         exists m,
           schedule_branch w payload schedule d
           = (Ok tt, set_metrics_log m (snd r))
           /\ timestamps m
              = ApiBackend.deque_append 60 (timestamps (metrics_log d))
                  (ApiBackend.isoformat w)
           /\ dashboard_ok (set_metrics_log m (snd r))
     | Raise e =>
         schedule_branch w payload schedule d = (Raise e, snd r)
         /\ dashboard_ok (snd r)
     end.
Proof.
  intros Hok d0 d1 r.
  assert (Hok0 : dashboard_ok d0)
    by (revert Hok; apply dashboard_ok_frame; auto).
  destruct (dash_apply_schedule_effect schedule d0)
    as (Hf & Hm & Hs & Hd & Hsig & _ & Hg).
  fold d1 in Hm, Hs, Hd, Hsig, Hg.
  assert (Hok1 : dashboard_ok d1).
  { revert Hok0. apply dashboard_ok_frame; auto.
    - now rewrite Hsig.
    - now rewrite Hd. }
  split; [exact Hok1|].
  assert (Hkeys : map fst (signals (current_state d1)) = map Str four_lanes).
  { destruct Hok1 as (_ & _ & _ & H4 & _). exact H4. }
  destruct (update_signals_effect (map Str four_lanes) d1)
    as (Hm2 & Hs2 & Hd2 & Hg2 & _ & Hk2).
  { intros k Hin. apply vdict_key_present. now rewrite Hkeys. }
  subst r.
  assert (Hok2 : dashboard_ok (snd (update_signals (map Str four_lanes) d1))).
  { revert Hok1. apply dashboard_ok_frame; auto.
    - now rewrite Hd2.
    - now rewrite Hg2. }
  unfold schedule_branch, update_state, update_log.
  rewrite dash_bind_modify. fold d0.
  assert (Hrun0 : apply_schedule schedule d0 = (Ok tt, d1)).
  { subst d1. rewrite <- Hf. now destruct (apply_schedule schedule d0). }
  rewrite (dash_bind_ok _ _ _ _ _ Hrun0).
  rewrite dash_bind_reads. cbv beta iota. rewrite Hkeys.
  destruct (update_signals (map Str four_lanes) d1) as [[u|e] d2] eqn:Hr;
    cbn [fst snd] in *.
  - rewrite (dash_bind_ok _ _ _ _ _ Hr), dash_bind_modify.
    destruct (dash_log_after_schedule (ApiBackend.isoformat w) d2 Hok2)
      as (m & Hrun & Hts & Hokm).
    exists m. rewrite Hrun. rewrite Hm2, Hm in Hts. auto.
  - rewrite (dash_bind_raised _ _ _ _ _ Hr). auto.
Qed.

Lemma dash_on_message_ok w payload d :
  dashboard_ok d -> dashboard_ok (on_message w payload d).
Proof.
  intros Hok. unfold on_message, on_message_body.
  apply dash_stamp_after_ok.
  destruct (dict_get (ApiBackend.fields payload) "density_pct").
  - now apply dash_density_branch_ok.
  - destruct (ApiBackend.phase_schedule payload) as [schedule|].
    + destruct (dash_schedule_branch_run w (ApiBackend.fields payload)
                  schedule d Hok) as [_ H].
      cbv zeta in H.
      destruct (fst (update_signals _ _)).
      * destruct H as (m & -> & _ & Hokm). exact Hokm.
      * destruct H as [-> Hok']. exact Hok'.
    + exact Hok.
Qed.

Lemma dash_init_ok : dashboard_ok init.
Proof.
  unfold dashboard_ok, init.
  cbn [metrics_log current_state sensor_history timestamps density_log
       green_log latencies densities green_times signals dict_keys map fst
       List.length].
  conjs; auto; try lia.
  - intros lane [<-|[<-|[<-|[<-|[]]]]]; cbn; split; discriminate.
  - apply four_dict_get; simpl; lia.
  - apply four_dict_get; reflexivity.
  - apply four_dict_get; reflexivity.
Qed.

Lemma dash_deliver_all_ok msgs : forall d,
  dashboard_ok d -> dashboard_ok (deliver_all msgs d).
Proof.
  induction msgs as [|m msgs IH]; intros d Hok; [exact Hok|].
  cbn. apply IH. now apply dash_on_message_ok.
Qed.
End DashboardFacts.

Section DashboardRuns.
Import Dashboard.

Lemma list_for_pure {A B : Type} (f : A -> result B) (g : A -> B) xs :
  (forall x, f x = Ok (g x)) -> list_for xs f = Ok (map g xs).
Proof.
  intros H. induction xs as [|x xs IH]; [reflexivity|].
  cbn. now rewrite H, IH.
Qed.

Lemma cell_cons {A : Type} (x : A) l i default :
  cell (x :: l) (S i) default = cell l i default.
Proof. reflexivity. Qed.

(** Reading a sequence cell by cell gives the sequence back. *)
Lemma cell_column {A : Type} (l : list A) default :
  map (fun i => cell l i default) (seq 0 (List.length l)) = l.
Proof.
  induction l as [|x l IH]; [reflexivity|].
  cbn [List.length seq map]. f_equal.
  rewrite <- seq_shift, map_map.
  rewrite <- IH at 2. apply map_ext. intros i. apply cell_cons.
Qed.

Lemma cell_column_len {A : Type} (l : list A) default n :
  List.length l = n ->
  map (fun i => cell l i default) (seq 0 n) = l.
Proof. intros <-. apply cell_column. Qed.

(** A loop over the signals raises only [TypeError], on a green time that
    is not a number. *)
Lemma update_signals_failure names : forall d e,
  (forall a, In a names ->
     ApiBackend.vdict_get (green_times (current_state d)) (Str a) <> None) ->
  fst (update_signals (map Str names) d) = Raise e ->
  e = TypeError
  /\ exists a v,
       In a names
       /\ ApiBackend.vdict_get (green_times (current_state d)) (Str a)
          = Some v
       /\ not_a_number v.
Proof.
  induction names as [|a names IH]; intros d e Hkeys; [cbn; discriminate|].
  cbn [map]. rewrite update_signals_cons. unfold ApiBackend.vgetitem.
  destruct (ApiBackend.vdict_get (green_times (current_state d)) (Str a))
    as [green|] eqn:Hgreen;
    [|exfalso; apply (Hkeys a); [now left|exact Hgreen]].
  unfold ApiBackend.py_gt0.
  destruct green as [g|s|]; cbn [as_num rbind].
  - intros H. apply IH in H.
    + destruct H as (-> & b & v & Hb & Hv & Hbad).
      split; [reflexivity|]. exists b, v. split; [now right|]. split; auto.
    + intros b Hb. cbn. apply Hkeys. now right.
  - cbn. intros H. inversion H. split; [reflexivity|].
    exists a, (Str s). split; [now left|]. split; [exact Hgreen|].
    intros n. discriminate.
  - cbn. intros H. inversion H. split; [reflexivity|].
    exists a, Null. split; [now left|]. split; [exact Hgreen|].
    intros n. discriminate.
Qed.
End DashboardRuns.

(** X24: between two calls of the dashboard's handler, whatever payloads
    arrived since the start, the history holds at most 60 rows and
    [export_data] writes exactly them: one row per timestamp, whose cells
    are the entries of the eight lane logs at that position, so that each
    exported column is the corresponding log and none of the [else]
    fallbacks is used. *)
Theorem dashboard_export_complete :
  forall msgs,
    let d := Dashboard.deliver_all msgs Dashboard.init in
    let m := Dashboard.metrics_log d in
    (List.length (Dashboard.timestamps m) <= 60)%nat
    /\ exists rows,
         Dashboard.export_rows d = Ok rows
         /\ map Dashboard.export_timestamp rows = Dashboard.timestamps m
         /\ forall j lane,
              nth_error four_lanes j = Some lane ->
              dict_get (Dashboard.density_log m) lane
              = Some (map (fun r => nth j (Dashboard.export_densities r) Null)
                        rows)
              /\ dict_get (Dashboard.green_log m) lane
                 = Some (map (fun r => nth j (Dashboard.export_greens r) Null)
                           rows).
Proof.
  intros msgs d m.
  destruct (dash_deliver_all_ok msgs Dashboard.init dash_init_ok)
    as (_ & H2 & H3 & _ & _ & _ & _ & H8 & H9 & H10).
  fold d in H2, H3, H8, H9, H10. fold m in H2, H3, H8, H9, H10.
  split; [exact H8|].
  destruct (dict_keys_four _ H2) as (dn & ds & de & dw & Hdl).
  destruct (dict_keys_four _ H3) as (gn & gs & ge & gw & Hgl).
  assert (Ldn : List.length dn = List.length (Dashboard.timestamps m))
    by (apply (H9 "north"); now rewrite Hdl).
  assert (Lds : List.length ds = List.length (Dashboard.timestamps m))
    by (apply (H9 "south"); now rewrite Hdl).
  assert (Lde : List.length de = List.length (Dashboard.timestamps m))
    by (apply (H9 "east"); now rewrite Hdl).
  assert (Ldw : List.length dw = List.length (Dashboard.timestamps m))
    by (apply (H9 "west"); now rewrite Hdl).
  assert (Lgn : List.length gn = List.length (Dashboard.timestamps m))
    by (apply (H10 "north"); now rewrite Hgl).
  assert (Lgs : List.length gs = List.length (Dashboard.timestamps m))
    by (apply (H10 "south"); now rewrite Hgl).
  assert (Lge : List.length ge = List.length (Dashboard.timestamps m))
    by (apply (H10 "east"); now rewrite Hgl).
  assert (Lgw : List.length gw = List.length (Dashboard.timestamps m))
    by (apply (H10 "west"); now rewrite Hgl).
  unfold Dashboard.export_rows. fold m. rewrite Hdl, Hgl.
  erewrite list_for_pure; [|intros i; unfold four_lanes, getitem; cbn;
                            reflexivity].
  eexists. split; [reflexivity|]. rewrite !map_map.
  cbn [Dashboard.export_timestamp Dashboard.export_densities
       Dashboard.export_greens].
  split; [apply cell_column|].
  intros j lane Hj. unfold four_lanes in Hj.
  destruct j as [|[|[|[|j]]]]; cbn in Hj;
    try (inversion Hj; subst lane; cbn;
         split; f_equal; symmetry; rewrite map_map;
         cbn [nth Dashboard.export_densities Dashboard.export_greens];
         now apply cell_column_len).
  destruct j; discriminate.
Qed.



(** X26: when the dashboard receives a schedule, in any state reached
    from the initial globals, either every green time of the four lanes
    is a number, and then the state emitted to the clients is the stored
    one, each of the four signals in it reads GREEN exactly when the
    lane's current green time is positive (also for lanes the schedule
    does not mention) and one history row is appended; or some green time
    is not a number, and then nothing is emitted and no row is
    appended. *)
Theorem dashboard_signals_follow_green :
  forall msgs w payload schedule,
    dict_get (ApiBackend.fields payload) "density_pct" = None ->
    ApiBackend.phase_schedule payload = Some schedule ->
    let d := Dashboard.deliver_all msgs Dashboard.init in
    let d' := Dashboard.on_message w payload d in
    let c' := Dashboard.current_state d' in
    match Dashboard.on_message_emits w payload d with
    | Some emitted =>
        emitted = c'
        /\ (forall lane, In lane four_lanes ->
              exists g,
                ApiBackend.vdict_get (Dashboard.green_times c') (Str lane)
                = Some (Num g)
                /\ ApiBackend.vdict_get (Dashboard.signals c') (Str lane)
                   = Some (if num_ltb (Int 0) g then "GREEN" else "RED"))
        /\ Dashboard.timestamps (Dashboard.metrics_log d')
           = ApiBackend.deque_append 60
               (Dashboard.timestamps (Dashboard.metrics_log d))
               (ApiBackend.isoformat w)
    | None =>
        (exists lane v,
           In lane four_lanes
           /\ ApiBackend.vdict_get (Dashboard.green_times c') (Str lane)
              = Some v
           /\ not_a_number v)
        /\ Dashboard.timestamps (Dashboard.metrics_log d')
           = Dashboard.timestamps (Dashboard.metrics_log d)
    end.
Proof.
  intros msgs w payload schedule Hdp Hsched d d' c'. subst c' d'.
  pose proof (dash_deliver_all_ok msgs Dashboard.init dash_init_ok) as Hok.
  fold d in Hok.
  unfold Dashboard.on_message, Dashboard.on_message_emits,
    Dashboard.on_message_body.
  rewrite Hdp, Hsched.
  destruct (dash_schedule_branch_run w (ApiBackend.fields payload)
              schedule d Hok) as [Hok1 Hrun].
  cbv zeta in Hrun.
  set (d0 := Dashboard.set_current_state _ d) in *.
  set (d1 := snd (Dashboard.apply_schedule schedule d0)) in *.
  destruct (dash_apply_schedule_effect schedule d0) as (_ & Hm1 & _).
  fold d1 in Hm1.
  assert (Hnd : NoDup four_lanes).
  { unfold four_lanes. repeat constructor; cbn; intuition discriminate. }
  assert (Hsig : forall k,
            In k (map Str four_lanes) ->
            ApiBackend.vdict_get
              (Dashboard.signals (Dashboard.current_state d1)) k <> None).
  { intros k Hin. apply vdict_key_present.
    destruct Hok1 as (_ & _ & _ & H4 & _). now rewrite H4. }
  destruct (update_signals_effect (map Str four_lanes) d1 Hsig)
    as (Hm2 & _ & _ & Hg2 & _).
  pose proof (update_signals_result four_lanes Hnd d1) as Hres.
  pose proof (update_signals_failure four_lanes d1) as Hfail.
  cbv zeta in Hres.
  destruct (Dashboard.update_signals (map Str four_lanes) d1)
    as [[u|e] d2] eqn:Hr; cbn [fst snd] in *.
  - destruct Hrun as (m & Hrun & Hts & _).
    rewrite (dash_bind_ok _ _ _ _ _ Hrun).
    unfold Dashboard.update_state, Dashboard.modify. cbn.
    split; [reflexivity|]. split; [|exact Hts].
    intros lane Hin. destruct u.
    destruct (Hres eq_refl) as [_ Hin'].
    destruct (Hin' lane Hin) as (g & Hg & Hs).
    exists g. rewrite Hg2. auto.
  - destruct Hrun as [Hrun _].
    rewrite (dash_bind_raised _ _ _ _ _ Hrun). cbn [snd].
    destruct (Hfail e) as (_ & a & v & Ha & Hv & Hbad); [|reflexivity|].
    { intros a Ha. destruct Hok1 as (_ & _ & _ & _ & H5 & _).
      now apply H5. }
    split.
    + exists a, v. rewrite Hg2. auto.
    + now rewrite Hm2, Hm1.
Qed.

Lemma dashboard_signals_follow_green_witness :
  let d := Dashboard.deliver_all example_deliveries Dashboard.init in
  let payload := ApiBackend.schedule_payload example_schedule in
  let d' := Dashboard.on_message example_backend_world payload d in
  let c' := Dashboard.current_state d' in
  match Dashboard.on_message_emits example_backend_world payload d with
  | Some emitted =>
      emitted = c'
      /\ (forall lane, In lane four_lanes ->
            exists g,
              ApiBackend.vdict_get (Dashboard.green_times c') (Str lane)
              = Some (Num g)
              /\ ApiBackend.vdict_get (Dashboard.signals c') (Str lane)
                 = Some (if num_ltb (Int 0) g then "GREEN" else "RED"))
      /\ Dashboard.timestamps (Dashboard.metrics_log d')
         = ApiBackend.deque_append 60
             (Dashboard.timestamps (Dashboard.metrics_log d))
             (ApiBackend.isoformat example_backend_world)
  | None =>
      (exists lane v,
         In lane four_lanes
         /\ ApiBackend.vdict_get (Dashboard.green_times c') (Str lane)
            = Some v
         /\ not_a_number v)
      /\ Dashboard.timestamps (Dashboard.metrics_log d')
         = Dashboard.timestamps (Dashboard.metrics_log d)
  end.
Proof.
  apply (dashboard_signals_follow_green example_deliveries
           example_backend_world
           (ApiBackend.schedule_payload example_schedule)
           (map (fun p =>
                   [("lane", Str (TrafficApi.phase_lane p));
                    ("green", Num (Int (TrafficApi.phase_green p)));
                    ("yellow", Num (Int (TrafficApi.phase_yellow p)))])
              (TrafficApi.msg_phase_schedule example_schedule))).
  - reflexivity.
  - reflexivity.
Defined.
